(** * Imperio Sucata ERP: the ledger aggregation functions of
      [functions/index.js], embedded and checked against their specification.

    The Cloud Functions of [functions/index.js] keep derived aggregates
    (inventory, live summary, daily reports, low-stock notification) over the
    [transactions] collection.  Each function is embedded as a pure function
    over an explicit store; Firestore documents are finite maps from field
    names to values, JavaScript objects used as dictionaries are [gmap]s, and
    the clock, the server time and the outcome of a transaction commit are
    explicit arguments.

    JavaScript numbers are modelled by [Z]: quantities and amounts are
    integers, on which the additions of JavaScript and of
    [FieldValue.increment] are exact below 2^53; amounts with a fractional
    part, which binary floating point rounds, are outside the model.  Sums
    are stated in the order in which the code adds.  Ledger entries arrive
    validated (their numeric fields are numbers), as the ledger writer
    guarantees. *)

From Stdlib Require Import ZArith Lia String Ascii.
From Equations Require Import Equations.
From stdpp Require Import base option strings list gmap sorting pretty.

Set Warnings "-register-all".

Local Open Scope string_scope.
Local Open Scope list_scope.
Local Open Scope Z_scope.

(** ** Firestore values *)

(** A stored field: a number, a string, a timestamp (milliseconds since the
    epoch), a boolean, an array or a nested map. *)
Inductive Value : Type :=
| VNum (n : Z)
| VStr (s : string)
| VTime (t : Z)
| VBool (b : bool)
| VList (items : list Value)
| VMap (fields : list (string * Value)).

(** The right-hand side of a field in an update object: one of the
    [admin.firestore.FieldValue] sentinels or plain data. *)
Inductive FieldValue : Type :=
| Increment (n : Z)
| ServerTimestamp
| Plain (v : Value).

Abbreviation Document := (gmap string Value).
Abbreviation Update := (gmap string FieldValue).

(** What a field holds after a merge-write of [fv] at server time [t].
    [FieldValue.increment] adds to a numeric field and sets the field to its
    operand when the field is missing or not a number. *)
Definition applyField (t : Z) (old : option Value) (fv : FieldValue) : Value :=
  match fv with
  | Increment n =>
      match old with
      | Some (VNum m) => VNum (m + n)
      | _ => VNum n
      end
  | ServerTimestamp => VTime t
  | Plain v => v
  end.

(** [ref.set(update, { merge: true })]: fields of the update are written,
    the others are kept; a missing document is created.  With [set] every
    key of the update object is one field name, dots included. *)
Definition setMerge (t : Z) (upd : Update) (doc : option Document) : Document :=
  merge (fun old fv =>
           match fv with
           | Some f => Some (applyField t old f)
           | None => old
           end) (default ∅ doc) upd.

(** A numeric field read as [data.field || 0]; the fields read this way are
    numbers whenever they are present. *)
Definition numOr0 (v : option Value) : Z :=
  match v with
  | Some (VNum n) => n
  | _ => 0
  end.

(** ** Calendar dates: [Date.prototype.toISOString().split("T")[0]]

    A [Date] is its time value, milliseconds since the epoch.  The functions
    run with the process time zone of the Cloud Functions runtime, UTC, so
    the local-time accessors of [Date] coincide with the UTC ones. *)

Definition MS_PER_DAY : Z := 86400000.

(** Day number (days since 1970-01-01) to proleptic Gregorian
    (year, month 1..12, day 1..31). *)
Definition civil_from_days (z0 : Z) : Z * Z * Z :=
  let z := z0 + 719468 in
  let era := z / 146097 in
  let doe := z - era * 146097 in
  let yoe := (doe - doe / 1460 + doe / 36524 - doe / 146096) / 365 in
  let y := yoe + era * 400 in
  let doy := doe - (365 * yoe + yoe / 4 - yoe / 100) in
  let mp := (5 * doy + 2) / 153 in
  let d := doy - (153 * mp + 2) / 5 + 1 in
  let m := if mp <? 10 then mp + 3 else mp - 9 in
  (if m <=? 2 then y + 1 else y, m, d).

(** (year, month 1..12, day) to day number; days out of the month's range
    roll over into the neighbouring months, as [new Date(y, m, d)] does. *)
Definition days_from_civil (y0 m d : Z) : Z :=
  let y := if m <=? 2 then y0 - 1 else y0 in
  let era := y / 400 in
  let yoe := y - era * 400 in
  let doy := (153 * (if 2 <? m then m - 3 else m + 9) + 2) / 5 + d - 1 in
  let doe := yoe * 365 + yoe / 4 - yoe / 100 + doy in
  era * 146097 + doe - 719468.

Definition digit (n : Z) : ascii :=
  ascii_of_nat (48 + Z.to_nat (n mod 10)).

(** The [w] low decimal digits of [n], most significant first. *)
Fixpoint pad (w : nat) (n : Z) : string :=
  match w with
  | O => EmptyString
  | S w' => pad w' (n / 10) +:+ String (digit n) EmptyString
  end.

Definition isoYear (y : Z) : string :=
  if (0 <=? y) && (y <=? 9999) then pad 4 y
  else if y <? 0 then "-" +:+ pad 6 (- y)
  else "+" +:+ pad 6 y.

Definition isoDate (ymd : Z * Z * Z) : string :=
  let '(y, m, d) := ymd in
  isoYear y +:+ "-" +:+ pad 2 m +:+ "-" +:+ pad 2 d.

(** [date.toISOString().split("T")[0]] of a valid date. *)
Definition toISODate (ms : Z) : string :=
  isoDate (civil_from_days (ms / MS_PER_DAY)).

(** ** Query cache: [memoryCache], [getCachedData], [invalidateCache] *)

Record CacheEntry (A : Type) : Type := mkCacheEntry {
  cdata : A;
  ctimestamp : Z;
}.
Arguments mkCacheEntry {A} _ _.
Arguments cdata {A} _.
Arguments ctimestamp {A} _.

Definition CACHE_TTL : Z := 60000.

(** [getCachedData(key, fetchFn)]: [t_read] is the clock at the freshness
    test, [t_store] the clock when the fetched value is stored, [fetched]
    what [fetchFn] returns when it is called. *)
Definition getCachedData {A} (t_read t_store : Z) (key : string) (fetched : A)
    (memoryCache : gmap string (CacheEntry A)) : A * gmap string (CacheEntry A) :=
  match memoryCache !! key with
  | Some cached =>
      if bool_decide (t_read - ctimestamp cached < CACHE_TTL)
      then (cdata cached, memoryCache)
      else (fetched, <[key := mkCacheEntry fetched t_store]> memoryCache)
  | None => (fetched, <[key := mkCacheEntry fetched t_store]> memoryCache)
  end.

(** [key.startsWith(prefix)]. *)
Definition startsWith (key pre : string) : bool := String.prefix pre key.

(** [invalidateCache(prefix)]: every key that starts with the prefix is
    deleted. *)
Definition invalidateCache {A} (pre : string)
    (memoryCache : gmap string (CacheEntry A)) : gmap string (CacheEntry A) :=
  filter (fun kv => startsWith kv.1 pre = false) memoryCache.

(** ** Ledger entries: the documents of [transactions] *)

(** The [data] field of an entry.  A timestamp is taken to the millisecond,
    the precision of the [Date] bounds it is compared with.  [DDate] and
    [DString] carry the time value of the date ([None]: an Invalid Date); for
    a string it is the time value [new Date(s)] gives it. *)
Inductive DataField : Type :=
| DTimestamp (ms : Z)
| DDate (time : option Z)
| DString (s : string) (parsed : option Z)
| DNumber (n : Z)
| DBool (b : bool)
| DNull
| DUndefined.

Record Transaction : Type := mkTransaction {
  tipo : string;
  material : option string;
  quantidade : Z;
  valorTotal : Z;
  formaPagamento : option string;
  data : DataField;
}.

(** [s.toLowerCase()].  A string is its UTF-8 bytes.  The letters A to Z go
    to a to z.  The upper-case letters of Latin-1, U+00C0 to U+00DE without
    the sign U+00D7, are the byte 195 followed by a byte from 128 to 158
    other than 151, and go to the letter 32 further on.  Beyond Latin-1 the
    table of the language is not written out: [latin1] tells the strings
    this function is [toLowerCase] on. *)
Definition lowerAscii (c : ascii) : ascii :=
  let n := nat_of_ascii c in
  if ((65 <=? n) && (n <=? 90))%nat then ascii_of_nat (n + 32) else c.

Definition lowerLatin1 (c : ascii) : ascii :=
  let n := nat_of_ascii c in
  if ((128 <=? n) && (n <=? 158) && negb (n =? 151))%nat then ascii_of_nat (n + 32) else c.

Fixpoint toLowerCase (s : string) : string :=
  match s with
  | EmptyString => EmptyString
  | String c s' =>
      if (nat_of_ascii c =? 195)%nat then
        match s' with
        | EmptyString => String c EmptyString
        | String c2 s'' => String c (String (lowerLatin1 c2) (toLowerCase s''))
        end
      else String (lowerAscii c) (toLowerCase s')
  end.

(** The string is UTF-8 text of code points up to U+00FF: bytes below 128,
    and the bytes 194 and 195 each followed by a byte from 128 to 191. *)
Fixpoint latin1 (s : string) : bool :=
  match s with
  | EmptyString => true
  | String c s' =>
      let n := nat_of_ascii c in
      if (n <? 128)%nat then latin1 s'
      else if ((n =? 194) || (n =? 195))%nat then
        match s' with
        | EmptyString => false
        | String c2 s'' =>
            let n2 := nat_of_ascii c2 in
            (128 <=? n2)%nat && (n2 <=? 191)%nat && latin1 s''
        end
      else false
  end.

(** [x || dflt] on an optional string: [undefined] and the empty string are
    falsy. *)
Definition strOr (x : option string) (dflt : string) : string :=
  match x with
  | Some s => if String.eqb s "" then dflt else s
  | None => dflt
  end.

(** [x || 0] on a number. *)
Definition numOr (x : Z) (dflt : Z) : Z := if x =? 0 then dflt else x.

(** A string in a template literal: [undefined] prints as "undefined". *)
Definition template (x : option string) : string := default "undefined" x.

(** [if (material)]. *)
Definition truthy (x : option string) : bool :=
  match x with
  | Some s => negb (String.eqb s "")
  | None => false
  end.

(** Successive assignments [obj[k] = v] to an update object: a later
    assignment to a key replaces the earlier one. *)
Definition assign (obj : Update) (kvs : list (string * FieldValue)) : Update :=
  foldl (fun o kv => <[kv.1 := kv.2]> o) obj kvs.

(** ** The store *)

Record Db : Type := mkDb {
  transactions : list (string * Transaction);
  inventory : option Document;            (* inventory/current *)
  live_summary : option Document;         (* reports/live_summary *)
  daily_reports : gmap string Document;   (* daily_reports/{YYYY-MM-DD} *)
  notifications : list (string * Document);
}.

Inductive DocRef : Type :=
| InventoryCurrent
| ReportsLiveSummary
| DailyReportDoc (dateString : string).

(** One [set(ref, update, { merge: true })]. *)
Definition writeMerge (t : Z) (ref : DocRef) (upd : Update) (d : Db) : Db :=
  match ref with
  | InventoryCurrent =>
      mkDb (transactions d) (Some (setMerge t upd (inventory d))) (live_summary d)
           (daily_reports d) (notifications d)
  | ReportsLiveSummary =>
      mkDb (transactions d) (inventory d) (Some (setMerge t upd (live_summary d)))
           (daily_reports d) (notifications d)
  | DailyReportDoc k =>
      mkDb (transactions d) (inventory d) (live_summary d)
           (<[k := setMerge t upd (daily_reports d !! k)]> (daily_reports d))
           (notifications d)
  end.

(** A transaction buffers its writes; [commit] applies all of them at the
    server time of the commit. *)
Definition commit (t : Z) (writes : list (DocRef * Update)) (d : Db) : Db :=
  foldl (fun d w => writeMerge t w.1 w.2 d) d writes.

(** ** The mutation handler: [updateInventoryAndStatsOnChange] *)

Record Event : Type := mkEvent {
  beforeData : option Transaction;
  afterData : option Transaction;
}.

(** Lines 207-237: the reversal block, run when [beforeData] is present. *)
Definition reverseInv (b : Transaction) (invUpdate : Update) : Update :=
  let invIncrement :=
    if String.eqb (tipo b) "compra" then - quantidade b else quantidade b in
  assign invUpdate [(template (material b) +:+ ".quantidade", Increment invIncrement)].

Definition reverseStats (b : Transaction) (statsUpdate : Update) : Update :=
  let s1 := assign statsUpdate
              [("transacoesHoje", Increment (-1));
               ("totalTransacoesMes", Increment (-1))] in
  if String.eqb (tipo b) "venda" then
    assign s1 [("totalVendasMes", Increment (- valorTotal b));
               ("vendasHoje", Increment (- valorTotal b));
               ("vendasCountMes", Increment (-1))]
  else if String.eqb (tipo b) "compra" then
    assign s1 [("totalComprasMes", Increment (- valorTotal b));
               ("comprasHoje", Increment (- valorTotal b));
               ("comprasCountMes", Increment (-1))]
  else if String.eqb (tipo b) "despesa" then
    assign s1 [("totalDespesasMes", Increment (- valorTotal b));
               ("despesasCountMes", Increment (-1))]
  else s1.

(** Lines 240-269: the application block, run when [afterData] is present. *)
Definition applyInv (a : Transaction) (invUpdate : Update) : Update :=
  let invIncrement :=
    if String.eqb (tipo a) "compra" then quantidade a else - quantidade a in
  assign invUpdate [(template (material a) +:+ ".quantidade", Increment invIncrement)].

Definition applyStats (a : Transaction) (statsUpdate : Update) : Update :=
  let s1 := assign statsUpdate
              [("transacoesHoje", Increment 1);
               ("totalTransacoesMes", Increment 1)] in
  if String.eqb (tipo a) "venda" then
    assign s1 [("totalVendasMes", Increment (valorTotal a));
               ("vendasHoje", Increment (valorTotal a));
               ("vendasCountMes", Increment 1)]
  else if String.eqb (tipo a) "compra" then
    assign s1 [("totalComprasMes", Increment (valorTotal a));
               ("comprasHoje", Increment (valorTotal a));
               ("comprasCountMes", Increment 1)]
  else if String.eqb (tipo a) "despesa" then
    assign s1 [("totalDespesasMes", Increment (valorTotal a));
               ("despesasCountMes", Increment 1)]
  else s1.

Definition onBefore {A} (ev : Event) (f : Transaction -> A -> A) (x : A) : A :=
  match beforeData ev with Some b => f b x | None => x end.

Definition onAfter {A} (ev : Event) (f : Transaction -> A -> A) (x : A) : A :=
  match afterData ev with Some a => f a x | None => x end.

(** The update object written to [inventory/current]. *)
Definition invUpdate (ev : Event) : Update :=
  onAfter ev applyInv (onBefore ev reverseInv ∅).

(** The update object written to [reports/live_summary]; [now] is the clock
    read inside the transaction callback. *)
Definition statsUpdate (now : Z) (ev : Event) : Update :=
  let today := toISODate now in
  onAfter ev applyStats
    (onBefore ev reverseStats
       (assign ∅ [("updatedAt", ServerTimestamp);
                  ("lastTransactionDate", Plain (VStr today))])).

(** The callback of [db.runTransaction]: the writes it hands to the
    transaction, in order. *)
Definition transactionWrites (now : Z) (ev : Event) : list (DocRef * Update) :=
  [(InventoryCurrent, invUpdate ev); (ReportsLiveSummary, statsUpdate now ev)].

(** *** Exceptions *)

Inductive Exc (A : Type) : Type :=
| Ok (a : A)
| Raise (err : string).
Arguments Ok {A} _.
Arguments Raise {A} _.

Definition exc_bind {A B} (m : Exc A) (f : A -> Exc B) : Exc B :=
  match m with
  | Ok a => f a
  | Raise e => Raise e
  end.

Notation "'try!' x <- m 'in' k" := (exc_bind m (fun x => k))
  (at level 10, x name, m at level 100, k at level 200).

(** *** Lexical scope

    The identifiers an expression can see, with the value of the
    string-valued ones.  [today], [now] and [transaction] are declared inside
    the callback of [db.runTransaction] (lines 196-198) and are bound there
    only. *)
Inductive Binding : Type :=
| BString (s : string)
| BObject.

Abbreviation Scope := (gmap string Binding).

Definition handlerScope : Scope :=
  list_to_map
    [("admin", BObject); ("db", BObject); ("logger", BObject);
     ("memoryCache", BObject); ("event", BObject);
     ("inventoryRef", BObject); ("statsRef", BObject);
     ("beforeData", BObject); ("afterData", BObject)].

Definition callbackScope (now : Z) : Scope :=
  <["today" := BString (toISODate now)]>
    (<["now" := BObject]> (<["transaction" := BObject]> handlerScope)).

Definition resolve (sc : Scope) (x : string) : Exc Binding :=
  match sc !! x with
  | Some b => Ok b
  | None => Raise ("ReferenceError: " +:+ x +:+ " is not defined")
  end.

Definition resolveString (sc : Scope) (x : string) : Exc string :=
  try! b <- resolve sc x in
  match b with
  | BString s => Ok s
  | BObject => Raise ("TypeError: " +:+ x +:+ " is not a string")
  end.

(** *** [new Date(today + "T12:00:00Z")] *)

Definition digitVal (c : ascii) : option Z :=
  let n := nat_of_ascii c in
  if ((48 <=? n) && (n <=? 57))%nat then Some (Z.of_nat (n - 48)) else None.

Fixpoint parseDigits (acc : Z) (s : string) : option Z :=
  match s with
  | EmptyString => Some acc
  | String c s' =>
      match digitVal c with
      | Some d => parseDigits (10 * acc + d) s'
      | None => None
      end
  end.

(** The time value of midnight UTC of a date string "YYYY-MM-DD", or with
    an expanded year "+YYYYYY-MM-DD" or "-YYYYYY-MM-DD". *)
Definition parseISODate (s : string) : option Z :=
  let plus := String.eqb (substring 0 1 s) "+" in
  let minus := String.eqb (substring 0 1 s) "-" in
  let off := if plus || minus then 3%nat else 0%nat in
  if (String.length s =? 10 + off)%nat
     && String.eqb (substring (4 + off) 1 s) "-"
     && String.eqb (substring (7 + off) 1 s) "-"
  then
    match parseDigits 0 (substring (off / 3) (4 + off - off / 3) s),
          parseDigits 0 (substring (5 + off) 2 s),
          parseDigits 0 (substring (8 + off) 2 s) with
    | Some y, Some m, Some d =>
        if (1 <=? m) && (m <=? 12) && (1 <=? d) && (d <=? 31)
        then Some (days_from_civil (if minus then - y else y) m d * MS_PER_DAY)
        else None
    | _, _, _ => None
    end
  else None.

(** *** The daily-report block, lines 281-376 *)

Definition fpKey (t : Transaction) : string :=
  toLowerCase (strOr (formaPagamento t) "dinheiro").

(** Lines 292-329. *)
Definition reverseDaily (b : Transaction) (dailyUpdate : Update) : Update :=
  let fp := fpKey b in
  let m := template (material b) in
  let u1 := assign dailyUpdate [("totalTransactions", Increment (-1))] in
  let u2 :=
    if String.eqb (tipo b) "venda" then
      let u := assign u1 [("totalSales", Increment (- valorTotal b));
                          ("salesCount", Increment (-1))] in
      if truthy (material b) then
        assign u [("materialStats." +:+ m +:+ ".vendas", Increment (- valorTotal b));
                  ("materialStats." +:+ m +:+ ".quantidade", Increment (quantidade b))]
      else u
    else if String.eqb (tipo b) "compra" then
      let u := assign u1 [("totalPurchases", Increment (- valorTotal b));
                          ("purchasesCount", Increment (-1))] in
      if truthy (material b) then
        assign u [("materialStats." +:+ m +:+ ".compras", Increment (- valorTotal b));
                  ("materialStats." +:+ m +:+ ".quantidade", Increment (- quantidade b))]
      else u
    else if String.eqb (tipo b) "despesa" then
      assign u1 [("totalExpenses", Increment (- valorTotal b));
                 ("expensesCount", Increment (-1))]
    else u1 in
  assign u2 [("paymentStats." +:+ fp +:+ ".total", Increment (- valorTotal b));
             ("paymentStats." +:+ fp +:+ ".count", Increment (-1))].

(** Lines 331-371. *)
Definition applyDaily (a : Transaction) (dailyUpdate : Update) : Update :=
  let fp := fpKey a in
  let m := template (material a) in
  let u1 := assign dailyUpdate [("totalTransactions", Increment 1)] in
  let u2 :=
    if String.eqb (tipo a) "venda" then
      let u := assign u1 [("totalSales", Increment (valorTotal a));
                          ("salesCount", Increment 1)] in
      if truthy (material a) then
        assign u [("materialStats." +:+ m +:+ ".vendas", Increment (valorTotal a));
                  ("materialStats." +:+ m +:+ ".quantidade", Increment (- quantidade a));
                  ("materialStats." +:+ m +:+ ".transacoes", Increment 1)]
      else u
    else if String.eqb (tipo a) "compra" then
      let u := assign u1 [("totalPurchases", Increment (valorTotal a));
                          ("purchasesCount", Increment 1)] in
      if truthy (material a) then
        assign u [("materialStats." +:+ m +:+ ".compras", Increment (valorTotal a));
                  ("materialStats." +:+ m +:+ ".quantidade", Increment (quantidade a));
                  ("materialStats." +:+ m +:+ ".transacoes", Increment 1)]
      else u
    else if String.eqb (tipo a) "despesa" then
      assign u1 [("totalExpenses", Increment (valorTotal a));
                 ("expensesCount", Increment 1)]
    else u1 in
  assign u2 [("paymentStats." +:+ fp +:+ ".total", Increment (valorTotal a));
             ("paymentStats." +:+ fp +:+ ".count", Increment 1)].

(** Lines 284-371: the update object, for the value [today] resolves to and
    the time value [noon] of [today + "T12:00:00Z"]. *)
Definition dailyUpdate (today : string) (noon : Z) (ev : Event) : Update :=
  onAfter ev applyDaily
    (onBefore ev reverseDaily
       (assign ∅ [("date", Plain (VTime noon));
                  ("dateString", Plain (VStr today));
                  ("updatedAt", ServerTimestamp)])).

(** The body of the [try]: the document it addresses and the update it hands
    to [transaction.set], or the exception it throws. *)
Definition dailyAttempt (sc : Scope) (ev : Event) : Exc (DocRef * Update) :=
  try! today <- resolveString sc "today" in
  let dailyReportRef := DailyReportDoc today in
  try! noon <- match parseISODate today with
               | Some t => Ok (t + 43200000)
               | None => Raise "RangeError: Invalid time value"
               end in
  let upd := dailyUpdate today noon ev in
  try! _ <- resolve sc "transaction" in
  Ok (dailyReportRef, upd).

(** *** The handler *)

Record World : Type := mkWorld {
  db : Db;
  memoryCache : gmap string (CacheEntry Document);
}.

Inductive Outcome : Type :=
| ReturnsNull
| ReturnsSuccess
| Rejects.

Record HandlerResult : Type := mkHandlerResult {
  outcome : Outcome;
  world : World;
  logged : list string;
}.

(** Lines 275-277. *)
Definition handlerInvalidate {A} (c : gmap string (CacheEntry A)) :
    gmap string (CacheEntry A) :=
  invalidateCache "inventory" (invalidateCache "stats" (invalidateCache "reports_" c)).

(** [now] is the clock read in the transaction callback, [serverTime] the
    time of the commit, [commits] whether [db.runTransaction] resolves; when
    it rejects the handler rejects and nothing is written. *)
Definition updateInventoryAndStatsOnChange (now serverTime : Z) (commits : bool)
    (ev : Event) (w : World) : HandlerResult :=
  match beforeData ev, afterData ev with
  | None, None => mkHandlerResult ReturnsNull w []
  | _, _ =>
      if commits then
        let d1 := commit serverTime (transactionWrites now ev) (db w) in
        let c1 := handlerInvalidate (memoryCache w) in
        match dailyAttempt handlerScope ev with
        | Ok (ref, upd) =>
            mkHandlerResult ReturnsSuccess
              (mkWorld (writeMerge serverTime ref upd d1) c1) []
        | Raise e =>
            mkHandlerResult ReturnsSuccess (mkWorld d1 c1)
              ["Erro ao atualizar daily_report em tempo real: " +:+ e]
        end
      else mkHandlerResult Rejects w []
  end.

(** *** The handler operation by operation

    The same handler as the sequence of the operations it issues on the
    store, the cache and the log, in the order of the source, so that an
    execution can be stopped between any two of them.  A write handed to
    the transaction is buffered; the transaction applies its buffer when the
    callback of [db.runTransaction] has returned, all of it or, when the
    commit fails, none of it (this is Firestore's part, taken as given); a
    write issued on a document reference itself is applied at once. *)
Inductive Op : Type :=
| TxSet (ref : DocRef) (upd : Update)
| TxCommit
| DirectSet (ref : DocRef) (upd : Update)
| Invalidate (pre : string)
| LogError (msg : string)
| Return (o : Outcome).

Record Machine : Type := mkMachine {
  store : Db;
  pending : list (DocRef * Update);
  mcache : gmap string (CacheEntry Document);
  mlog : list string;
  result : option Outcome;
}.

(** One operation; nothing runs after the handler has returned or
    rejected. *)
Definition step (commits : bool) (serverTime : Z) (m : Machine) (op : Op) : Machine :=
  match result m with
  | Some _ => m
  | None =>
      match op with
      | TxSet ref upd =>
          mkMachine (store m) (pending m ++ [(ref, upd)]) (mcache m) (mlog m) None
      | TxCommit =>
          if commits then
            mkMachine (commit serverTime (pending m) (store m)) [] (mcache m) (mlog m) None
          else mkMachine (store m) [] (mcache m) (mlog m) (Some Rejects)
      | DirectSet ref upd =>
          mkMachine (writeMerge serverTime ref upd (store m)) (pending m) (mcache m) (mlog m)
            None
      | Invalidate pre =>
          mkMachine (store m) (pending m) (invalidateCache pre (mcache m)) (mlog m) None
      | LogError msg =>
          mkMachine (store m) (pending m) (mcache m) (mlog m ++ [msg]) None
      | Return o => mkMachine (store m) (pending m) (mcache m) (mlog m) (Some o)
      end
  end.

Definition runOps (commits : bool) (serverTime : Z) (ops : list Op) (m : Machine) : Machine :=
  foldl (step commits serverTime) m ops.

Definition startMachine (w : World) : Machine := mkMachine (db w) [] (memoryCache w) [] None.

(** Lines 184-379 in order: the early return; the two [transaction.set] of
    the callback and its return; the three invalidations; the [try] block,
    whose last statement hands its write to [transaction] again, and the
    [catch] that logs; the final return. *)
Definition handlerOps (now : Z) (ev : Event) : list Op :=
  match beforeData ev, afterData ev with
  | None, None => [Return ReturnsNull]
  | _, _ =>
      ((fun wr : DocRef * Update => TxSet wr.1 wr.2) <$> transactionWrites now ev)
      ++ [TxCommit; Invalidate "reports_"; Invalidate "stats"; Invalidate "inventory"]
      ++ match dailyAttempt handlerScope ev with
         | Ok (ref, upd) => [TxSet ref upd]
         | Raise e => [LogError ("Erro ao atualizar daily_report em tempo real: " +:+ e)]
         end
      ++ [Return ReturnsSuccess]
  end.

(** The event carries a snapshot. *)
Definition hasData (ev : Event) : bool :=
  match beforeData ev, afterData ev with
  | None, None => false
  | _, _ => true
  end.

(** ** [getLiveSummary] *)

Definition liveSummaryDefaults : Document :=
  list_to_map
    [("totalVendasMes", VNum 0); ("totalComprasMes", VNum 0);
     ("totalDespesasMes", VNum 0); ("vendasHoje", VNum 0);
     ("comprasHoje", VNum 0); ("transacoesHoje", VNum 0)].

(** The fetch function handed to the cache. *)
Definition fetchLiveSummary (d : Db) : Document :=
  match live_summary d with
  | Some doc => doc
  | None => liveSummaryDefaults
  end.

Definition getLiveSummary (t_read t_store : Z) (w : World) : Document * World :=
  let r := getCachedData t_read t_store "live_summary"
             (fetchLiveSummary (db w)) (memoryCache w) in
  (r.1, mkWorld (db w) r.2).

(** ** Daily aggregates *)

Module MaterialStat.
Record t : Type := mk {
  vendas : Z;
  compras : Z;
  quantidade : Z;
  lucro : Z;
  transacoes : Z;
}.
End MaterialStat.

Module PaymentStat.
Record t : Type := mk {
  count : Z;
  total : Z;
}.
End PaymentStat.

(** The accumulator object of one day ([stats] in the daily job, [day] in the
    backfill and in the month report). *)
Record DayStats : Type := mkDayStats {
  date : Z;
  dateString : string;
  totalSales : Z;
  totalPurchases : Z;
  totalExpenses : Z;
  totalProfit : Z;
  totalTransactions : Z;
  salesCount : Z;
  purchasesCount : Z;
  expensesCount : Z;
  materialStats : gmap string MaterialStat.t;
  paymentStats : gmap string PaymentStat.t;
}.

Definition zeroDay (date : Z) (dateString : string) : DayStats :=
  mkDayStats date dateString 0 0 0 0 0 0 0 0 ∅ ∅.

(** [materialStats] and [paymentStats] are plain objects: [obj[k]] on a key
    that names a member of [Object.prototype] is truthy without being an own
    property, so such a key never gets an entry of its own. *)
Definition objectPrototypeMembers : list string :=
  ["constructor"; "__proto__"; "__defineGetter__"; "__defineSetter__";
   "__lookupGetter__"; "__lookupSetter__"; "hasOwnProperty"; "isPrototypeOf";
   "propertyIsEnumerable"; "toLocaleString"; "toString"; "valueOf"].

Definition inherited (k : string) : bool :=
  bool_decide (k ∈ objectPrototypeMembers).

Inductive Kind : Type := Venda | Compra | Despesa | OtherKind.

(** The chain [t.tipo === "venda"], [=== "compra"], [=== "despesa"]. *)
Definition kindOf (tipo : string) : Kind :=
  if String.eqb tipo "venda" then Venda
  else if String.eqb tipo "compra" then Compra
  else if String.eqb tipo "despesa" then Despesa
  else OtherKind.

Definition bumpMaterial (k : Kind) (valor qtd : Z) (mat : string)
    (ms : gmap string MaterialStat.t) : gmap string MaterialStat.t :=
  if inherited mat then ms
  else
    let m0 := default (MaterialStat.mk 0 0 0 0 0) (ms !! mat) in
    let m1 :=
      match k with
      | Venda =>
          MaterialStat.mk (MaterialStat.vendas m0 + valor) (MaterialStat.compras m0)
            (MaterialStat.quantidade m0 - qtd) (MaterialStat.lucro m0)
            (MaterialStat.transacoes m0)
      | Compra =>
          MaterialStat.mk (MaterialStat.vendas m0) (MaterialStat.compras m0 + valor)
            (MaterialStat.quantidade m0 + qtd) (MaterialStat.lucro m0)
            (MaterialStat.transacoes m0)
      | _ => m0
      end in
    <[mat := MaterialStat.mk (MaterialStat.vendas m1) (MaterialStat.compras m1)
               (MaterialStat.quantidade m1)
               (MaterialStat.vendas m1 - MaterialStat.compras m1)
               (MaterialStat.transacoes m1 + 1)]> ms.

Definition bumpPayment (valor : Z) (forma : string)
    (ps : gmap string PaymentStat.t) : gmap string PaymentStat.t :=
  if inherited forma then ps
  else
    let p0 := default (PaymentStat.mk 0 0) (ps !! forma) in
    <[forma := PaymentStat.mk (PaymentStat.count p0 + 1) (PaymentStat.total p0 + valor)]> ps.

(** One entry added to the accumulator of its day: lines 451-495, and the
    same statements at 1207-1257 and 1483-1528. *)
Definition accumulate (t : Transaction) (day : DayStats) : DayStats :=
  let valor := numOr (valorTotal t) 0 in
  let mat := strOr (material t) "outros" in
  let forma := toLowerCase (strOr (formaPagamento t) "dinheiro") in
  let qtd := numOr (quantidade t) 0 in
  let k := kindOf (tipo t) in
  mkDayStats (date day) (dateString day)
    (match k with Venda => totalSales day + valor | _ => totalSales day end)
    (match k with Compra => totalPurchases day + valor | _ => totalPurchases day end)
    (match k with Despesa => totalExpenses day + valor | _ => totalExpenses day end)
    (totalProfit day)
    (totalTransactions day + 1)
    (match k with Venda => salesCount day + 1 | _ => salesCount day end)
    (match k with Compra => purchasesCount day + 1 | _ => purchasesCount day end)
    (match k with Despesa => expensesCount day + 1 | _ => expensesCount day end)
    (bumpMaterial k valor qtd mat (materialStats day))
    (bumpPayment valor forma (paymentStats day)).

(** [day.totalProfit = day.totalSales - day.totalPurchases - day.totalExpenses]. *)
Definition withProfit (day : DayStats) : DayStats :=
  mkDayStats (date day) (dateString day)
    (totalSales day) (totalPurchases day) (totalExpenses day)
    (totalSales day - totalPurchases day - totalExpenses day)
    (totalTransactions day) (salesCount day) (purchasesCount day) (expensesCount day)
    (materialStats day) (paymentStats day).

(** The accumulator as the document [set] stores. *)
Definition encodeMaterial (m : MaterialStat.t) : Value :=
  VMap [("vendas", VNum (MaterialStat.vendas m));
        ("compras", VNum (MaterialStat.compras m));
        ("quantidade", VNum (MaterialStat.quantidade m));
        ("lucro", VNum (MaterialStat.lucro m));
        ("transacoes", VNum (MaterialStat.transacoes m))].

Definition encodePayment (p : PaymentStat.t) : Value :=
  VMap [("count", VNum (PaymentStat.count p)); ("total", VNum (PaymentStat.total p))].

Definition encodeDay (day : DayStats) : Document :=
  list_to_map
    [("date", VTime (date day));
     ("dateString", VStr (dateString day));
     ("totalSales", VNum (totalSales day));
     ("totalPurchases", VNum (totalPurchases day));
     ("totalExpenses", VNum (totalExpenses day));
     ("totalProfit", VNum (totalProfit day));
     ("totalTransactions", VNum (totalTransactions day));
     ("salesCount", VNum (salesCount day));
     ("purchasesCount", VNum (purchasesCount day));
     ("expensesCount", VNum (expensesCount day));
     ("materialStats",
      VMap ((fun kv => (kv.1, encodeMaterial kv.2)) <$> map_to_list (materialStats day)));
     ("paymentStats",
      VMap ((fun kv => (kv.1, encodePayment kv.2)) <$> map_to_list (paymentStats day)))].

(** ** The range query over [transactions] and its pagination *)

Abbreviation TxDoc := (string * Transaction)%type.

Definition timeOf (t : Transaction) : option Z :=
  match data t with
  | DTimestamp ms => Some ms
  | _ => None
  end.

(** [.where("data", ">=", start).where("data", "<=", end)] with [Date]
    bounds: only timestamps compare with them. *)
Definition inRange (start end_ : Z) (d : TxDoc) : bool :=
  match timeOf d.2 with
  | Some ms => (start <=? ms) && (ms <=? end_)
  | None => false
  end.

(** [.orderBy("data")]: by time, documents of equal time by their id. *)
Definition docLeb (x y : TxDoc) : bool :=
  let a := default 0 (timeOf x.2) in
  let b := default 0 (timeOf y.2) in
  (a <? b) || ((a =? b) && String.leb x.1 y.1).

Definition docLe (x y : TxDoc) : Prop := docLeb x y = true.

#[global] Instance docLe_dec : RelDecision docLe :=
  fun x y => decide (docLeb x y = true).

Definition rangeQuery (start end_ : Z) (txs : list TxDoc) : list TxDoc :=
  merge_sort docLe (filter (fun d => inRange start end_ d = true) txs).

Definition BATCH_SIZE : nat := 500.

(** [snapshot.docs.forEach(callback)]; an exception thrown by the callback
    ends the iteration. *)
Fixpoint forEachDoc {S : Type} (f : Transaction -> S -> Exc S)
    (docs : list TxDoc) (st : S) : Exc S :=
  match docs with
  | [] => Ok st
  | d :: ds => try! st' <- f d.2 st in forEachDoc f ds st'
  end.

(** The [while (hasMore)] loop.  [rest] is what the ordered query has after
    [lastDoc]; a page is its first [BATCH_SIZE] documents, an empty or short
    page is the last one. *)
Equations? scanPages {S : Type} (f : Transaction -> S -> Exc S)
    (rest : list TxDoc) (st : S) : Exc S by wf (length rest) lt :=
  scanPages f [] st := Ok st;
  scanPages f (d :: ds) st with forEachDoc f (take BATCH_SIZE (d :: ds)) st := {
    | Raise e := Raise e
    | Ok st' :=
        if (length (take BATCH_SIZE (d :: ds)) <? BATCH_SIZE)%nat then Ok st'
        else scanPages f (drop BATCH_SIZE (d :: ds)) st' }.
Proof. simpl. rewrite length_drop. lia. Qed.

(** ** The daily job: [generateHistoricalDailyReport] *)

(** [d.setHours(0, 0, 0, 0)]. *)
Definition startOfDay (ms : Z) : Z := ms / MS_PER_DAY * MS_PER_DAY.

(** [db.collection("daily_reports").doc(k).set(doc)]. *)
Definition setDailyReport (k : string) (doc : Document) (d : Db) : Db :=
  mkDb (transactions d) (inventory d) (live_summary d)
       (<[k := doc]> (daily_reports d)) (notifications d).

Definition generateHistoricalDailyReport (now serverTime : Z) (d : Db) : Exc Db :=
  let yesterday := now - MS_PER_DAY in
  let dateString := toISODate yesterday in
  match daily_reports d !! dateString with
  | Some _ => Ok d
  | None =>
      let start := startOfDay yesterday in
      let end_ := startOfDay yesterday + 86399999 in
      let stats0 := zeroDay start dateString in
      try! stats <- scanPages (fun t s => Ok (accumulate t s))
                      (rangeQuery start end_ (transactions d)) stats0 in
      let stats := withProfit stats in
      Ok (setDailyReport dateString
            (<["generatedAt" := VTime serverTime]> (encodeDay stats)) d)
  end.

(** ** Sums over ledger entries, for stating what the aggregates hold *)

Definition sumZ {A : Type} (f : A -> Z) (l : list A) : Z :=
  foldr (fun x acc => f x + acc) 0 l.

#[global] Instance Kind_eq_dec : EqDecision Kind.
Proof. solve_decision. Defined.

(** The value of an entry of kind [k], 0 for an entry of another kind. *)
Definition valorOf (k : Kind) (d : TxDoc) : Z :=
  if decide (kindOf (tipo d.2) = k) then valorTotal d.2 else 0.

Definition oneOf (k : Kind) (d : TxDoc) : Z :=
  if decide (kindOf (tipo d.2) = k) then 1 else 0.

(** The entry carries a timestamp of the UTC day that contains [day]. *)
Definition onDayOf (day : Z) (d : TxDoc) : bool :=
  match timeOf d.2 with
  | Some ms => ms / MS_PER_DAY =? day / MS_PER_DAY
  | None => false
  end.

(** A sum taken the way the code takes it: from 0, one entry after the
    other in the order of the list. *)
Definition sumInOrder {A : Type} (f : A -> Z) (l : list A) : Z :=
  foldl (fun acc x => acc + f x) 0 l.

(** The keys an entry is filed under: its material, "outros" when it has
    none or an empty one; its payment method in lower case, "dinheiro" when
    it has none or an empty one. *)
Definition materialOf (d : TxDoc) : string :=
  match material d.2 with
  | Some (String c s) => String c s
  | _ => "outros"
  end.

Definition paymentNamed (d : TxDoc) : string :=
  match formaPagamento d.2 with
  | Some (String c s) => String c s
  | _ => "dinheiro"
  end.

Definition paymentOf (d : TxDoc) : string := toLowerCase (paymentNamed d).

(** What an entry moves in the quantity of its material: a purchase adds, a
    sale takes away, an entry of another kind moves nothing. *)
Definition signedQty (d : TxDoc) : Z :=
  match kindOf (tipo d.2) with
  | Compra => quantidade d.2
  | Venda => - quantidade d.2
  | _ => 0
  end.

(** The payment method of the entry is text of Latin-1, where the model's
    [toLowerCase] is the language's. *)
Definition latin1Payment (d : TxDoc) : bool := latin1 (paymentNamed d).

(** ** The collect phase of [backfillHistory] and [generateMonthReport] *)

(** Lines 1173-1182 and 1450-1459: the date of an entry, or [Skipped] when
    the callback returns early.  A timestamp has [toDate]; a [Date] and a
    string have not. *)
Inductive Extracted : Type :=
| Skipped
| Dated (time : option Z).

Definition extractDate (d : DataField) : Extracted :=
  match d with
  | DTimestamp ms => Dated (Some ms)
  | DDate time => Dated time
  | DString _ parsed => Dated parsed
  | DNumber _ | DBool _ | DNull | DUndefined => Skipped
  end.

Record Collected : Type := mkCollected {
  dailyData : gmap string DayStats;
  totalProcessed : Z;
}.

(** A [Timestamp] lies between 0001-01-01T00:00:00Z and
    9999-12-31T23:59:59.999Z. *)
Definition TIMESTAMP_MIN : Z := -62135596800000.
Definition TIMESTAMP_MAX : Z := 253402300799999.

(** The quotation mark, for the messages that quote a name. *)
Definition dquote : string := String (ascii_of_nat 34) EmptyString.

(** The object a day starts from; its [date] is
    [Timestamp.fromDate(new Date(dateString + "T00:00:00"))], which throws
    for an Invalid Date and for a date no timestamp can hold. *)
Definition newDay (dateString : string) : Exc DayStats :=
  match parseISODate dateString with
  | Some t =>
      if (TIMESTAMP_MIN <=? t) && (t <=? TIMESTAMP_MAX) then Ok (zeroDay t dateString)
      else Raise ("Error: Value for argument " +:+ dquote +:+ "seconds" +:+ dquote
                  +:+ " must be within [-62135596800, 253402300799] inclusive, but was: "
                  +:+ pretty (t / 1000))
  | None =>
      Raise ("Error: Value for argument " +:+ dquote +:+ "seconds" +:+ dquote
             +:+ " is not a valid integer.")
  end.

(** The callback of [snapshot.docs.forEach], lines 1169-1258 and 1447-1529. *)
Definition collectDoc (t : Transaction) (st : Collected) : Exc Collected :=
  match extractDate (data t) with
  | Skipped => Ok st
  | Dated None => Raise "RangeError: Invalid time value"
  | Dated (Some ms) =>
      let dateString := toISODate ms in
      try! day <- match dailyData st !! dateString with
                  | Some day => Ok day
                  | None => newDay dateString
                  end in
      Ok (mkCollected (<[dateString := accumulate t day]> (dailyData st))
                      (totalProcessed st + 1))
  end.

(** Phase 1 over the documents the query returns. *)
Definition collect (scanned : list TxDoc) : Exc Collected :=
  scanPages collectDoc scanned (mkCollected ∅ 0).

(** ** [new Date(year, monthIndex, day)] *)

(** Day number of a date given with a zero-based month index; months and
    days out of range roll over. *)
Definition makeDay (year monthIndex day : Z) : Z :=
  days_from_civil (year + monthIndex / 12) (monthIndex mod 12 + 1) day.

(** A year from 0 to 99 given to the [Date] constructor means 1900 + year. *)
Definition constructorYear (year : Z) : Z :=
  if (0 <=? year) && (year <=? 99) then 1900 + year else year.

Definition getFullYear (ms : Z) : Z := (civil_from_days (ms / MS_PER_DAY)).1.1.
Definition getMonth (ms : Z) : Z := (civil_from_days (ms / MS_PER_DAY)).1.2 - 1.
Definition getDate (ms : Z) : Z := (civil_from_days (ms / MS_PER_DAY)).2.

(** [d.setMonth(d.getMonth() - 12)]. *)
Definition minusTwelveMonths (ms : Z) : Z :=
  makeDay (getFullYear ms) (getMonth ms - 12) (getDate ms) * MS_PER_DAY
  + ms mod MS_PER_DAY.

(** ** The backfill engine: [backfillHistory] *)

Module BackfillRequest.
(** A date argument, when given and truthy, with the time value
    [new Date(arg)] gives it ([None]: an Invalid Date). *)
Record t : Type := mk {
  startDate : option (option Z);
  endDate : option (option Z);
  forceOverwrite : bool;
}.
End BackfillRequest.

(** Lines 1127-1135; the log line calls [toISOString] on both bounds. *)
Definition backfillRange (req : BackfillRequest.t) (now : Z) : Exc (Z * Z) :=
  let end_ : option Z :=
    match BackfillRequest.endDate req with
    | Some parsed => parsed
    | None => Some now
    end in
  let start : option Z :=
    match BackfillRequest.startDate req with
    | Some parsed => parsed
    | None => minusTwelveMonths <$> end_
    end in
  match start, end_ with
  | Some s, Some e => Ok (s, e)
  | _, _ => Raise "RangeError: Invalid time value"
  end.

(** Keyed records in the order of their keys (strings compare by code
    unit). *)
Definition byKey {A : Type} (x y : string * A) : Prop := String.leb x.1 y.1 = true.

#[global] Instance byKey_dec {A : Type} : RelDecision (@byKey A) :=
  fun x y => decide (String.leb x.1 y.1 = true).

(** [Object.keys(dailyData).sort()], each key with its day. *)
Definition sortedDays (dailyData : gmap string DayStats) : list (string * DayStats) :=
  merge_sort byKey (map_to_list dailyData).

Definition WRITE_BATCH_SIZE : Z := 400.

(** The record of a day as the backfill stores it. *)
Definition backfillDoc (generatedBy : string) (serverTime : Z) (day : DayStats) : Document :=
  <["generatedBy" := VStr generatedBy]>
    (<["generatedAt" := VTime serverTime]> (encodeDay (withProfit day))).

(** [batch.commit()]: the buffered [set]s, each replacing its document. *)
Definition commitBatch (batch : list (string * Document))
    (reports : gmap string Document) : gmap string Document :=
  foldl (fun m kv => <[kv.1 := kv.2]> m) reports batch.

Record Phase2 : Type := mkPhase2 {
  committed : gmap string Document;
  currentBatch : list (string * Document);
  batchCount : Z;
  skipped : Z;
  daysProcessed : Z;
}.

(** The body of the [for] loop, lines 1279-1310.  [docRef.get()] reads the
    committed collection. *)
Definition phase2Step (force : bool) (serverTime : Z) (st : Phase2)
    (kd : string * DayStats) : Phase2 :=
  let dateString := kd.1 in
  let doc := backfillDoc "backfillHistory" serverTime kd.2 in
  if negb force && bool_decide (is_Some (committed st !! dateString)) then
    mkPhase2 (committed st) (currentBatch st) (batchCount st)
             (skipped st + 1) (daysProcessed st)
  else
    let batch := currentBatch st ++ [(dateString, doc)] in
    if WRITE_BATCH_SIZE <=? batchCount st + 1 then
      mkPhase2 (commitBatch batch (committed st)) [] 0
               (skipped st) (daysProcessed st + 1)
    else
      mkPhase2 (committed st) batch (batchCount st + 1)
               (skipped st) (daysProcessed st + 1).

(** Lines 1273-1315, the trailing commit included. *)
Definition phase2 (force : bool) (serverTime : Z) (dailyData : gmap string DayStats)
    (reports : gmap string Document) : Phase2 :=
  let st := foldl (phase2Step force serverTime) (mkPhase2 reports [] 0 0 0)
              (sortedDays dailyData) in
  if 0 <? batchCount st then
    mkPhase2 (commitBatch (currentBatch st) (committed st)) [] 0
             (skipped st) (daysProcessed st)
  else st.

Record MonthStats : Type := mkMonthStats {
  totalVendasMes : Z;
  totalComprasMes : Z;
  totalDespesasMes : Z;
  vendasCountMes : Z;
  comprasCountMes : Z;
  despesasCountMes : Z;
  totalTransacoesMes : Z;
}.

(** The callback of [currentMonthReports.docs.forEach], lines 1353-1362. *)
Definition addReport (monthStats : MonthStats) (data : Document) : MonthStats :=
  mkMonthStats
    (totalVendasMes monthStats + numOr0 (data !! "totalSales"))
    (totalComprasMes monthStats + numOr0 (data !! "totalPurchases"))
    (totalDespesasMes monthStats + numOr0 (data !! "totalExpenses"))
    (vendasCountMes monthStats + numOr0 (data !! "salesCount"))
    (comprasCountMes monthStats + numOr0 (data !! "purchasesCount"))
    (despesasCountMes monthStats + numOr0 (data !! "expensesCount"))
    (totalTransacoesMes monthStats + numOr0 (data !! "totalTransactions")).

(** [new Date(now.getFullYear(), now.getMonth(), 1)] and
    [new Date(now.getFullYear(), now.getMonth() + 1, 0)], as date keys. *)
Definition currentMonthStartKey (now : Z) : string :=
  toISODate (makeDay (constructorYear (getFullYear now)) (getMonth now) 1 * MS_PER_DAY).

Definition currentMonthEndKey (now : Z) : string :=
  toISODate (makeDay (constructorYear (getFullYear now)) (getMonth now + 1) 0 * MS_PER_DAY).

(** The document-id filter of the query at lines 1329-1341. *)
Definition idBetween (lo hi : string) (kv : string * Document) : bool :=
  String.leb lo kv.1 && String.leb kv.1 hi.

Definition currentMonthReports (now : Z) (reports : gmap string Document) :
    list (string * Document) :=
  merge_sort byKey
    (filter (fun kv => idBetween (currentMonthStartKey now) (currentMonthEndKey now) kv = true)
       (map_to_list reports)).

Definition monthStatsOf (docs : list (string * Document)) : MonthStats :=
  foldl (fun ms kv => addReport ms kv.2) (mkMonthStats 0 0 0 0 0 0 0) docs.

(** The object merge-written to [reports/live_summary], lines 1364-1371. *)
Definition monthUpdate (monthStats : MonthStats) : Update :=
  list_to_map
    [("totalVendasMes", Plain (VNum (totalVendasMes monthStats)));
     ("totalComprasMes", Plain (VNum (totalComprasMes monthStats)));
     ("totalDespesasMes", Plain (VNum (totalDespesasMes monthStats)));
     ("vendasCountMes", Plain (VNum (vendasCountMes monthStats)));
     ("comprasCountMes", Plain (VNum (comprasCountMes monthStats)));
     ("despesasCountMes", Plain (VNum (despesasCountMes monthStats)));
     ("totalTransacoesMes", Plain (VNum (totalTransacoesMes monthStats)));
     ("updatedAt", ServerTimestamp);
     ("lastBackfill", ServerTimestamp)].

Record BackfillStats : Type := mkBackfillStats {
  totalTransactionsProcessed : Z;
  daysCreated : Z;
  daysSkipped : Z;
  periodStart : string;
  periodEnd : string;
}.

(** [error.message] of an exception written as its name, a colon and its
    message. *)
Fixpoint errorMessage (err : string) : string :=
  match err with
  | EmptyString => EmptyString
  | String c s' =>
      if Ascii.eqb c ":" then
        match s' with
        | String c2 s'' => if Ascii.eqb c2 " " then s'' else errorMessage s'
        | EmptyString => EmptyString
        end
      else errorMessage s'
  end.

(** [catch (error) { throw new Error(`<prefix>${error.message}`) }]. *)
Definition rethrow {A : Type} (pre : string) (m : Exc A) : Exc A :=
  match m with
  | Ok a => Ok a
  | Raise e => Raise ("Error: " +:+ pre +:+ errorMessage e)
  end.

(** [now] is the clock when the call starts, [later] the clock of phase 3,
    [serverTime] the server time of the writes.  The store operations are
    taken to succeed; [Raise] is the rejection the [catch] rethrows, and it
    leaves the store as it was (nothing is written before phase 2). *)
Definition backfillHistory (req : BackfillRequest.t) (now later serverTime : Z)
    (w : World) : Exc (BackfillStats * World) :=
  rethrow "Erro no backfill: "
  (try! range <- backfillRange req now in
  let start := range.1 in
  let end_ := range.2 in
  try! collected <- collect (rangeQuery start end_ (transactions (db w))) in
  let p2 := phase2 (BackfillRequest.forceOverwrite req) serverTime
              (dailyData collected) (daily_reports (db w)) in
  let monthStats := monthStatsOf (currentMonthReports later (committed p2)) in
  let d' := mkDb (transactions (db w)) (inventory (db w))
              (Some (setMerge serverTime (monthUpdate monthStats) (live_summary (db w))))
              (committed p2) (notifications (db w)) in
  let c' := invalidateCache "reports" (invalidateCache "stats" (memoryCache w)) in
  Ok (mkBackfillStats (totalProcessed collected) (daysProcessed p2) (skipped p2)
        (toISODate start) (toISODate end_),
      mkWorld d' c')).

(** ** The month report: [generateMonthReport] *)

Module MonthRequest.
Record t : Type := mk {
  year : option Z;
  month : option Z;
  forceOverwrite : bool;
}.
End MonthRequest.

Record MonthResult : Type := mkMonthResult {
  monthLabel : string;
  transactionsProcessed : Z;
  monthDaysCreated : Z;
  monthDaysSkipped : Z;
}.

(** Lines 1538-1555: one batch, committed after the loop. *)
Definition monthStep (force : bool) (serverTime : Z) (st : Phase2)
    (kd : string * DayStats) : Phase2 :=
  let dateString := kd.1 in
  let doc := backfillDoc "generateMonthReport" serverTime kd.2 in
  if negb force && bool_decide (is_Some (committed st !! dateString)) then
    mkPhase2 (committed st) (currentBatch st) (batchCount st)
             (skipped st + 1) (daysProcessed st)
  else
    mkPhase2 (committed st) (currentBatch st ++ [(dateString, doc)]) (batchCount st)
             (skipped st) (daysProcessed st + 1).

(** The days are taken in the order of their keys (the keys of a batch are
    distinct, so the order of its writes does not show in the store). *)
Definition generateMonthReport (req : MonthRequest.t) (serverTime : Z)
    (w : World) : Exc (MonthResult * World) :=
  match MonthRequest.year req, MonthRequest.month req with
  | Some year, Some month =>
      if year =? 0 then Raise "Error: Ano e mês são obrigatórios. Ex: { year: 2025, month: 11 }"
      else
        let start := makeDay (constructorYear year) month 1 * MS_PER_DAY in
        let end_ := makeDay (constructorYear year) (month + 1) 0 * MS_PER_DAY + 86399999 in
        try! collected <- collect (rangeQuery start end_ (transactions (db w))) in
        let st := foldl (monthStep (MonthRequest.forceOverwrite req) serverTime)
                    (mkPhase2 (daily_reports (db w)) [] 0 0 0)
                    (sortedDays (dailyData collected)) in
        let d' := mkDb (transactions (db w)) (inventory (db w)) (live_summary (db w))
                    (commitBatch (currentBatch st) (committed st)) (notifications (db w)) in
        Ok (mkMonthResult (pretty (month + 1) +:+ "/" +:+ pretty year)
              (totalProcessed collected) (daysProcessed st) (skipped st),
            mkWorld d' (invalidateCache "reports" (memoryCache w)))
  | _, _ => Raise "Error: Ano e mês são obrigatórios. Ex: { year: 2025, month: 11 }"
  end.

(** The [data] field is a Firestore timestamp, a [Date] or a string. *)
Definition isTimestampDateOrString (d : DataField) : bool :=
  match d with
  | DTimestamp _ | DDate _ | DString _ _ => true
  | DNumber _ | DBool _ | DNull | DUndefined => false
  end.

(** ** The current calendar month, for stating what phase 3 sums *)

Definition isLeapYear (y : Z) : bool :=
  ((y mod 4 =? 0) && negb (y mod 100 =? 0)) || (y mod 400 =? 0).

Definition daysInMonth (y m : Z) : Z :=
  if m =? 2 then (if isLeapYear y then 29 else 28)
  else if (m =? 4) || (m =? 6) || (m =? 9) || (m =? 11) then 30
  else 31.

(** "YYYY-MM-" of the month that contains [now]. *)
Definition monthPrefix (now : Z) : string :=
  isoYear (getFullYear now) +:+ "-" +:+ pad 2 (getMonth now + 1) +:+ "-".

(** [Some r] when [s] is [p] followed by [r]. *)
Fixpoint dropPrefix (p s : string) : option string :=
  match p, s with
  | EmptyString, _ => Some s
  | String a p', String b s' => if Ascii.eqb a b then dropPrefix p' s' else None
  | String _ _, EmptyString => None
  end.

(** The date key [k] is "YYYY-MM-" of the current month followed by a day
    part from "01" to the last day of that month. *)
Definition keyInCurrentMonth (now : Z) (k : string) : bool :=
  match dropPrefix (monthPrefix now) k with
  | Some day =>
      String.leb "01" day
      && String.leb day (pad 2 (daysInMonth (getFullYear now) (getMonth now + 1)))
  | None => false
  end.

(** [f] holds of the [n] integers from [z] on. *)
Definition allFrom (n : positive) (z : Z) (f : Z -> bool) : bool :=
  (Pos.iter (fun s : Z * bool => (s.1 + 1, s.2 && f s.1)) (z, true) n).2.

(** One 400-year era, checked day by day and month by month. *)
Definition checkDay (z : Z) : bool :=
  let '(y, m, d) := civil_from_days z in
  (1 <=? m) && (m <=? 12) && (1 <=? d) && (d <=? daysInMonth y m).

Definition checkMonth (i : Z) : bool :=
  let y := i / 12 in
  let m := i mod 12 + 1 in
  let first := civil_from_days (days_from_civil y m 1) in
  let last := civil_from_days (days_from_civil (y + m / 12) (m mod 12 + 1) 0) in
  (first.1.1 =? y) && (first.1.2 =? m) && (first.2 =? 1)
  && (last.1.1 =? y) && (last.1.2 =? m) && (last.2 =? daysInMonth y m).

(** The names of the fields phase 3 writes. *)
Definition monthFields : list string :=
  ["totalVendasMes"; "totalComprasMes"; "totalDespesasMes"; "vendasCountMes";
   "comprasCountMes"; "despesasCountMes"; "totalTransacoesMes"; "updatedAt";
   "lastBackfill"].

(** ** The stock monitor: [checkLowStock] *)

Definition minLevels : list (string * Z) :=
  [("ferro", 100); ("aluminio", 80); ("cobre", 50); ("latinha", 200);
   ("panela", 25); ("bloco2", 15); ("chapa", 50); ("perfil pintado", 30);
   ("perfil natural", 30); ("bloco", 20); ("metal", 60); ("inox", 30);
   ("bateria", 40); ("motor_gel", 10); ("roda", 15); ("papelao", 100);
   ("rad_metal", 35); ("rad_cobre", 30); ("rad_chapa", 25); ("tela", 50);
   ("antimonio", 10); ("cabo_ai", 40); ("tubo_limpo", 20)].

Fixpoint assoc {A : Type} (k : string) (l : list (string * A)) : option A :=
  match l with
  | [] => None
  | (k', v) :: l' => if String.eqb k k' then Some v else assoc k l'
  end.

(** [minLevels[material] || 10].  For a name that [Object.prototype]
    defines the lookup gives a function or an object, not a number, and no
    quantity compares below it. *)
Definition minLevelOf (material : string) : option Z :=
  match assoc material minLevels with
  | Some n => Some n
  | None => if inherited material then None else Some 10
  end.

(** [data?.quantidade || 0]. *)
Definition quantidadeOf (data : Value) : Z :=
  match data with
  | VMap fields => numOr0 (assoc "quantidade" fields)
  | _ => 0
  end.

Record LowStockItem : Type := mkLowStockItem {
  itemMaterial : string;
  itemQuantidade : Z;
  itemMinLevel : Z;
  nivel : string;
}.

(** The callback of [Object.entries(inventory).forEach], lines 945-957;
    [quantidade < minLevel / 2] is [2 * quantidade < minLevel]. *)
Definition lowStockItem (entry : string * Value) : option LowStockItem :=
  let material := entry.1 in
  if String.eqb material "lastUpdated" then None
  else
    match minLevelOf material with
    | Some minLevel =>
        let quantidade := quantidadeOf entry.2 in
        if quantidade <=? minLevel then
          Some (mkLowStockItem material quantidade minLevel
                  (if 2 * quantidade <? minLevel then "critico" else "baixo"))
        else None
    | None => None
    end.

Definition lowStockItems (inventory : Document) : list LowStockItem :=
  omap lowStockItem (map_to_list inventory).

Definition encodeItem (i : LowStockItem) : Value :=
  VMap [("material", VStr (itemMaterial i)); ("quantidade", VNum (itemQuantidade i));
        ("minLevel", VNum (itemMinLevel i)); ("nivel", VStr (nivel i))].

Definition lowStockMessage (items : list LowStockItem) : string :=
  pretty (Z.of_nat (length items)) +:+ " "
  +:+ (if (length items =? 1)%nat then "material está" else "materiais estão")
  +:+ " com estoque baixo".

(** The filters of the query: [type == "low_stock"] and [read == false]. *)
Definition isUnreadLowStockb (n : string * Document) : bool :=
  match n.2 !! "type", n.2 !! "read" with
  | Some (VStr t), Some (VBool false) => String.eqb t "low_stock"
  | _, _ => false
  end.

Definition isUnreadLowStock (n : string * Document) : Prop :=
  isUnreadLowStockb n = true.

#[global] Instance isUnreadLowStock_dec (n : string * Document) :
  Decision (isUnreadLowStock n) := decide (isUnreadLowStockb n = true).

(** The document [add] creates. *)
Definition newNotification (serverTime : Z) (items : list LowStockItem) : Document :=
  list_to_map
    [("type", VStr "low_stock");
     ("title", VStr "Alerta de Estoque Baixo");
     ("message", VStr (lowStockMessage items));
     ("items", VList (encodeItem <$> items));
     ("read", VBool false);
     ("createdAt", VTime serverTime)].

(** [ref.update({ items, message, updatedAt })]. *)
Definition refreshNotification (serverTime : Z) (items : list LowStockItem)
    (n : string * Document) : string * Document :=
  (n.1, <["updatedAt" := VTime serverTime]>
          (<["message" := VStr (lowStockMessage items)]>
             (<["items" := VList (encodeItem <$> items)]> n.2))).

Definition setNotifications (ns : list (string * Document)) (d : Db) : Db :=
  mkDb (transactions d) (inventory d) (live_summary d) (daily_reports d) ns.

(** [newId] is the id [add] draws for a new document. *)
Definition checkLowStock (serverTime : Z) (newId : string) (d : Db) : Db :=
  match inventory d with
  | None => d
  | Some inventory =>
      let items := lowStockItems inventory in
      if (0 <? length items)%nat then
        match list_find isUnreadLowStock (notifications d) with
        | None =>
            setNotifications
              (notifications d ++ [(newId, newNotification serverTime items)]) d
        | Some (i, existing) =>
            setNotifications
              (<[i := refreshNotification serverTime items existing]> (notifications d)) d
        end
      else d
  end.


(** ** Qualifying items, for stating what the stock monitor lists *)

(** The quantities of the inventory are numbers: a field holds no
    [quantidade], or a number under it.  (A text or another value under
    [quantidade] is compared after a conversion that is not modelled.) *)
Definition numericQuantity (data : Value) : bool :=
  match data with
  | VMap fields =>
      match assoc "quantidade" fields with
      | None | Some (VNum _) => true
      | Some _ => false
      end
  | _ => true
  end.

Definition numericInventory (inv : Document) : bool :=
  forallb (fun kv : string * Value => numericQuantity kv.2) (map_to_list inv).

(** The minimum configured for a material, 10 for a material without one. *)
Definition configuredMinimum (material : string) : Z :=
  default 10
    (assoc material
       [("ferro", 100); ("aluminio", 80); ("cobre", 50); ("latinha", 200);
        ("panela", 25); ("bloco2", 15); ("chapa", 50); ("perfil pintado", 30);
        ("perfil natural", 30); ("bloco", 20); ("metal", 60); ("inox", 30);
        ("bateria", 40); ("motor_gel", 10); ("roda", 15); ("papelao", 100);
        ("rad_metal", 35); ("rad_cobre", 30); ("rad_chapa", 25); ("tela", 50);
        ("antimonio", 10); ("cabo_ai", 40); ("tubo_limpo", 20)]).

(** The quantity on hand a field of the inventory records: the number under
    [quantidade], 0 without one. *)
Definition quantityOnHand (data : Value) : Z :=
  match data with
  | VMap fields =>
      match assoc "quantidade" fields with
      | Some (VNum q) => q
      | _ => 0
      end
  | _ => 0
  end.

(** The field of the inventory qualifies: it is not the metadata field, its
    name is not one [Object.prototype] defines, and its quantity is at most
    the minimum of the material. *)
Definition qualifies (material : string) (data : Value) : bool :=
  negb (String.eqb material "lastUpdated") && negb (inherited material)
  && (quantityOnHand data <=? configuredMinimum material).

(** Critical below half the minimum, low otherwise. *)
Definition levelOf (q min : Z) : string := if 2 * q <? min then "critico" else "baixo".

(** ** The invariant of the loop of phase 2 *)

(** The loop invariant: the counters add up, the batch counter is the length
    of the batch, stored reports stay stored, and every day already visited
    is stored or waits in the batch. *)
Definition phase2Inv (reports : gmap string Document) (seen : list string)
    (n : Z) (st : Phase2) : Prop :=
  batchCount st = Z.of_nat (length (currentBatch st)) /\
  skipped st + daysProcessed st = n /\
  (forall k, is_Some (reports !! k) -> is_Some (committed st !! k)) /\
  (forall k, k ∈ seen -> is_Some (committed st !! k) \/ k ∈ (currentBatch st).*1).

(** ** The report queries: [getAggregatedReports], [getAggregatedReport] *)


(** The daily reports whose id lies between two strings, in the order of
    their ids. *)
Definition reportsBetween (lo hi : string) (reports : gmap string Document) :
    list (string * Document) :=
  merge_sort byKey (filter (fun kv => idBetween lo hi kv = true) (map_to_list reports)).

Module RangeRequest.
Record t : Type := mk {
  startDate : option string;
  endDate : option string;
  material : option string;
}.
End RangeRequest.




(** [Object.entries(x || {})] of a field that is a map whenever it is
    present. *)
Definition entriesOf (v : option Value) : list (string * Value) :=
  match v with
  | Some (VMap fields) => fields
  | _ => []
  end.

(** [stats.field || 0] of an entry of such a map. *)
Definition fieldOr0 (stats : Value) (field : string) : Z :=
  match stats with
  | VMap fields => numOr0 (assoc field fields)
  | _ => 0
  end.

(** Lines 788-803: one entry of a report's [materialStats] added to the
    aggregate. *)
Definition addMaterial (ms : gmap string MaterialStat.t) (entry : string * Value) :
    gmap string MaterialStat.t :=
  let mat := entry.1 in
  let stats := entry.2 in
  if inherited mat then ms
  else
    let m0 := default (MaterialStat.mk 0 0 0 0 0) (ms !! mat) in
    <[mat := MaterialStat.mk
               (MaterialStat.vendas m0 + fieldOr0 stats "vendas")
               (MaterialStat.compras m0 + fieldOr0 stats "compras")
               (MaterialStat.quantidade m0 + fieldOr0 stats "quantidade")
               (MaterialStat.lucro m0 + fieldOr0 stats "lucro")
               (MaterialStat.transacoes m0 + fieldOr0 stats "transacoes")]> ms.

(** Lines 805-813. *)
Definition addPayment (ps : gmap string PaymentStat.t) (entry : string * Value) :
    gmap string PaymentStat.t :=
  let method := entry.1 in
  let stats := entry.2 in
  if inherited method then ps
  else
    let p0 := default (PaymentStat.mk 0 0) (ps !! method) in
    <[method := PaymentStat.mk (PaymentStat.count p0 + fieldOr0 stats "count")
                  (PaymentStat.total p0 + fieldOr0 stats "total")]> ps.

(** A row of [dailyBreakdown]: the fields of the report as they are, absent
    ones included. *)
Record BreakdownRow : Type := mkBreakdownRow {
  rowDate : option Value;
  rowTotalSales : option Value;
  rowTotalPurchases : option Value;
  rowTotalProfit : option Value;
  rowTransactions : option Value;
}.

(** The object [aggregated], lines 764-776. *)
Record Aggregated : Type := mkAggregated {
  aggTotalSales : Z;
  aggTotalPurchases : Z;
  aggTotalExpenses : Z;
  aggTotalProfit : Z;
  aggTotalTransactions : Z;
  aggSalesCount : Z;
  aggPurchasesCount : Z;
  aggExpensesCount : Z;
  aggMaterialStats : gmap string MaterialStat.t;
  aggPaymentStats : gmap string PaymentStat.t;
  dailyBreakdown : list BreakdownRow;
}.

Definition zeroAggregated : Aggregated := mkAggregated 0 0 0 0 0 0 0 0 ∅ ∅ [].

(** The callback of [dailyReports.forEach], lines 778-822. *)
Definition addDailyReport (a : Aggregated) (report : Document) : Aggregated :=
  mkAggregated
    (aggTotalSales a + numOr0 (report !! "totalSales"))
    (aggTotalPurchases a + numOr0 (report !! "totalPurchases"))
    (aggTotalExpenses a + numOr0 (report !! "totalExpenses"))
    (aggTotalProfit a + numOr0 (report !! "totalProfit"))
    (aggTotalTransactions a + numOr0 (report !! "totalTransactions"))
    (aggSalesCount a + numOr0 (report !! "salesCount"))
    (aggPurchasesCount a + numOr0 (report !! "purchasesCount"))
    (aggExpensesCount a + numOr0 (report !! "expensesCount"))
    (foldl addMaterial (aggMaterialStats a) (entriesOf (report !! "materialStats")))
    (foldl addPayment (aggPaymentStats a) (entriesOf (report !! "paymentStats")))
    (dailyBreakdown a
     ++ [mkBreakdownRow (report !! "dateString") (report !! "totalSales")
           (report !! "totalPurchases") (report !! "totalProfit")
           (report !! "totalTransactions")]).

(** What [materialStats] is after lines 824-828: all the materials, the one
    asked for, or, for a name that [Object.prototype] defines, that member. *)
Inductive MaterialView : Type :=
| AllMaterials (stats : gmap string MaterialStat.t)
| OneMaterial (mat : string) (stats : MaterialStat.t)
| PrototypeMember (name : string).

Definition materialView (material : option string)
    (stats : gmap string MaterialStat.t) : MaterialView :=
  if truthy material then
    match stats !! template material with
    | Some s => OneMaterial (template material) s
    | None =>
        if inherited (template material) then PrototypeMember (template material)
        else AllMaterials stats
    end
  else AllMaterials stats.

(** The aggregate over the reports of a range, and the material view of it. *)
Definition aggregateReports (req : RangeRequest.t) (d : Db) : Aggregated * MaterialView :=
  let dailyReports :=
    snd <$> reportsBetween (template (RangeRequest.startDate req))
              (template (RangeRequest.endDate req)) (daily_reports d) in
  let aggregated := foldl addDailyReport zeroAggregated dailyReports in
  (aggregated, materialView (RangeRequest.material req) (aggMaterialStats aggregated)).

Definition encodeRow (r : BreakdownRow) : Value :=
  VMap (omap (fun kv : string * option Value => (fun v => (kv.1, v)) <$> kv.2)
          [("date", rowDate r); ("totalSales", rowTotalSales r);
           ("totalPurchases", rowTotalPurchases r); ("totalProfit", rowTotalProfit r);
           ("transactions", rowTransactions r)]).

(** A member of [Object.prototype] has no stored form; it is shown as an
    empty map. *)
Definition encodeMaterialView (v : MaterialView) : Value :=
  match v with
  | AllMaterials stats =>
      VMap ((fun kv => (kv.1, encodeMaterial kv.2)) <$> map_to_list stats)
  | OneMaterial mat s => VMap [(mat, encodeMaterial s)]
  | PrototypeMember name => VMap [(name, VMap [])]
  end.

(** The object the fetch function returns, as the cache keeps it. *)
Definition encodeAggregated (r : Aggregated * MaterialView) : Document :=
  let a := r.1 in
  list_to_map
    [("totalSales", VNum (aggTotalSales a));
     ("totalPurchases", VNum (aggTotalPurchases a));
     ("totalExpenses", VNum (aggTotalExpenses a));
     ("totalProfit", VNum (aggTotalProfit a));
     ("totalTransactions", VNum (aggTotalTransactions a));
     ("salesCount", VNum (aggSalesCount a));
     ("purchasesCount", VNum (aggPurchasesCount a));
     ("expensesCount", VNum (aggExpensesCount a));
     ("materialStats", encodeMaterialView r.2);
     ("paymentStats",
      VMap ((fun kv => (kv.1, encodePayment kv.2)) <$> map_to_list (aggPaymentStats a)));
     ("dailyBreakdown", VList (encodeRow <$> dailyBreakdown a))].

Definition aggregatedCacheKey (req : RangeRequest.t) : string :=
  "aggregated_" +:+ template (RangeRequest.startDate req) +:+ "_"
  +:+ template (RangeRequest.endDate req) +:+ "_"
  +:+ strOr (RangeRequest.material req) "all".

Definition getAggregatedReport (req : RangeRequest.t) (t_read t_store : Z)
    (w : World) : Exc (Document * World) :=
  if negb (truthy (RangeRequest.startDate req)) || negb (truthy (RangeRequest.endDate req))
  then Raise "Error: As datas de início e fim são obrigatórias."
  else
    let r := getCachedData t_read t_store (aggregatedCacheKey req)
               (encodeAggregated (aggregateReports req (db w))) (memoryCache w) in
    Ok (r.1, mkWorld (db w) r.2).

(** ** The reset jobs: [resetDailyStats], [resetMonthlyStats] *)

Definition dailyResetUpdate : Update :=
  list_to_map
    [("transacoesHoje", Plain (VNum 0)); ("vendasHoje", Plain (VNum 0));
     ("comprasHoje", Plain (VNum 0)); ("lastDailyReset", ServerTimestamp)].

Definition resetDailyStats (serverTime : Z) (w : World) : World :=
  mkWorld (writeMerge serverTime ReportsLiveSummary dailyResetUpdate (db w))
          (invalidateCache "stats" (memoryCache w)).

Definition monthlyResetUpdate : Update :=
  list_to_map
    [("totalVendasMes", Plain (VNum 0)); ("totalComprasMes", Plain (VNum 0));
     ("totalDespesasMes", Plain (VNum 0)); ("vendasCountMes", Plain (VNum 0));
     ("comprasCountMes", Plain (VNum 0)); ("despesasCountMes", Plain (VNum 0));
     ("totalTransacoesMes", Plain (VNum 0)); ("lastMonthlyReset", ServerTimestamp)].

Definition resetMonthlyStats (serverTime : Z) (w : World) : World :=
  mkWorld (writeMerge serverTime ReportsLiveSummary monthlyResetUpdate (db w))
          (invalidateCache "stats" (memoryCache w)).

(** ** The cleanup job: [cleanupOldReports] *)

(** The reports the query returns: ids below the cutoff, smallest first, at
    most 100. *)
Definition oldReports (cutoffString : string) (reports : gmap string Document) :
    list (string * Document) :=
  take 100 (merge_sort byKey
              (filter (fun kv : string * Document => String.ltb kv.1 cutoffString = true)
                 (map_to_list reports))).

Definition cleanupOldReports (now : Z) (d : Db) : Db :=
  let cutoffString := toISODate (now - 90 * MS_PER_DAY) in
  let old := oldReports cutoffString (daily_reports d) in
  match old with
  | [] => d
  | _ =>
      mkDb (transactions d) (inventory d) (live_summary d)
           (foldl (fun m kv => delete kv.1 m) (daily_reports d) old)
           (notifications d)
  end.

(** ** Reading the aggregate, for stating what the report queries return *)

(** The row of [dailyBreakdown] a report gives. *)
Definition breakdownRow (report : Document) : BreakdownRow :=
  mkBreakdownRow (report !! "dateString") (report !! "totalSales")
    (report !! "totalPurchases") (report !! "totalProfit") (report !! "totalTransactions").

(** Some report of the list has an entry for the material in its
    [materialStats]. *)
Definition hasMaterial (mat : string) (reports : list Document) : bool :=
  existsb (fun report => bool_decide (is_Some (assoc mat (entriesOf (report !! "materialStats")))))
    reports.

(** ** The dates a Firestore timestamp can hold *)

(** One 400-year era again: the day number of each date is the day the date
    came from, and the years of the era's days. *)
Definition checkCivil (z : Z) : bool :=
  let '(y, m, d) := civil_from_days z in
  (days_from_civil y m d =? z) && (0 <=? y) && (y <=? 400)
  && ((z <? -719162) || (1 <=? y)) && ((-573432 <? z) || (y <=? 399)).

(** ** The entries of a day, for stating what the collect phase builds *)

(** The time value of the date the callback extracts. *)
Definition dateOf (t : Transaction) : option Z :=
  match extractDate (data t) with
  | Dated (Some ms) => Some ms
  | _ => None
  end.

(** The key of the day the callback files the entry under. *)
Definition dateKeyOf (t : Transaction) : option string := toISODate <$> dateOf t.

Definition entriesOfDay (k : string) (scanned : list TxDoc) : list TxDoc :=
  filter (fun d => dateKeyOf d.2 = Some k) scanned.

(** The entry is skipped, or its date is one a timestamp can hold (the
    [date] of a day's record is stored as a timestamp). *)
Definition validDate (t : Transaction) : bool :=
  match extractDate (data t) with
  | Skipped => true
  | Dated (Some ms) => (TIMESTAMP_MIN <=? ms) && (ms <=? TIMESTAMP_MAX)
  | Dated None => false
  end.

(** The write phase stores the day [k]: always under [forceOverwrite],
    otherwise when no report is stored under [k]. *)
Definition storesDay (force : bool) (reports : gmap string Document) (k : string) : bool :=
  force || negb (bool_decide (is_Some (reports !! k))).

(** ** Sample entries and stores *)

Definition expenseEntry : Transaction :=
  mkTransaction "despesa" (Some "ferro") 5 40 (Some "pix") (DTimestamp 1710072000000).

Definition stock30 : World :=
  mkWorld (mkDb [] (Some {[ "ferro.quantidade" := VNum 30 ]}) None ∅ []) ∅.

(** A sale of 2024-01-15 (its time value is noon UTC of that day). *)
Definition historicalSale : Transaction :=
  mkTransaction "venda" (Some "ferro") 20 80 (Some "pix") (DTimestamp 1705320000000).

Definition emptyWorld : World := mkWorld (mkDb [] None None ∅ []) ∅.

Definition sale80 : Transaction :=
  mkTransaction "venda" (Some "ferro") 20 80 (Some "pix") (DTimestamp 1710072000000).

Definition summary100 : Document := {[ "totalVendasMes" := VNum 100 ]}.

(** The live summary was read, and cached, at 2024-03-10T12:00:00Z. *)
Definition cachedWorld : World :=
  mkWorld (mkDb [] None (Some summary100) ∅ [])
          {[ "live_summary" := mkCacheEntry summary100 1710072000000 ]}.

(** An event with the [data] fields of its snapshots replaced. *)
Definition withData (d : DataField) (t : Transaction) : Transaction :=
  mkTransaction (tipo t) (material t) (quantidade t) (valorTotal t) (formaPagamento t) d.

Definition redated (d1 d2 : DataField) (ev : Event) : Event :=
  mkEvent (withData d1 <$> beforeData ev) (withData d2 <$> afterData ev).

(** A small ledger: two entries of 2024-03-09, one of 2024-03-10, and one
    whose [data] is a number. *)
Definition ledgerDocA : TxDoc :=
  ("a", mkTransaction "compra" (Some "ferro") 50 100 None (DTimestamp 1709985600000)).
Definition ledgerDocB : TxDoc :=
  ("b", mkTransaction "venda" (Some "ferro") 20 80 (Some "PIX") (DTimestamp 1709985600000)).
Definition ledgerDocC : TxDoc :=
  ("c", mkTransaction "despesa" None 0 30 None (DTimestamp 1710072000000)).
Definition ledgerDocN : TxDoc :=
  ("n", mkTransaction "venda" (Some "cobre") 1 10 None (DNumber 1710072000000)).

Definition smallLedger : World :=
  mkWorld (mkDb [ledgerDocA; ledgerDocB; ledgerDocN; ledgerDocC] None None ∅ []) ∅.

(** A backfill of March 2024 (1 March 00:00 to 31 March 00:00 UTC). *)
Definition marchRequest : BackfillRequest.t :=
  BackfillRequest.mk (Some (Some 1709251200000)) (Some (Some 1711843200000)) false.

Definition firstRunStats : BackfillStats :=
  mkBackfillStats 3 2 0 "2024-03-01" "2024-03-31".

Definition firstRunWorld : World :=
  match backfillHistory marchRequest 1710100000000 1710100001000 1710100002000 smallLedger with
  | Ok rw => rw.2
  | Raise _ => smallLedger
  end.

(** An inventory with 30 of ferro (minimum 100) and 500 of cobre, and no
    notification yet. *)
Definition lowInventory : Document :=
  list_to_map [("ferro", VMap [("quantidade", VNum 30)]);
               ("cobre", VMap [("quantidade", VNum 500)]);
               ("lastUpdated", VTime 1710072000000)].

Definition lowStockDb : Db := mkDb [] (Some lowInventory) None ∅ [].



(** A request for the reports of March 2024. *)
Definition marchReports : RangeRequest.t :=
  RangeRequest.mk (Some "2024-03-01") (Some "2024-03-31") None.

(** The small ledger with an aggregate of March cached at 2024-03-10T12:00Z. *)
Definition cachedAggregate : Document := {[ "totalSales" := VNum 0 ]}.

Definition smallLedgerCached : World :=
  mkWorld (db smallLedger)
    {[ aggregatedCacheKey marchReports := mkCacheEntry cachedAggregate 1710072000000 ]}.

(** A request for the reports of March 2024 narrowed to one material. *)
Definition marchReportsOf (mat : string) : RangeRequest.t :=
  RangeRequest.mk (Some "2024-03-01") (Some "2024-03-31") (Some mat).

(** * Properties *)

Example toISODate_epoch : toISODate 0 = "1970-01-01".
Proof. reflexivity. Qed.

Example toISODate_2024_03_10 : toISODate 1710072000000 = "2024-03-10".
Proof. vm_compute. reflexivity. Qed.

Example toISODate_leap : toISODate (days_from_civil 2024 2 29 * MS_PER_DAY + 5) = "2024-02-29".
Proof. vm_compute. reflexivity. Qed.

Example toISODate_rollover : toISODate (days_from_civil 2023 2 29 * MS_PER_DAY) = "2023-03-01".
Proof. vm_compute. reflexivity. Qed.

(** Payment methods in lower case. *)
Example toLowerCase_ascii : toLowerCase "Dinheiro PIX" = "dinheiro pix".
Proof. reflexivity. Qed.

Example toLowerCase_latin1 :
  toLowerCase "CARTÃO" = "cartão" /\ latin1 "CARTÃO" = true /\ latin1 "Ωmega" = false.
Proof. repeat split; vm_compute; reflexivity. Qed.

(** ** Merge-writes and the cache *)

Lemma setMerge_lookup (t : Z) (upd : Update) (doc : option Document) (k : string) :
  setMerge t upd doc !! k =
  match upd !! k with
  | Some f => Some (applyField t (default ∅ doc !! k) f)
  | None => default ∅ doc !! k
  end.
Proof.
  unfold setMerge. rewrite lookup_merge.
  destruct (upd !! k) as [f|] eqn:Hu; destruct (default ∅ doc !! k); reflexivity.
Qed.

Lemma setMerge_singleton_increment (t n m : Z) (k : string) (doc : Document) :
  setMerge t {[k := Increment m]} (Some (<[k := VNum n]> doc))
  = <[k := VNum (n + m)]> doc.
Proof.
  apply map_eq. intros j. rewrite setMerge_lookup. simpl.
  destruct (decide (k = j)) as [->|Hne].
  - rewrite lookup_singleton_eq, !lookup_insert_eq. reflexivity.
  - rewrite lookup_singleton_ne, !lookup_insert_ne by done. reflexivity.
Qed.

Lemma invalidateCache_lookup {A} (pre k : string) (c : gmap string (CacheEntry A)) :
  invalidateCache pre c !! k = if startsWith k pre then None else c !! k.
Proof.
  unfold invalidateCache. rewrite map_lookup_filter.
  destruct (c !! k) as [e|] eqn:Hc; simpl.
  - by destruct (startsWith k pre).
  - by destruct (startsWith k pre).
Qed.

(** None of the three prefixes the handler invalidates is a prefix of the
    key [getLiveSummary] caches under. *)
Lemma handlerInvalidate_live_summary {A} (c : gmap string (CacheEntry A)) :
  handlerInvalidate c !! "live_summary" = c !! "live_summary".
Proof.
  unfold handlerInvalidate. rewrite !invalidateCache_lookup. reflexivity.
Qed.

(** A cache hit younger than the time-to-live answers from the cache. *)
Lemma getCachedData_hit {A} (t_read t_store t0 : Z) (key : string) (v fetched : A)
    (c : gmap string (CacheEntry A)) :
  c !! key = Some (mkCacheEntry v t0) ->
  t_read - t0 < CACHE_TTL ->
  getCachedData t_read t_store key fetched c = (v, c).
Proof.
  intros Hc Ht. unfold getCachedData. rewrite Hc. simpl.
  rewrite bool_decide_true by done. reflexivity.
Qed.

(** ** The mutation handler *)

(** The daily-report block reads [today] where it is not bound: it throws on
    its first statement, whatever the event. *)
Lemma dailyAttempt_handlerScope (ev : Event) :
  dailyAttempt handlerScope ev = Raise "ReferenceError: today is not defined".
Proof. reflexivity. Qed.

(** The inventory update of a creation and of a deletion: one increment under
    the key of the entry's material. *)
Lemma invUpdate_create (a : Transaction) :
  invUpdate (mkEvent None (Some a))
  = {[ template (material a) +:+ ".quantidade" :=
         Increment (if String.eqb (tipo a) "compra" then quantidade a else - quantidade a) ]}.
Proof. reflexivity. Qed.

Lemma invUpdate_delete (b : Transaction) :
  invUpdate (mkEvent (Some b) None)
  = {[ template (material b) +:+ ".quantidade" :=
         Increment (if String.eqb (tipo b) "compra" then - quantidade b else quantidade b) ]}.
Proof. reflexivity. Qed.

(** A purchase adds its quantity and a sale subtracts it; reversed, the signs
    are exchanged. *)
Lemma invUpdate_purchase_sale (m : string) (q v : Z) (fp : option string) (d : DataField) :
  invUpdate (mkEvent None (Some (mkTransaction "compra" (Some m) q v fp d)))
    = {[ m +:+ ".quantidade" := Increment q ]} /\
  invUpdate (mkEvent None (Some (mkTransaction "venda" (Some m) q v fp d)))
    = {[ m +:+ ".quantidade" := Increment (- q) ]} /\
  invUpdate (mkEvent (Some (mkTransaction "compra" (Some m) q v fp d)) None)
    = {[ m +:+ ".quantidade" := Increment (- q) ]} /\
  invUpdate (mkEvent (Some (mkTransaction "venda" (Some m) q v fp d)) None)
    = {[ m +:+ ".quantidade" := Increment q ]}.
Proof. repeat split; reflexivity. Qed.

(** When both snapshots name the same material, the forward increment
    replaces the reversal in the update object. *)
Lemma invUpdate_same_material (b a : Transaction) :
  material b = material a ->
  invUpdate (mkEvent (Some b) (Some a))
  = {[ template (material a) +:+ ".quantidade" :=
         Increment (if String.eqb (tipo a) "compra" then quantidade a else - quantidade a) ]}.
Proof.
  intros Hm. unfold invUpdate, onAfter, onBefore, applyInv, reverseInv, assign. simpl.
  rewrite Hm, insert_insert_eq. reflexivity.
Qed.

(** C1, at an expense entry: the specification gives an expense the
    inventory delta 0; the handler gives the created expense entry
    [{despesa, ferro, quantidade 5}] the delta -5 (and +5 when it is
    reversed), so that a stock of 30 becomes 25. *)
Theorem C1_expense_changes_inventory :
  invUpdate (mkEvent None (Some expenseEntry))
    = {[ "ferro.quantidade" := Increment (-5) ]} /\
  invUpdate (mkEvent (Some expenseEntry) None)
    = {[ "ferro.quantidade" := Increment 5 ]} /\
  inventory (db (world (updateInventoryAndStatsOnChange 1710072001000 1710072001000 true
                          (mkEvent None (Some expenseEntry)) stock30)))
    = Some {[ "ferro.quantidade" := VNum 25 ]}.
Proof. repeat split; vm_compute; reflexivity. Qed.

(** C2, at the event of the specification: updating a purchase of material [M] from
    quantity 10 to quantity 3 hands the inventory the single increment +3
    (the reversal -10 is overwritten, not summed), and a stock of [n]
    becomes [n + 3], where the specification requires [n - 7]. *)
Theorem C2_update_applies_forward_only (M : string) (v1 v2 n now serverTime : Z)
    (fp1 fp2 : option string) (d1 d2 : DataField) (doc : Document)
    (txs : list (string * Transaction)) (ls : option Document)
    (dr : gmap string Document) (nt : list (string * Document))
    (c : gmap string (CacheEntry Document)) :
  let ev := mkEvent (Some (mkTransaction "compra" (Some M) 10 v1 fp1 d1))
                    (Some (mkTransaction "compra" (Some M) 3 v2 fp2 d2)) in
  let w := mkWorld (mkDb txs (Some (<[M +:+ ".quantidade" := VNum n]> doc)) ls dr nt) c in
  invUpdate ev = {[ M +:+ ".quantidade" := Increment 3 ]} /\
  inventory (db (world (updateInventoryAndStatsOnChange now serverTime true ev w)))
    = Some (<[M +:+ ".quantidade" := VNum (n + 3)]> doc).
Proof.
  intros ev w.
  assert (Hu : invUpdate ev = {[ M +:+ ".quantidade" := Increment 3 ]}).
  { unfold ev. rewrite invUpdate_same_material by reflexivity. reflexivity. }
  split; [exact Hu|].
  unfold updateInventoryAndStatsOnChange. simpl beforeData. simpl afterData. cbv iota.
  rewrite dailyAttempt_handlerScope. cbn [world db].
  unfold transactionWrites, commit. cbn [foldl fst snd writeMerge inventory w db].
  rewrite Hu, setMerge_singleton_increment. reflexivity.
Qed.

(** The daily-report block never reads the [data] field of a snapshot. *)
Lemma dailyUpdate_redated (today : string) (noon : Z) (d1 d2 : DataField) (ev : Event) :
  dailyUpdate today noon (redated d1 d2 ev) = dailyUpdate today noon ev.
Proof. destruct ev as [[b|] [a|]]; reflexivity. Qed.

Lemma assign_lookup_notin (u : Update) (kvs : list (string * FieldValue)) (k : string) :
  Forall (fun kv => kv.1 <> k) kvs -> assign u kvs !! k = u !! k.
Proof.
  unfold assign. revert u. induction kvs as [|[k' v] kvs IH]; intros u Hall; [done|].
  inversion Hall as [|? ? Hne Hrest]; subst. simpl in *.
  rewrite IH by done. by rewrite lookup_insert_ne.
Qed.

Ltac other_keys :=
  repeat first [ apply List.Forall_nil | apply List.Forall_cons; [discriminate|] ].

Lemma reverseDaily_dateString (b : Transaction) (u : Update) :
  reverseDaily b u !! "dateString" = u !! "dateString".
Proof.
  unfold reverseDaily.
  repeat first
    [ rewrite assign_lookup_notin by other_keys
    | match goal with |- context [if ?c then _ else _] => destruct c end ];
  reflexivity.
Qed.

Lemma applyDaily_dateString (a : Transaction) (u : Update) :
  applyDaily a u !! "dateString" = u !! "dateString".
Proof.
  unfold applyDaily.
  repeat first
    [ rewrite assign_lookup_notin by other_keys
    | match goal with |- context [if ?c then _ else _] => destruct c end ];
  reflexivity.
Qed.

Lemma dailyUpdate_dateString (today : string) (noon : Z) (ev : Event) :
  dailyUpdate today noon ev !! "dateString" = Some (Plain (VStr today)).
Proof.
  unfold dailyUpdate, onAfter, onBefore.
  destruct (afterData ev); destruct (beforeData ev);
    rewrite ?applyDaily_dateString, ?reverseDaily_dateString; reflexivity.
Qed.

(** C3, as amended: the handler never reads the date of the mutated entry.
    For every event, store and outcome of the commit, the handler does the
    same (writes, cache, log, result) whatever dates the snapshots carry; and
    in every scope, the handler's own included, the daily-report block does
    the same for every date of the entry, and the document it names, when it
    names one, is the daily report keyed and stamped by [today], the date of
    the handler's clock.  So an edit to a historical entry is never applied
    to the record of that entry's day. *)
Theorem C3_daily_update_keyed_by_today (sc : Scope) (now serverTime : Z) (commits : bool)
    (ev : Event) (w : World) (d1 d2 : DataField) :
  updateInventoryAndStatsOnChange now serverTime commits (redated d1 d2 ev) w
  = updateInventoryAndStatsOnChange now serverTime commits ev w /\
  dailyAttempt sc (redated d1 d2 ev) = dailyAttempt sc ev /\
  match dailyAttempt sc ev with
  | Ok (ref, upd) =>
      exists today, sc !! "today" = Some (BString today) /\
                    ref = DailyReportDoc today /\
                    upd !! "dateString" = Some (Plain (VStr today))
  | Raise _ => True
  end.
Proof.
  refine (conj _ (conj _ _)).
  - destruct ev as [[b|] [a|]], commits; reflexivity.
  - unfold dailyAttempt, resolveString, resolve.
    destruct (sc !! "today") as [[today|]|]; cbn [exc_bind]; try reflexivity.
    destruct (parseISODate today) as [midnight|]; cbn [exc_bind]; [|reflexivity].
    by rewrite dailyUpdate_redated.
  - unfold dailyAttempt, resolveString, resolve.
    destruct (sc !! "today") as [[today|]|]; cbn [exc_bind]; try exact I.
    destruct (parseISODate today) as [midnight|]; cbn [exc_bind]; [|exact I].
    destruct (sc !! "transaction"); cbn [exc_bind]; [|exact I].
    exists today. refine (conj eq_refl (conj eq_refl _)). apply dailyUpdate_dateString.
Qed.

(** C3, refuted as stated: a sale of 80 dated 2024-01-15 is created on
    2024-03-10, in a store that holds the daily report of 2024-01-15 with
    sales of 500.  The specification has the deltas of the sale applied to
    that report; the handler commits the sale to the live summary and leaves
    the report of 2024-01-15, and every other daily report, as it was. *)
Lemma C3_counterexample :
  let ev := mkEvent None (Some historicalSale) in
  let report := {[ "totalSales" := VNum 500; "salesCount" := VNum 3 ]} : Document in
  let w := mkWorld (mkDb [] None None {[ "2024-01-15" := report ]} []) ∅ in
  let r := updateInventoryAndStatsOnChange 1710072000000 1710072000000 true ev w in
  toISODate 1705320000000 = "2024-01-15" /\
  toISODate 1710072000000 = "2024-03-10" /\
  outcome r = ReturnsSuccess /\
  (exists summary, live_summary (db (world r)) = Some summary /\
                   summary !! "vendasHoje" = Some (VNum 80)) /\
  daily_reports (db (world r)) !! "2024-01-15" = Some report /\
  daily_reports (db (world r)) = daily_reports (db w).
Proof.
  cbv zeta. refine (conj _ (conj _ (conj _ (conj _ (conj _ _))))); try (vm_compute; reflexivity).
  eexists. split; vm_compute; reflexivity.
Qed.

(** C4, at a cached summary: the live summary is cached at 12:00:00, a sale
    of 80 is handled one second later and the stored summary goes from 100 to
    180; a [getLiveSummary] one second after the handler still answers 100
    from the cache, whose entry the handler's three prefixes do not match. *)
Theorem C4_live_summary_served_stale :
  let r := updateInventoryAndStatsOnChange 1710072001000 1710072001000 true
             (mkEvent None (Some sale80)) cachedWorld in
  outcome r = ReturnsSuccess /\
  fetchLiveSummary (db cachedWorld) !! "totalVendasMes" = Some (VNum 100) /\
  fetchLiveSummary (db (world r)) !! "totalVendasMes" = Some (VNum 180) /\
  memoryCache (world r) !! "live_summary" = memoryCache cachedWorld !! "live_summary" /\
  (getLiveSummary 1710072002000 1710072002000 (world r)).1 = summary100.
Proof. repeat split; vm_compute; reflexivity. Qed.

(** The same for every event the handler commits: an entry of
    ["live_summary"] younger than the time-to-live survives the handler and
    answers the next [getLiveSummary]. *)
Lemma getLiveSummary_after_handler (now serverTime t_read t_store t0 : Z) (ev : Event)
    (w : World) (v : Document) :
  memoryCache w !! "live_summary" = Some (mkCacheEntry v t0) ->
  t_read - t0 < CACHE_TTL ->
  (getLiveSummary t_read t_store
     (world (updateInventoryAndStatsOnChange now serverTime true ev w))).1 = v.
Proof.
  intros Hc Ht. unfold getLiveSummary.
  assert (Hm : memoryCache (world (updateInventoryAndStatsOnChange now serverTime true ev w))
               !! "live_summary" = Some (mkCacheEntry v t0)).
  { unfold updateInventoryAndStatsOnChange.
    destruct (beforeData ev), (afterData ev); rewrite ?dailyAttempt_handlerScope; simpl;
      rewrite ?handlerInvalidate_live_summary; exact Hc. }
  rewrite (getCachedData_hit _ _ t0 _ v) by done. reflexivity.
Qed.

(** Writes issued on the document references themselves, stopped after the
    first: the inventory is written and the live summary is not. *)
Example direct_writes_are_not_atomic :
  let ops := [DirectSet InventoryCurrent {[ "ferro.quantidade" := Increment 5 ]};
              DirectSet ReportsLiveSummary {[ "transacoesHoje" := Increment 1 ]}] in
  let m := runOps true 0 (take 1 ops) (startMachine emptyWorld) in
  inventory (store m) = Some {[ "ferro.quantidade" := VNum 5 ]} /\
  live_summary (store m) = None.
Proof. split; vm_compute; reflexivity. Qed.

(** C5: wherever the handler is stopped, after any number [n] of its
    operations, [inventory/current] and [reports/live_summary] are both as
    they were or both merged with their update objects, never one without
    the other: both are merged exactly when the event carries a snapshot,
    the commit of the transaction succeeded and the handler got past it (its
    third operation).  The handler run to its end is the handler: same
    store, cache, log and result; it returns success exactly when both are
    merged. *)
Theorem C5_inventory_and_summary_atomic (now serverTime : Z) (commits : bool)
    (ev : Event) (w : World) (n : nat) :
  let stopped := runOps commits serverTime (take n (handlerOps now ev)) (startMachine w) in
  let finished := runOps commits serverTime (handlerOps now ev) (startMachine w) in
  let r := updateInventoryAndStatsOnChange now serverTime commits ev w in
  (if hasData ev && commits && (3 <=? n)%nat
   then inventory (store stopped)
        = Some (setMerge serverTime (invUpdate ev) (inventory (db w))) /\
        live_summary (store stopped)
        = Some (setMerge serverTime (statsUpdate now ev) (live_summary (db w)))
   else inventory (store stopped) = inventory (db w) /\
        live_summary (store stopped) = live_summary (db w)) /\
  store finished = db (world r) /\
  mcache finished = memoryCache (world r) /\
  mlog finished = logged r /\
  result finished = Some (outcome r) /\
  (outcome r = ReturnsSuccess <-> hasData ev && commits = true).
Proof.
  cbv zeta. unfold handlerOps, updateInventoryAndStatsOnChange, hasData.
  rewrite dailyAttempt_handlerScope.
  destruct ev as [[b|] [a|]]; cbn [beforeData afterData]; destruct commits;
    (refine (conj _ (conj eq_refl (conj eq_refl (conj eq_refl (conj eq_refl _)))));
     [destruct (Nat.lt_ge_cases n 8) as [Hlt|Hge];
      [do 8 (destruct n as [|n]; [split; reflexivity|]); lia
      |rewrite take_ge by (cbn; lia);
       assert (H3 : (3 <=? n)%nat = true) by (apply Nat.leb_le; lia);
       rewrite ?H3; split; reflexivity]
     |split; intros ?; first [reflexivity | discriminate]]).
Qed.

(** ** Pagination and the daily job *)

Lemma forEachDoc_app {S} (f : Transaction -> S -> Exc S) (l1 l2 : list TxDoc) (st : S) :
  forEachDoc f (l1 ++ l2) st = try! s <- forEachDoc f l1 st in forEachDoc f l2 s.
Proof.
  revert st. induction l1 as [|d l1 IH]; intros st; simpl; [done|].
  destruct (f d.2 st); simpl; [apply IH | done].
Qed.

(** Pagination visits every document of the query once, in order. *)
Lemma scanPages_forEachDoc {S} (f : Transaction -> S -> Exc S) (rest : list TxDoc) (st : S) :
  scanPages f rest st = forEachDoc f rest st.
Proof.
  remember (length rest) as n eqn:Hn. revert rest st Hn.
  induction n as [n IH] using lt_wf_ind. intros rest st Hn.
  destruct rest as [|d ds]; [by simp scanPages|].
  assert (Hsplit : forEachDoc f (d :: ds) st
            = try! s <- forEachDoc f (take BATCH_SIZE (d :: ds)) st in
              forEachDoc f (drop BATCH_SIZE (d :: ds)) s).
  { by rewrite <- forEachDoc_app, take_drop. }
  rewrite Hsplit. simp scanPages.
  destruct (forEachDoc f (take BATCH_SIZE (d :: ds)) st) as [st'|e] eqn:Hpage;
    cbn [exc_bind scanPages_unfold_clause_2]; [|done].
  destruct (length (take BATCH_SIZE (d :: ds)) <? BATCH_SIZE)%nat eqn:Hshort.
  - apply Nat.ltb_lt in Hshort. rewrite length_take in Hshort.
    rewrite drop_ge by lia. reflexivity.
  - eapply IH; [|reflexivity]. subst n. rewrite length_drop. simpl length. unfold BATCH_SIZE. lia.
Qed.

Lemma forEachDoc_total {S} (g : Transaction -> S -> S) (l : list TxDoc) (st : S) :
  forEachDoc (fun t s => Ok (g t s)) l st = Ok (foldl (fun s d => g d.2 s) st l).
Proof. revert st. induction l as [|d l IH]; intros st; simpl; [done | apply IH]. Qed.

Lemma numOr_0 (x : Z) : numOr x 0 = x.
Proof. unfold numOr. destruct (x =? 0) eqn:H; [|done]. apply Z.eqb_eq in H. by subst. Qed.

Lemma sumZ_Permutation {A} (f : A -> Z) (l1 l2 : list A) :
  l1 ≡ₚ l2 -> sumZ f l1 = sumZ f l2.
Proof. induction 1; simpl; lia. Qed.

Lemma sumZ_app {A} (f : A -> Z) (l1 l2 : list A) :
  sumZ f (l1 ++ l2) = sumZ f l1 + sumZ f l2.
Proof. induction l1; simpl; lia. Qed.

(** The scalar counters of an accumulator after a run of entries. *)
Lemma foldl_accumulate_scalars (l : list TxDoc) (st : DayStats) :
  let r := foldl (fun s d => accumulate d.2 s) st l in
  date r = date st /\ dateString r = dateString st /\
  totalSales r = totalSales st + sumZ (valorOf Venda) l /\
  totalPurchases r = totalPurchases st + sumZ (valorOf Compra) l /\
  totalExpenses r = totalExpenses st + sumZ (valorOf Despesa) l /\
  totalTransactions r = totalTransactions st + Z.of_nat (length l) /\
  salesCount r = salesCount st + sumZ (oneOf Venda) l /\
  purchasesCount r = purchasesCount st + sumZ (oneOf Compra) l /\
  expensesCount r = expensesCount st + sumZ (oneOf Despesa) l.
Proof.
  revert st. induction l as [|d l IH]; intros st; simpl.
  { repeat split; lia. }
  specialize (IH (accumulate d.2 st)). simpl in IH.
  destruct IH as (H1 & H2 & H3 & H4 & H5 & H6 & H7 & H8 & H9).
  rewrite H1, H2, H3, H4, H5, H6, H7, H8, H9.
  unfold accumulate, valorOf, oneOf. rewrite numOr_0.
  destruct (kindOf (tipo d.2)); simpl; repeat case_decide; try congruence;
    repeat split; lia.
Qed.

(** The bounds of the daily job select the timestamps of one UTC day. *)
Lemma inRange_onDayOf (day : Z) (d : TxDoc) :
  inRange (startOfDay day) (startOfDay day + 86399999) d = onDayOf day d.
Proof.
  unfold inRange, onDayOf, startOfDay, MS_PER_DAY. destruct (timeOf d.2) as [ms|]; [|done].
  apply eq_true_iff_eq. rewrite andb_true_iff, !Z.leb_le, Z.eqb_eq.
  Z.div_mod_to_equations. lia.
Qed.

Lemma toISODate_same_day (a b : Z) :
  a / MS_PER_DAY = b / MS_PER_DAY -> toISODate a = toISODate b.
Proof. unfold toISODate. by intros ->. Qed.

Lemma rangeQuery_Permutation (start end_ : Z) (txs : list TxDoc) :
  rangeQuery start end_ txs ≡ₚ filter (fun d => inRange start end_ d = true) txs.
Proof. apply merge_sort_Permutation. Qed.

Lemma sumInOrder_sumZ {A} (f : A -> Z) (l : list A) : sumInOrder f l = sumZ f l.
Proof.
  unfold sumInOrder, sumZ.
  assert (H : forall a, foldl (fun acc x => acc + f x) a l
                        = a + foldr (fun x acc => f x + acc) 0 l).
  { induction l as [|x l IH]; intros a; cbn [foldl foldr]; [lia|]. rewrite IH. lia. }
  rewrite H. lia.
Qed.

Lemma assoc_encoded {A} (g : A -> Value) (m : gmap string A) (k : string) :
  assoc k ((fun kv : string * A => (kv.1, g kv.2)) <$> map_to_list m) = g <$> (m !! k).
Proof.
  rewrite <- (list_to_map_to_list m) at 2.
  induction (map_to_list m) as [|[j v] l IH]; [done|].
  rewrite fmap_cons. cbn [assoc fst snd list_to_map foldr].
  destruct (String.eqb_spec k j) as [->|Hne].
  - by rewrite lookup_insert_eq.
  - by rewrite lookup_insert_ne.
Qed.

(** The keys as the accumulator computes them. *)
Lemma strOr_material (x : TxDoc) : strOr (material x.2) "outros" = materialOf x.
Proof. unfold materialOf. by destruct (material x.2) as [[|c s]|]. Qed.

Lemma strOr_payment (x : TxDoc) :
  toLowerCase (strOr (formaPagamento x.2) "dinheiro") = paymentOf x.
Proof. unfold paymentOf, paymentNamed. by destruct (formaPagamento x.2) as [[|c s]|]. Qed.

(** What the accumulator holds for a material: the sums over the entries
    filed under it. *)
Lemma foldl_accumulate_material (l : list TxDoc) (st : DayStats) (m : string) :
  inherited m = false ->
  materialStats (foldl (fun s d => accumulate d.2 s) st l) !! m
  = match filter (fun x => materialOf x = m) l with
    | [] => materialStats st !! m
    | es =>
        let m0 := default (MaterialStat.mk 0 0 0 0 0) (materialStats st !! m) in
        let vendas := MaterialStat.vendas m0 + sumZ (valorOf Venda) es in
        let compras := MaterialStat.compras m0 + sumZ (valorOf Compra) es in
        Some (MaterialStat.mk vendas compras
                (MaterialStat.quantidade m0 + sumZ signedQty es)
                (vendas - compras)
                (MaterialStat.transacoes m0 + Z.of_nat (length es)))
    end.
Proof.
  intros Hin. revert st. induction l as [|x l IH]; intros st; [done|].
  cbn [foldl]. rewrite IH, filter_cons. clear IH.
  unfold accumulate. cbn [materialStats]. rewrite !numOr_0.
  rewrite strOr_material. unfold bumpMaterial.
  destruct (decide (materialOf x = m)) as [Hm|Hm].
  - rewrite Hm, Hin, lookup_insert_eq. cbn [default from_option id].
    set (m0 := default (MaterialStat.mk 0 0 0 0 0) (materialStats st !! m)).
    assert (Hx : forall es,
      let v1 := MaterialStat.vendas m0 + valorOf Venda x in
      let c1 := MaterialStat.compras m0 + valorOf Compra x in
      Some (MaterialStat.mk (v1 + sumZ (valorOf Venda) es) (c1 + sumZ (valorOf Compra) es)
              (MaterialStat.quantidade m0 + signedQty x + sumZ signedQty es)
              (v1 + sumZ (valorOf Venda) es - (c1 + sumZ (valorOf Compra) es))
              (MaterialStat.transacoes m0 + 1 + Z.of_nat (length es)))
      = Some (MaterialStat.mk
                (MaterialStat.vendas m0 + sumZ (valorOf Venda) (x :: es))
                (MaterialStat.compras m0 + sumZ (valorOf Compra) (x :: es))
                (MaterialStat.quantidade m0 + sumZ signedQty (x :: es))
                (MaterialStat.vendas m0 + sumZ (valorOf Venda) (x :: es)
                 - (MaterialStat.compras m0 + sumZ (valorOf Compra) (x :: es)))
                (MaterialStat.transacoes m0 + Z.of_nat (length (x :: es))))).
    { intros es. cbv zeta. unfold sumZ. cbn [foldr length]. do 2 f_equal; lia. }
    unfold valorOf, signedQty in Hx |- *.
    destruct (filter (fun x0 => materialOf x0 = m) l) as [|e es];
      [specialize (Hx [])|specialize (Hx (e :: es))]; cbv zeta in Hx; rewrite <- Hx; clear Hx;
      destruct (kindOf (tipo x.2)); repeat case_decide; try congruence;
      cbn [MaterialStat.vendas MaterialStat.compras MaterialStat.quantidade
           MaterialStat.lucro MaterialStat.transacoes sumZ foldr length];
      do 2 f_equal; unfold sumZ; cbn [foldr]; lia.
  - destruct (inherited (materialOf x)); [done|]. by rewrite lookup_insert_ne.
Qed.

Lemma foldl_accumulate_payment (l : list TxDoc) (st : DayStats) (p : string) :
  inherited p = false ->
  paymentStats (foldl (fun s d => accumulate d.2 s) st l) !! p
  = match filter (fun x => paymentOf x = p) l with
    | [] => paymentStats st !! p
    | es =>
        let p0 := default (PaymentStat.mk 0 0) (paymentStats st !! p) in
        Some (PaymentStat.mk (PaymentStat.count p0 + Z.of_nat (length es))
                (PaymentStat.total p0 + sumZ (fun x => valorTotal x.2) es))
    end.
Proof.
  intros Hin. revert st. induction l as [|x l IH]; intros st; [done|].
  cbn [foldl]. rewrite IH, filter_cons. clear IH.
  unfold accumulate. cbn [paymentStats]. rewrite !numOr_0.
  rewrite strOr_payment. unfold bumpPayment.
  destruct (decide (paymentOf x = p)) as [Hp|Hp].
  - rewrite Hp, Hin, lookup_insert_eq. cbn [default from_option id].
    destruct (filter (fun x0 => paymentOf x0 = p) l) as [|e es];
      cbn [PaymentStat.count PaymentStat.total]; unfold sumZ; cbn [foldr length];
      do 2 f_equal; lia.
  - destruct (inherited (paymentOf x)); [done|]. by rewrite lookup_insert_ne.
Qed.

Lemma foldl_accumulate_inherited (l : list TxDoc) (t : Z) (k key : string) :
  inherited key = true ->
  materialStats (foldl (fun s d => accumulate d.2 s) (zeroDay t k) l) !! key = None /\
  paymentStats (foldl (fun s d => accumulate d.2 s) (zeroDay t k) l) !! key = None.
Proof.
  intros Hin.
  assert (H : forall st,
    materialStats st !! key = None -> paymentStats st !! key = None ->
    materialStats (foldl (fun s d => accumulate d.2 s) st l) !! key = None /\
    paymentStats (foldl (fun s d => accumulate d.2 s) st l) !! key = None).
  { induction l as [|x l IH]; intros st Hm Hp; [done|]. cbn [foldl]. apply IH.
    - unfold accumulate. cbn [materialStats]. unfold bumpMaterial.
      destruct (inherited (strOr (material x.2) "outros")) eqn:Hi; [done|].
      rewrite lookup_insert_ne; [done|]. intros <-. congruence.
    - unfold accumulate. cbn [paymentStats]. unfold bumpPayment.
      destruct (inherited (toLowerCase (strOr (formaPagamento x.2) "dinheiro"))) eqn:Hi;
        [done|].
      rewrite lookup_insert_ne; [done|]. intros <-. congruence. }
  apply H; apply lookup_empty.
Qed.

(** C7: when the daily report of yesterday's date key exists, the daily job
    returns the store as it is.  Otherwise it stores one document and nothing
    else, under that key, with exactly these fields: the day and its key;
    the totals and counts per kind and the number of entries, summed in scan
    order over all the entries whose timestamp lies on yesterday's day;
    [totalProfit], the sales less the purchases less the expenses; per
    material and per payment method the sums over the entries filed under
    it; and the server time.  The payment methods are text of Latin-1. *)
Theorem C7_daily_job_finalizes_yesterday (now serverTime : Z) (d : Db) :
  let yesterday := now - MS_PER_DAY in
  let key := toISODate yesterday in
  let entries :=
    merge_sort docLe (filter (fun x => onDayOf yesterday x = true) (transactions d)) in
  forallb latin1Payment entries = true ->
  match daily_reports d !! key with
  | Some _ => generateHistoricalDailyReport now serverTime d = Ok d
  | None =>
      let total := fun f : TxDoc -> Z => sumInOrder f entries in
      exists (materials payments : list (string * Value)),
        generateHistoricalDailyReport now serverTime d
        = Ok (mkDb (transactions d) (inventory d) (live_summary d)
                (<[key :=
                     list_to_map
                       [("generatedAt", VTime serverTime);
                        ("date", VTime (startOfDay yesterday));
                        ("dateString", VStr key);
                        ("totalSales", VNum (total (valorOf Venda)));
                        ("totalPurchases", VNum (total (valorOf Compra)));
                        ("totalExpenses", VNum (total (valorOf Despesa)));
                        ("totalProfit",
                         VNum (total (valorOf Venda) - total (valorOf Compra)
                               - total (valorOf Despesa)));
                        ("totalTransactions", VNum (Z.of_nat (length entries)));
                        ("salesCount", VNum (total (oneOf Venda)));
                        ("purchasesCount", VNum (total (oneOf Compra)));
                        ("expensesCount", VNum (total (oneOf Despesa)));
                        ("materialStats", VMap materials);
                        ("paymentStats", VMap payments)]]>
                   (daily_reports d))
                (notifications d)) /\
        NoDup materials.*1 /\
        NoDup payments.*1 /\
        (forall m,
           assoc m materials
           = match filter (fun x => materialOf x = m) entries with
             | [] => None
             | es =>
                 if inherited m then None
                 else
                   let vendas := sumInOrder (valorOf Venda) es in
                   let compras := sumInOrder (valorOf Compra) es in
                   Some (VMap [("vendas", VNum vendas);
                               ("compras", VNum compras);
                               ("quantidade", VNum (sumInOrder signedQty es));
                               ("lucro", VNum (vendas - compras));
                               ("transacoes", VNum (Z.of_nat (length es)))])
             end) /\
        (forall p,
           assoc p payments
           = match filter (fun x => paymentOf x = p) entries with
             | [] => None
             | es =>
                 if inherited p then None
                 else Some (VMap [("count", VNum (Z.of_nat (length es)));
                                  ("total", VNum (sumInOrder (fun x => valorTotal x.2) es))])
             end)
  end.
Proof.
  intros yesterday key entries _.
  unfold generateHistoricalDailyReport. fold yesterday. fold key.
  destruct (daily_reports d !! key) as [existing|] eqn:Hex; [reflexivity|].
  cbv beta iota zeta.
  set (start := startOfDay yesterday).
  assert (Hscan : rangeQuery start (start + 86399999) (transactions d) = entries).
  { unfold rangeQuery, entries. f_equal. apply list_filter_iff.
    intros x. unfold start. by rewrite inRange_onDayOf. }
  rewrite Hscan, scanPages_forEachDoc, forEachDoc_total. cbn [exc_bind].
  set (stats := foldl (fun s x => accumulate x.2 s) (zeroDay start key) entries).
  pose proof (foldl_accumulate_scalars entries (zeroDay start key)) as Hs.
  cbv zeta in Hs. fold stats in Hs.
  destruct Hs as (H1 & H2 & H3 & H4 & H5 & H6 & H7 & H8 & H9).
  cbn [zeroDay date dateString totalTransactions totalSales totalPurchases totalExpenses
       salesCount purchasesCount expensesCount] in H1, H2, H3, H4, H5, H6, H7, H8, H9.
  rewrite Z.add_0_l in H3, H4, H5, H6, H7, H8, H9.
  exists ((fun kv => (kv.1, encodeMaterial kv.2)) <$> map_to_list (materialStats stats)),
         ((fun kv => (kv.1, encodePayment kv.2)) <$> map_to_list (paymentStats stats)).
  refine (conj _ (conj _ (conj _ (conj _ _)))).
  - unfold encodeDay, withProfit.
    cbn [date dateString totalTransactions totalSales totalPurchases totalExpenses
         totalProfit salesCount purchasesCount expensesCount materialStats paymentStats].
    rewrite H1, H2, H3, H4, H5, H6, H7, H8, H9, !sumInOrder_sumZ. reflexivity.
  - rewrite <- list_fmap_compose. apply (NoDup_fst_map_to_list (materialStats stats)).
  - rewrite <- list_fmap_compose. apply (NoDup_fst_map_to_list (paymentStats stats)).
  - intros m. rewrite assoc_encoded. destruct (inherited m) eqn:Hin.
    + unfold stats. rewrite (proj1 (foldl_accumulate_inherited entries start key m Hin)).
      by destruct (filter _ entries).
    + unfold stats. rewrite (foldl_accumulate_material entries _ m Hin).
      cbn [zeroDay materialStats]. rewrite lookup_empty.
      destruct (filter _ entries) as [|e es]; [done|].
      rewrite !sumInOrder_sumZ. cbn [default from_option id fmap option_fmap option_map].
      unfold encodeMaterial. cbn [MaterialStat.vendas MaterialStat.compras
        MaterialStat.quantidade MaterialStat.lucro MaterialStat.transacoes].
      rewrite !Z.add_0_l. reflexivity.
  - intros p. rewrite assoc_encoded. destruct (inherited p) eqn:Hin.
    + unfold stats. rewrite (proj2 (foldl_accumulate_inherited entries start key p Hin)).
      by destruct (filter _ entries).
    + unfold stats. rewrite (foldl_accumulate_payment entries _ p Hin).
      cbn [zeroDay paymentStats]. rewrite lookup_empty.
      destruct (filter _ entries) as [|e es]; [done|].
      rewrite !sumInOrder_sumZ. cbn [default from_option id fmap option_fmap option_map].
      unfold encodePayment. cbn [PaymentStat.count PaymentStat.total].
      rewrite !Z.add_0_l. reflexivity.
Qed.

(** The job of 2024-03-10 over the small ledger: yesterday is 2024-03-09. *)
Lemma C7_daily_job_finalizes_yesterday_witness :
  let now := 1710028800000 in
  let serverTime := 1710028801000 in
  let d := db smallLedger in
  let yesterday := now - MS_PER_DAY in
  let key := toISODate yesterday in
  let entries :=
    merge_sort docLe (filter (fun x => onDayOf yesterday x = true) (transactions d)) in
  forallb latin1Payment entries = true /\
  match daily_reports d !! key with
  | Some _ => generateHistoricalDailyReport now serverTime d = Ok d
  | None =>
      let total := fun f : TxDoc -> Z => sumInOrder f entries in
      exists (materials payments : list (string * Value)),
        generateHistoricalDailyReport now serverTime d
        = Ok (mkDb (transactions d) (inventory d) (live_summary d)
                (<[key :=
                     list_to_map
                       [("generatedAt", VTime serverTime);
                        ("date", VTime (startOfDay yesterday));
                        ("dateString", VStr key);
                        ("totalSales", VNum (total (valorOf Venda)));
                        ("totalPurchases", VNum (total (valorOf Compra)));
                        ("totalExpenses", VNum (total (valorOf Despesa)));
                        ("totalProfit",
                         VNum (total (valorOf Venda) - total (valorOf Compra)
                               - total (valorOf Despesa)));
                        ("totalTransactions", VNum (Z.of_nat (length entries)));
                        ("salesCount", VNum (total (oneOf Venda)));
                        ("purchasesCount", VNum (total (oneOf Compra)));
                        ("expensesCount", VNum (total (oneOf Despesa)));
                        ("materialStats", VMap materials);
                        ("paymentStats", VMap payments)]]>
                   (daily_reports d))
                (notifications d)) /\
        NoDup materials.*1 /\
        NoDup payments.*1 /\
        (forall m,
           assoc m materials
           = match filter (fun x => materialOf x = m) entries with
             | [] => None
             | es =>
                 if inherited m then None
                 else
                   let vendas := sumInOrder (valorOf Venda) es in
                   let compras := sumInOrder (valorOf Compra) es in
                   Some (VMap [("vendas", VNum vendas);
                               ("compras", VNum compras);
                               ("quantidade", VNum (sumInOrder signedQty es));
                               ("lucro", VNum (vendas - compras));
                               ("transacoes", VNum (Z.of_nat (length es)))])
             end) /\
        (forall p,
           assoc p payments
           = match filter (fun x => paymentOf x = p) entries with
             | [] => None
             | es =>
                 if inherited p then None
                 else Some (VMap [("count", VNum (Z.of_nat (length es)));
                                  ("total", VNum (sumInOrder (fun x => valorTotal x.2) es))])
             end)
  end.
Proof.
  assert (H : forallb latin1Payment
                (merge_sort docLe
                   (filter (fun x => onDayOf (1710028800000 - MS_PER_DAY) x = true)
                      (transactions (db smallLedger)))) = true)
    by (vm_compute; reflexivity).
  exact (conj H (C7_daily_job_finalizes_yesterday 1710028800000 1710028801000
                   (db smallLedger) H)).
Defined.

(** The same run, evaluated: the document it stores for 2024-03-09, from a
    purchase of 100 paid in cash and a sale of 80 paid by PIX. *)
Example daily_job_small_ledger :
  exists d',
    generateHistoricalDailyReport 1710028800000 1710028801000 (db smallLedger) = Ok d' /\
    daily_reports d' !! "2024-03-09"
    = Some (list_to_map
              [("generatedAt", VTime 1710028801000);
               ("date", VTime 1709942400000);
               ("dateString", VStr "2024-03-09");
               ("totalSales", VNum 80);
               ("totalPurchases", VNum 100);
               ("totalExpenses", VNum 0);
               ("totalProfit", VNum (-20));
               ("totalTransactions", VNum 2);
               ("salesCount", VNum 1);
               ("purchasesCount", VNum 1);
               ("expensesCount", VNum 0);
               ("materialStats",
                VMap [("ferro", VMap [("vendas", VNum 80); ("compras", VNum 100);
                                      ("quantidade", VNum 30); ("lucro", VNum (-20));
                                      ("transacoes", VNum 2)])]);
               ("paymentStats",
                VMap [("dinheiro", VMap [("count", VNum 1); ("total", VNum 100)]);
                      ("pix", VMap [("count", VNum 1); ("total", VNum 80)])])]).
Proof. eexists. split; vm_compute; reflexivity. Qed.

(** ** The collect phase *)

Lemma extractDate_skipped (d : DataField) :
  isTimestampDateOrString d = false <-> extractDate d = Skipped.
Proof. destruct d; simpl; split; congruence. Qed.

Lemma collectDoc_skipped (t : Transaction) (st : Collected) :
  isTimestampDateOrString (data t) = false -> collectDoc t st = Ok st.
Proof. intros H. unfold collectDoc. apply extractDate_skipped in H. by rewrite H. Qed.

(** What a callback that did not return early has done: one day of
    [dailyData] is replaced and the count went up by one. *)
Lemma collectDoc_dated (t : Transaction) (st st' : Collected) :
  isTimestampDateOrString (data t) = true ->
  collectDoc t st = Ok st' ->
  totalProcessed st' = totalProcessed st + 1.
Proof.
  intros Hd. unfold collectDoc.
  destruct (extractDate (data t)) as [|[ms|]] eqn:He.
  - apply extractDate_skipped in He. congruence.
  - destruct (dailyData st !! toISODate ms) as [day|]; simpl.
    + intros [= <-]. reflexivity.
    + destruct (newDay (toISODate ms)); simpl; [|discriminate]. intros [= <-]. reflexivity.
  - discriminate.
Qed.

(** The reported count is the number of scanned entries that carry a
    timestamp, a date or a string. *)
Lemma forEachDoc_collectDoc_count (l : list TxDoc) (st st' : Collected) :
  forEachDoc collectDoc l st = Ok st' ->
  totalProcessed st'
  = totalProcessed st
    + Z.of_nat (length (filter (fun x => isTimestampDateOrString (data x.2) = true) l)).
Proof.
  revert st. induction l as [|x l IH]; intros st; simpl.
  - intros [= <-]. lia.
  - destruct (collectDoc x.2 st) as [s1|e] eqn:Hx; simpl; [|discriminate].
    intros Hrest. rewrite (IH _ Hrest).
    destruct (isTimestampDateOrString (data x.2)) eqn:Hd.
    + rewrite filter_cons_True by done. rewrite (collectDoc_dated _ _ _ Hd Hx).
      simpl length. lia.
    + rewrite filter_cons_False by congruence.
      rewrite collectDoc_skipped in Hx by done. by injection Hx as <-.
Qed.



Example collect_small_ledger :
  totalProcessed <$> (match collect [ledgerDocA; ledgerDocB; ledgerDocN; ledgerDocC] with
                      | Ok c => Some c
                      | Raise _ => None
                      end) = Some 3.
Proof. vm_compute. reflexivity. Qed.

(** ** Phase 2 of the backfill *)

Lemma commitBatch_lookup_is_Some (batch : list (string * Document))
    (m : gmap string Document) (k : string) :
  is_Some (commitBatch batch m !! k) <-> k ∈ batch.*1 \/ is_Some (m !! k).
Proof.
  unfold commitBatch. revert m. induction batch as [|[k' v] batch IH]; intros m; simpl.
  - rewrite elem_of_nil. tauto.
  - rewrite IH, elem_of_cons, lookup_insert_is_Some. 
    destruct (decide (k' = k)) as [->|Hne]; intuition congruence.
Qed.

(** Without [forceOverwrite], a day whose report is already stored is
    counted as skipped and nothing else changes. *)
Lemma phase2Step_skip (serverTime : Z) (st : Phase2) (kd : string * DayStats) :
  is_Some (committed st !! kd.1) ->
  phase2Step false serverTime st kd
  = mkPhase2 (committed st) (currentBatch st) (batchCount st)
             (skipped st + 1) (daysProcessed st).
Proof.
  intros H. unfold phase2Step. simpl. by rewrite bool_decide_true.
Qed.

Lemma foldl_phase2Step_all_skipped (serverTime : Z) (l : list (string * DayStats))
    (st : Phase2) :
  (forall kd, kd ∈ l -> is_Some (committed st !! kd.1)) ->
  foldl (phase2Step false serverTime) st l
  = mkPhase2 (committed st) (currentBatch st) (batchCount st)
             (skipped st + Z.of_nat (length l)) (daysProcessed st).
Proof.
  revert st. induction l as [|kd l IH]; intros st Hall; simpl.
  - destruct st; simpl. f_equal. lia.
  - rewrite phase2Step_skip by (apply Hall; left).
    rewrite IH; simpl.
    + f_equal. lia.
    + intros kd' Hin. apply Hall. by right.
Qed.

Lemma phase2Step_inv (force : bool) (serverTime : Z) (reports : gmap string Document)
    (seen : list string) (n : Z) (st : Phase2) (kd : string * DayStats) :
  phase2Inv reports seen n st ->
  phase2Inv reports (kd.1 :: seen) (n + 1) (phase2Step force serverTime st kd).
Proof.
  intros (Hcount & Hsum & Hkeep & Hseen). unfold phase2Step.
  destruct (negb force && bool_decide (is_Some (committed st !! kd.1))) eqn:Hskip.
  - apply andb_true_iff in Hskip as [_ Hex]. apply bool_decide_eq_true in Hex.
    refine (conj _ (conj _ (conj _ _))); simpl; [done | lia | done |].
    intros k [->|Hk]%elem_of_cons; [by left | by apply Hseen].
  - destruct (WRITE_BATCH_SIZE <=? batchCount st + 1) eqn:Hfull.
    + refine (conj _ (conj _ (conj _ _))); simpl; [done | lia | |].
      * intros k Hk. apply commitBatch_lookup_is_Some. right. by apply Hkeep.
      * intros k Hk. left. apply commitBatch_lookup_is_Some.
        rewrite fmap_app, elem_of_app. simpl.
        apply elem_of_cons in Hk as [->|Hk].
        -- left. right. by left.
        -- destruct (Hseen k Hk) as [?|?]; [by right | by left; left].
    + refine (conj _ (conj _ (conj _ _))); simpl.
      * rewrite length_app. simpl. lia.
      * lia.
      * done.
      * intros k Hk. rewrite fmap_app, elem_of_app. simpl.
        apply elem_of_cons in Hk as [->|Hk].
        -- right. right. by left.
        -- destruct (Hseen k Hk) as [?|?]; [by left | by right; left].
Qed.

Lemma foldl_phase2Step_inv (force : bool) (serverTime : Z) (reports : gmap string Document)
    (l : list (string * DayStats)) (seen : list string) (n : Z) (st : Phase2) :
  phase2Inv reports seen n st ->
  phase2Inv reports (reverse l.*1 ++ seen) (n + Z.of_nat (length l))
    (foldl (phase2Step force serverTime) st l).
Proof.
  revert seen n st. induction l as [|kd l IH]; intros seen n st Hinv.
  - simpl. by rewrite Z.add_0_r.
  - apply (phase2Step_inv force serverTime) with (kd := kd) in Hinv.
    apply IH in Hinv.
    change ((kd :: l).*1) with (kd.1 :: l.*1). rewrite reverse_cons, <- app_assoc.
    simpl app. simpl foldl.
    replace (n + Z.of_nat (length (kd :: l))) with (n + 1 + Z.of_nat (length l))
      by (simpl length; lia).
    exact Hinv.
Qed.

(** After phase 2 every collected day has a stored report, the reports that
    were stored before are still stored, and every collected day was either
    created or skipped. *)
Lemma phase2_all_stored (force : bool) (serverTime : Z) (dailyData : gmap string DayStats)
    (reports : gmap string Document) :
  let st := phase2 force serverTime dailyData reports in
  (forall k, is_Some (dailyData !! k) -> is_Some (committed st !! k)) /\
  skipped st + daysProcessed st = Z.of_nat (size dailyData).
Proof.
  assert (Hinit : phase2Inv reports [] 0 (mkPhase2 reports [] 0 0 0)).
  { refine (conj _ (conj _ (conj _ _))); simpl; try done.
    intros k Hk. by apply elem_of_nil in Hk. }
  apply (foldl_phase2Step_inv force serverTime reports (sortedDays dailyData)) in Hinit.
  destruct Hinit as (Hcount & Hsum & Hkeep & Hseen).
  assert (Hlen : length (sortedDays dailyData) = size dailyData).
  { unfold sortedDays. rewrite merge_sort_Permutation. by rewrite length_map_to_list. }
  assert (Hkeys : forall k, is_Some (dailyData !! k) -> k ∈ reverse (sortedDays dailyData).*1 ++ []).
  { intros k [d Hd]. rewrite app_nil_r, elem_of_reverse. apply list_elem_of_fmap.
    exists (k, d). split; [done|]. unfold sortedDays. rewrite merge_sort_Permutation.
    by apply elem_of_map_to_list. }
  unfold phase2. cbv zeta.
  set (st := foldl (phase2Step force serverTime) (mkPhase2 reports [] 0 0 0)
               (sortedDays dailyData)) in *.
  destruct (0 <? batchCount st) eqn:Hb; simpl.
  - split; [|lia]. intros k Hk. apply commitBatch_lookup_is_Some.
    destruct (Hseen k (Hkeys k Hk)); [by right | by left].
  - split; [|lia]. intros k Hk.
    destruct (Hseen k (Hkeys k Hk)) as [?|Hin]; [done|].
    apply Z.ltb_ge in Hb. destruct (currentBatch st); [by apply elem_of_nil in Hin|].
    simpl in Hcount. lia.
Qed.

(** Phase 2 over days that all have a stored report. *)
Lemma phase2_all_skipped (serverTime : Z) (dailyData : gmap string DayStats)
    (reports : gmap string Document) :
  (forall k, is_Some (dailyData !! k) -> is_Some (reports !! k)) ->
  phase2 false serverTime dailyData reports
  = mkPhase2 reports [] 0 (Z.of_nat (size dailyData)) 0.
Proof.
  intros Hall. unfold phase2.
  rewrite foldl_phase2Step_all_skipped; simpl.
  - unfold sortedDays. rewrite merge_sort_Permutation, length_map_to_list. reflexivity.
  - intros [k d] Hin. apply Hall. exists d.
    unfold sortedDays in Hin. rewrite merge_sort_Permutation in Hin.
    by apply elem_of_map_to_list in Hin.
Qed.

(** C6: when a backfill without [forceOverwrite] has returned, a second one
    over the same range and the unchanged ledger returns too; it leaves every
    daily report as the first run left it, reports no day created, and counts
    as skipped every day the first run created or skipped. *)
Theorem C6_backfill_twice_is_idempotent (req : BackfillRequest.t)
    (now1 later1 serverTime1 now2 later2 serverTime2 : Z)
    (w w1 : World) (r1 : BackfillStats) :
  BackfillRequest.forceOverwrite req = false ->
  backfillRange req now2 = backfillRange req now1 ->
  backfillHistory req now1 later1 serverTime1 w = Ok (r1, w1) ->
  exists (r2 : BackfillStats) (w2 : World),
    backfillHistory req now2 later2 serverTime2 w1 = Ok (r2, w2) /\
    daily_reports (db w2) = daily_reports (db w1) /\
    daysCreated r2 = 0 /\
    daysSkipped r2 = daysCreated r1 + daysSkipped r1 /\
    totalTransactionsProcessed r2 = totalTransactionsProcessed r1.
Proof.
  intros Hforce Hrange Hrun1. unfold backfillHistory in *.
  rewrite Hrange, Hforce in *.
  destruct (backfillRange req now1) as [[start end_]|e] eqn:Hr; simpl in *; [|discriminate].
  destruct (collect (rangeQuery start end_ (transactions (db w)))) as [c|e] eqn:Hc;
    simpl in *; [|discriminate].
  injection Hrun1 as <- <-. simpl. rewrite Hc. simpl.
  pose proof (phase2_all_stored false serverTime1 (dailyData c) (daily_reports (db w)))
    as [Hstored Hsum].
  rewrite (phase2_all_skipped serverTime2 _ _ Hstored). simpl.
  eexists _, _. split; [reflexivity|]. simpl. repeat split; lia.
Qed.

(** Two backfills of March 2024 over the small ledger. *)
Lemma C6_backfill_twice_is_idempotent_witness :
  BackfillRequest.forceOverwrite marchRequest = false /\
  backfillHistory marchRequest 1710100000000 1710100001000 1710100002000 smallLedger
    = Ok (firstRunStats, firstRunWorld) /\
  exists (r2 : BackfillStats) (w2 : World),
    backfillHistory marchRequest 1710200000000 1710200001000 1710200002000 firstRunWorld
      = Ok (r2, w2) /\
    daily_reports (db w2) = daily_reports (db firstRunWorld) /\
    daysCreated r2 = 0 /\
    daysSkipped r2 = daysCreated firstRunStats + daysSkipped firstRunStats /\
    totalTransactionsProcessed r2 = totalTransactionsProcessed firstRunStats.
Proof.
  split; [reflexivity|]. split; [vm_compute; reflexivity|].
  apply (C6_backfill_twice_is_idempotent marchRequest
           1710100000000 1710100001000 1710100002000
           1710200000000 1710200001000 1710200002000
           smallLedger firstRunWorld firstRunStats).
  - reflexivity.
  - reflexivity.
  - vm_compute. reflexivity.
Defined.

(** ** The calendar *)

Lemma allFrom_iter (f : Z -> bool) (n : nat) (z : Z) (b : bool) :
  let r := Nat.iter n (fun s : Z * bool => (s.1 + 1, s.2 && f s.1)) (z, b) in
  r.1 = z + Z.of_nat n /\
  (r.2 = true -> b = true /\ forall k, z <= k < z + Z.of_nat n -> f k = true).
Proof.
  induction n as [|n IH].
  - simpl. split; [lia|]. intros Hb. split; [done|]. intros k Hk. lia.
  - cbv zeta in IH. destruct IH as [H1 H2]. cbv zeta. rewrite Nat.iter_succ.
    set (r := Nat.iter n _ _) in *. cbn [fst snd]. split; [lia|].
    intros [Hr Hf]%andb_true_iff. destruct (H2 Hr) as [Hb Hall].
    split; [done|]. intros k Hk.
    destruct (decide (k = r.1)) as [->|Hne]; [done|]. apply Hall. lia.
Qed.

Lemma allFrom_spec (n : positive) (z : Z) (f : Z -> bool) :
  allFrom n z f = true -> forall k, z <= k < z + Z.pos n -> f k = true.
Proof.
  unfold allFrom. rewrite Pos2Nat.inj_iter. intros H k Hk.
  destruct (allFrom_iter f (Pos.to_nat n) z true) as [_ Hall].
  apply (proj2 (Hall H)). lia.
Qed.

Lemma checkDay_era : allFrom 146097 (-719468) checkDay = true.
Proof. vm_compute. reflexivity. Qed.

Lemma checkMonth_era : allFrom 4800 0 checkMonth = true.
Proof. vm_compute. reflexivity. Qed.

Lemma checkDay_sound (z : Z) :
  checkDay z = true -> 1 <= (civil_from_days z).1.2 <= 12.
Proof.
  unfold checkDay. destruct (civil_from_days z) as [[y m] d]. cbn [fst snd].
  rewrite !andb_true_iff, !Z.leb_le. lia.
Qed.

Lemma checkMonth_sound (i : Z) :
  checkMonth i = true ->
  civil_from_days (days_from_civil (i / 12) (i mod 12 + 1) 1) = (i / 12, i mod 12 + 1, 1) /\
  civil_from_days (days_from_civil (i / 12 + (i mod 12 + 1) / 12) ((i mod 12 + 1) mod 12 + 1) 0)
    = (i / 12, i mod 12 + 1, daysInMonth (i / 12) (i mod 12 + 1)).
Proof.
  unfold checkMonth. cbv zeta.
  destruct (civil_from_days (days_from_civil (i / 12) (i mod 12 + 1) 1)) as [[a b] c].
  destruct (civil_from_days (days_from_civil _ _ 0)) as [[a' b'] c'].
  cbn [fst snd]. rewrite !andb_true_iff, !Z.eqb_eq.
  intros (((((-> & ->) & ->) & ->) & ->) & ->). split; reflexivity.
Qed.

Lemma civil_from_days_shift (z e : Z) :
  civil_from_days (z + 146097 * e)
  = ((civil_from_days z).1.1 + 400 * e, (civil_from_days z).1.2, (civil_from_days z).2).
Proof.
  unfold civil_from_days. cbv zeta.
  replace (z + 146097 * e + 719468) with (z + 719468 + e * 146097) by lia.
  rewrite Z.div_add by lia.
  replace (z + 719468 + e * 146097 - ((z + 719468) / 146097 + e) * 146097)
    with (z + 719468 - (z + 719468) / 146097 * 146097) by lia.
  set (doe := z + 719468 - (z + 719468) / 146097 * 146097).
  set (yoe := (doe - doe / 1460 + doe / 36524 - doe / 146096) / 365).
  set (doy := doe - (365 * yoe + yoe / 4 - yoe / 100)).
  set (mp := (5 * doy + 2) / 153).
  cbn [fst snd]. destruct ((if mp <? 10 then mp + 3 else mp - 9) <=? 2); f_equal; f_equal; lia.
Qed.

Lemma days_from_civil_shift (y m d e : Z) :
  days_from_civil (y + 400 * e) m d = days_from_civil y m d + 146097 * e.
Proof.
  unfold days_from_civil. cbv zeta.
  assert (H : forall a, (a + e * 400) / 400 = a / 400 + e) by (intros; by rewrite Z.div_add).
  destruct (m <=? 2).
  - replace (y + 400 * e - 1) with (y - 1 + e * 400) by lia. rewrite H.
    replace (y - 1 + e * 400 - ((y - 1) / 400 + e) * 400)
      with (y - 1 - (y - 1) / 400 * 400) by lia.
    lia.
  - replace (y + 400 * e) with (y + e * 400) by lia. rewrite H.
    replace (y + e * 400 - (y / 400 + e) * 400) with (y - y / 400 * 400) by lia.
    lia.
Qed.

Lemma isLeapYear_shift (y e : Z) : isLeapYear (y + 400 * e) = isLeapYear y.
Proof.
  unfold isLeapYear.
  replace ((y + 400 * e) mod 4) with (y mod 4)
    by (replace (y + 400 * e) with (y + (100 * e) * 4) by lia; by rewrite Z.mod_add).
  replace ((y + 400 * e) mod 100) with (y mod 100)
    by (replace (y + 400 * e) with (y + (4 * e) * 100) by lia; by rewrite Z.mod_add).
  replace ((y + 400 * e) mod 400) with (y mod 400)
    by (replace (y + 400 * e) with (y + e * 400) by lia; by rewrite Z.mod_add).
  reflexivity.
Qed.

Lemma daysInMonth_shift (y m e : Z) : daysInMonth (y + 400 * e) m = daysInMonth y m.
Proof. unfold daysInMonth. by rewrite isLeapYear_shift. Qed.

(** Every day number falls in a month from 1 to 12. *)
Lemma civil_from_days_month (z : Z) : 1 <= (civil_from_days z).1.2 <= 12.
Proof.
  set (e := (z + 719468) / 146097).
  assert (Hr : -719468 <= z - 146097 * e < -719468 + 146097).
  { subst e. Z.div_mod_to_equations. lia. }
  pose proof (checkDay_sound _ (allFrom_spec _ _ _ checkDay_era _ Hr)) as Hc.
  replace z with ((z - 146097 * e) + 146097 * e) by lia.
  rewrite civil_from_days_shift. exact Hc.
Qed.

(** The first day of a month and the day before the first day of the next
    month, back from their day numbers. *)
Lemma civil_from_days_month_bounds (y m : Z) :
  1 <= m <= 12 ->
  civil_from_days (days_from_civil y m 1) = (y, m, 1) /\
  civil_from_days (days_from_civil (y + m / 12) (m mod 12 + 1) 0) = (y, m, daysInMonth y m).
Proof.
  intros Hm.
  assert (Hy : y = y mod 400 + 400 * (y / 400)) by (Z.div_mod_to_equations; lia).
  assert (Hy0 : 0 <= y mod 400 < 400) by (Z.div_mod_to_equations; lia).
  set (e := y / 400) in *. set (y0 := y mod 400) in *. clearbody e y0.
  assert (Hi : 0 <= y0 * 12 + (m - 1) < 0 + 4800) by lia.
  pose proof (checkMonth_sound _ (allFrom_spec _ _ _ checkMonth_era _ Hi)) as Hc.
  assert (Hq : (y0 * 12 + (m - 1)) / 12 = y0) by (Z.div_mod_to_equations; lia).
  assert (Hr : (y0 * 12 + (m - 1)) mod 12 + 1 = m) by (Z.div_mod_to_equations; lia).
  rewrite Hq, Hr in Hc. destruct Hc as [H1 H2].
  rewrite Hy.
  replace (y0 + 400 * e + m / 12) with (y0 + m / 12 + 400 * e) by lia.
  rewrite !days_from_civil_shift, !civil_from_days_shift, daysInMonth_shift.
  rewrite H1, H2. split; reflexivity.
Qed.

(** ** Date keys in string order *)

Lemma ascii_compare_refl (c : ascii) : Ascii.compare c c = Eq.
Proof. unfold Ascii.compare. apply N.compare_refl. Qed.

Lemma ascii_eqb_compare (a b : ascii) :
  Ascii.eqb a b = false -> Ascii.compare a b <> Eq.
Proof.
  intros Hne Heq. apply Ascii.compare_eq_iff in Heq. subst.
  by rewrite Ascii.eqb_refl in Hne.
Qed.

(** The strings between [p ++ lo] and [p ++ hi] are the strings [p ++ r]
    with [r] between [lo] and [hi]. *)
Lemma leb_between_prefix (p lo hi k : string) :
  String.leb (p +:+ lo) k && String.leb k (p +:+ hi)
  = match dropPrefix p k with
    | Some r => String.leb lo r && String.leb r hi
    | None => false
    end.
Proof.
  revert k. induction p as [|c p IH]; intros k; [reflexivity|].
  destruct k as [|c' k]; [reflexivity|].
  change (String c p +:+ lo) with (String c (p +:+ lo)).
  change (String c p +:+ hi) with (String c (p +:+ hi)).
  cbn [dropPrefix]. destruct (Ascii.eqb c c') eqn:Hc.
  - apply Ascii.eqb_eq in Hc. subst c'. rewrite <- IH.
    unfold String.leb. cbn [String.compare].
    rewrite ascii_compare_refl. reflexivity.
  - apply ascii_eqb_compare in Hc.
    unfold String.leb. cbn [String.compare].
    rewrite (Ascii.compare_antisym c' c).
    destruct (Ascii.compare c c'); simpl; congruence.
Qed.

Lemma string_app_assoc (a b c : string) : (a +:+ b) +:+ c = a +:+ (b +:+ c).
Proof.
  induction a as [|x a IH]; [done|].
  change (String x (a +:+ b) +:+ c = String x (a +:+ (b +:+ c))). by rewrite <- IH.
Qed.

Lemma constructorYear_id (y : Z) : ~ (0 <= y <= 99) -> constructorYear y = y.
Proof.
  intros Hy. unfold constructorYear.
  destruct (0 <=? y) eqn:H0, (y <=? 99) eqn:H1; simpl; try reflexivity.
  apply Z.leb_le in H0, H1. lia.
Qed.

(** The two bounds of the query of phase 3 are the first and the last date
    key of the month that contains [now], for a clock whose year is not one
    of 0 to 99 (which the [Date] constructor reads as 1900 to 1999). *)
Lemma currentMonth_keys (now : Z) :
  ~ (0 <= getFullYear now <= 99) ->
  currentMonthStartKey now = monthPrefix now +:+ "01" /\
  currentMonthEndKey now
    = monthPrefix now +:+ pad 2 (daysInMonth (getFullYear now) (getMonth now + 1)).
Proof.
  intros Hyear.
  unfold currentMonthStartKey, currentMonthEndKey, monthPrefix, toISODate, makeDay.
  rewrite (constructorYear_id _ Hyear).
  rewrite !Z.div_mul by (unfold MS_PER_DAY; lia).
  pose proof (civil_from_days_month (now / MS_PER_DAY)) as Hm.
  unfold getFullYear, getMonth.
  set (y := (civil_from_days (now / MS_PER_DAY)).1.1).
  set (m := (civil_from_days (now / MS_PER_DAY)).1.2) in *.
  replace (y + (m - 1) / 12) with y by (Z.div_mod_to_equations; lia).
  replace ((m - 1) mod 12 + 1) with m by (Z.div_mod_to_equations; lia).
  replace (m - 1 + 1) with m by lia.
  destruct (civil_from_days_month_bounds y m Hm) as [H1 H2].
  rewrite H1, H2. unfold isoDate.
  rewrite !string_app_assoc. split; reflexivity.
Qed.

(** The id filter of phase 3 selects the date keys of the current month. *)
Lemma idBetween_keyInCurrentMonth (now : Z) (kv : string * Document) :
  ~ (0 <= getFullYear now <= 99) ->
  idBetween (currentMonthStartKey now) (currentMonthEndKey now) kv
  = keyInCurrentMonth now kv.1.
Proof.
  intros Hyear. unfold idBetween, keyInCurrentMonth.
  destruct (currentMonth_keys now Hyear) as [-> ->]. apply leb_between_prefix.
Qed.

(** ** Phase 3 of the backfill *)

Lemma foldl_addReport (docs : list (string * Document)) (ms : MonthStats) :
  let r := foldl (fun acc kv => addReport acc kv.2) ms docs in
  let total := fun field => sumZ (fun kv : string * Document => numOr0 (kv.2 !! field)) docs in
  totalVendasMes r = totalVendasMes ms + total "totalSales" /\
  totalComprasMes r = totalComprasMes ms + total "totalPurchases" /\
  totalDespesasMes r = totalDespesasMes ms + total "totalExpenses" /\
  vendasCountMes r = vendasCountMes ms + total "salesCount" /\
  comprasCountMes r = comprasCountMes ms + total "purchasesCount" /\
  despesasCountMes r = despesasCountMes ms + total "expensesCount" /\
  totalTransacoesMes r = totalTransacoesMes ms + total "totalTransactions".
Proof.
  revert ms. induction docs as [|kv docs IH]; intros ms; cbv zeta.
  - simpl. repeat split; lia.
  - specialize (IH (addReport ms kv.2)). cbv zeta in IH. cbn [foldl sumZ foldr].
    destruct IH as (H1 & H2 & H3 & H4 & H5 & H6 & H7).
    rewrite H1, H2, H3, H4, H5, H6, H7. unfold addReport, sumZ. cbn.
    repeat split; lia.
Qed.

Lemma currentMonthReports_Permutation (now : Z) (reports : gmap string Document) :
  ~ (0 <= getFullYear now <= 99) ->
  currentMonthReports now reports
  ≡ₚ filter (fun kv => keyInCurrentMonth now kv.1 = true) (map_to_list reports).
Proof.
  intros Hyear. unfold currentMonthReports. rewrite merge_sort_Permutation.
  erewrite list_filter_iff; [reflexivity|].
  intros kv. by rewrite idBetween_keyInCurrentMonth.
Qed.

Lemma monthUpdate_other (ms : MonthStats) (f : string) :
  f ∉ monthFields -> monthUpdate ms !! f = None.
Proof. intros Hf. unfold monthUpdate. by apply not_elem_of_list_to_map_1. Qed.

Lemma monthUpdate_lookup (ms : MonthStats) :
  monthUpdate ms !! "totalVendasMes" = Some (Plain (VNum (totalVendasMes ms))) /\
  monthUpdate ms !! "totalComprasMes" = Some (Plain (VNum (totalComprasMes ms))) /\
  monthUpdate ms !! "totalDespesasMes" = Some (Plain (VNum (totalDespesasMes ms))) /\
  monthUpdate ms !! "vendasCountMes" = Some (Plain (VNum (vendasCountMes ms))) /\
  monthUpdate ms !! "comprasCountMes" = Some (Plain (VNum (comprasCountMes ms))) /\
  monthUpdate ms !! "despesasCountMes" = Some (Plain (VNum (despesasCountMes ms))) /\
  monthUpdate ms !! "totalTransacoesMes" = Some (Plain (VNum (totalTransacoesMes ms))) /\
  monthUpdate ms !! "updatedAt" = Some ServerTimestamp /\
  monthUpdate ms !! "lastBackfill" = Some ServerTimestamp.
Proof. repeat split; reflexivity. Qed.

(** C8: a backfill that returns has merge-written the live summary.  Each
    of the seven monthly counters holds the sum, taken in the order of the
    date keys, of the number the corresponding field holds (0 where a report
    has no such number) over the daily reports, as stored after phase 2,
    whose date key lies in the current calendar month; the two timestamps
    hold the server time; every other field of the live summary is as it
    was.  The clock of phase 3 reads a year that is not one of 0 to 99. *)
Theorem C8_backfill_rederives_month_summary (req : BackfillRequest.t)
    (now later serverTime : Z) (w w' : World) (r : BackfillStats) :
  ~ (0 <= getFullYear later <= 99) ->
  backfillHistory req now later serverTime w = Ok (r, w') ->
  let inMonth :=
    merge_sort byKey
      (filter (fun kv => keyInCurrentMonth later kv.1 = true)
         (map_to_list (daily_reports (db w')))) in
  let counter := fun (report : Document) (field : string) =>
    match report !! field with
    | Some (VNum n) => n
    | _ => 0
    end in
  let total := fun field =>
    sumInOrder (fun kv : string * Document => counter kv.2 field) inMonth in
  exists summary : Document,
    live_summary (db w') = Some summary /\
    summary !! "totalVendasMes" = Some (VNum (total "totalSales")) /\
    summary !! "totalComprasMes" = Some (VNum (total "totalPurchases")) /\
    summary !! "totalDespesasMes" = Some (VNum (total "totalExpenses")) /\
    summary !! "vendasCountMes" = Some (VNum (total "salesCount")) /\
    summary !! "comprasCountMes" = Some (VNum (total "purchasesCount")) /\
    summary !! "despesasCountMes" = Some (VNum (total "expensesCount")) /\
    summary !! "totalTransacoesMes" = Some (VNum (total "totalTransactions")) /\
    summary !! "updatedAt" = Some (VTime serverTime) /\
    summary !! "lastBackfill" = Some (VTime serverTime) /\
    (forall f, f ∉ monthFields -> summary !! f = default ∅ (live_summary (db w)) !! f).
Proof.
  intros Hyear Hrun. unfold backfillHistory in Hrun.
  destruct (backfillRange req now) as [[start end_]|e]; simpl in Hrun; [|discriminate].
  destruct (collect (rangeQuery start end_ (transactions (db w)))) as [c|e];
    simpl in Hrun; [|discriminate].
  injection Hrun as <- <-. cbv zeta. cbn [db daily_reports live_summary].
  set (reports := committed (phase2 _ _ _ _)).
  set (inMonth := merge_sort byKey (filter _ (map_to_list reports))).
  assert (Hdocs : currentMonthReports later reports = inMonth).
  { unfold currentMonthReports, inMonth. f_equal. apply list_filter_iff.
    intros kv. by rewrite idBetween_keyInCurrentMonth. }
  set (ms := monthStatsOf (currentMonthReports later reports)).
  pose proof (foldl_addReport (currentMonthReports later reports) (mkMonthStats 0 0 0 0 0 0 0))
    as Hsum.
  cbv beta zeta in Hsum. fold (monthStatsOf (currentMonthReports later reports)) in Hsum.
  fold ms in Hsum. rewrite Hdocs in Hsum.
  cbn [totalVendasMes totalComprasMes totalDespesasMes vendasCountMes
    comprasCountMes despesasCountMes totalTransacoesMes] in Hsum.
  destruct Hsum as (H1 & H2 & H3 & H4 & H5 & H6 & H7).
  destruct (monthUpdate_lookup ms) as (L1 & L2 & L3 & L4 & L5 & L6 & L7 & L8 & L9).
  eexists. split; [reflexivity|].
  rewrite !setMerge_lookup, L1, L2, L3, L4, L5, L6, L7, L8, L9.
  cbn [applyField]. rewrite H1, H2, H3, H4, H5, H6, H7, !Z.add_0_l, !sumInOrder_sumZ.
  repeat (split; [reflexivity|]).
  intros f Hf. by rewrite setMerge_lookup, monthUpdate_other.
Qed.

(** The backfill of March 2024 over the small ledger, with the clock in March 2024. *)
Lemma C8_backfill_rederives_month_summary_witness :
  ~ (0 <= getFullYear 1710100001000 <= 99) /\
  backfillHistory marchRequest 1710100000000 1710100001000 1710100002000 smallLedger
    = Ok (firstRunStats, firstRunWorld) /\
  (let inMonth :=
     merge_sort byKey
       (filter (fun kv => keyInCurrentMonth 1710100001000 kv.1 = true)
          (map_to_list (daily_reports (db firstRunWorld)))) in
   let counter := fun (report : Document) (field : string) =>
     match report !! field with
     | Some (VNum n) => n
     | _ => 0
     end in
   let total := fun field =>
     sumInOrder (fun kv : string * Document => counter kv.2 field) inMonth in
   exists summary : Document,
     live_summary (db firstRunWorld) = Some summary /\
     summary !! "totalVendasMes" = Some (VNum (total "totalSales")) /\
     summary !! "totalComprasMes" = Some (VNum (total "totalPurchases")) /\
     summary !! "totalDespesasMes" = Some (VNum (total "totalExpenses")) /\
     summary !! "vendasCountMes" = Some (VNum (total "salesCount")) /\
     summary !! "comprasCountMes" = Some (VNum (total "purchasesCount")) /\
     summary !! "despesasCountMes" = Some (VNum (total "expensesCount")) /\
     summary !! "totalTransacoesMes" = Some (VNum (total "totalTransactions")) /\
     summary !! "updatedAt" = Some (VTime 1710100002000) /\
     summary !! "lastBackfill" = Some (VTime 1710100002000) /\
     (forall f, f ∉ monthFields ->
        summary !! f = default ∅ (live_summary (db smallLedger)) !! f)).
Proof.
  assert (Hyear : ~ (0 <= getFullYear 1710100001000 <= 99)).
  { replace (getFullYear 1710100001000) with 2024 by (vm_compute; reflexivity). lia. }
  split; [exact Hyear|]. split; [vm_compute; reflexivity|].
  apply (C8_backfill_rederives_month_summary marchRequest
           1710100000000 1710100001000 1710100002000
           smallLedger firstRunWorld firstRunStats).
  - exact Hyear.
  - vm_compute. reflexivity.
Defined.

Example keyInCurrentMonth_march :
  monthPrefix 1710100001000 = "2024-03-" /\
  keyInCurrentMonth 1710100001000 "2024-03-01" = true /\
  keyInCurrentMonth 1710100001000 "2024-03-31" = true /\
  keyInCurrentMonth 1710100001000 "2024-02-29" = false /\
  keyInCurrentMonth 1710100001000 "2024-04-01" = false /\
  keyInCurrentMonth 1710100001000 "2023-03-15" = false.
Proof. repeat split; vm_compute; reflexivity. Qed.

Example live_summary_after_backfill :
  (fun s : Document => (s !! "totalVendasMes", s !! "totalComprasMes", s !! "totalTransacoesMes"))
    <$> live_summary (db firstRunWorld)
  = Some (Some (VNum 80), Some (VNum 100), Some (VNum 3)).
Proof. vm_compute. reflexivity. Qed.

(** ** The stock monitor *)








(** The items the job lists are the qualifying fields of the inventory. *)
Lemma lowStockItems_qualifying (inv : Document) (material level : string) (q min : Z) :
  mkLowStockItem material q min level ∈ lowStockItems inv <->
  exists data, inv !! material = Some data /\
               qualifies material data = true /\
               q = quantityOnHand data /\
               min = configuredMinimum material /\
               level = levelOf q min.
Proof.
  unfold lowStockItems. rewrite list_elem_of_omap.
  assert (Hitem : forall data,
    lowStockItem (material, data) = Some (mkLowStockItem material q min level) <->
    qualifies material data = true /\ q = quantityOnHand data /\
    min = configuredMinimum material /\ level = levelOf q min).
  { intros data. unfold lowStockItem, qualifies, minLevelOf, configuredMinimum, levelOf.
    cbn [fst snd]. fold minLevels.
    change (quantidadeOf data) with (quantityOnHand data).
    destruct (String.eqb material "lastUpdated"); cbn [negb andb];
      [split; [discriminate|by intros [? _]]|].
    destruct (assoc material minLevels) as [lvl|] eqn:Hlvl; cbn [default from_option id].
    - assert (Hin : inherited material = false).
      { destruct (inherited material) eqn:Hi; [|done]. exfalso.
        unfold inherited in Hi. apply bool_decide_eq_true in Hi.
        unfold objectPrototypeMembers in Hi.
        repeat (apply elem_of_cons in Hi as [->|Hi]; [vm_compute in Hlvl; discriminate|]).
        by apply elem_of_nil in Hi. }
      rewrite Hin. cbn [negb andb].
      destruct (quantityOnHand data <=? lvl); [|split; [discriminate|by intros [? _]]].
      split; [intros [= <- <- <-]; done|intros (_ & -> & -> & ->); done].
    - destruct (inherited material); cbn [negb andb];
        [split; [discriminate|by intros [? _]]|].
      destruct (quantityOnHand data <=? 10); [|split; [discriminate|by intros [? _]]].
      split; [intros [= <- <- <-]; done|intros (_ & -> & -> & ->); done]. }
  split.
  - intros ([k data] & Hin & Hit). apply elem_of_map_to_list in Hin.
    assert (k = material) as ->.
    { unfold lowStockItem in Hit. cbn [fst snd] in Hit.
      destruct (String.eqb k "lastUpdated"); [discriminate|].
      destruct (minLevelOf k); [|discriminate].
      destruct (_ <=? _); [|discriminate]. by injection Hit. }
    exists data. split; [done|]. by apply Hitem.
  - intros (data & Hin & Hrest). exists (material, data).
    split; [by apply elem_of_map_to_list|]. by apply Hitem.
Qed.

(** The query matches the notifications that are of type low_stock and
    not read, and no other. *)
Example isUnreadLowStock_filters :
  isUnreadLowStockb ("a", {[ "type" := VStr "low_stock"; "read" := VBool false ]}) = true /\
  isUnreadLowStockb ("b", {[ "type" := VStr "low_stock"; "read" := VBool true ]}) = false /\
  isUnreadLowStockb ("c", {[ "type" := VStr "backup"; "read" := VBool false ]}) = false /\
  isUnreadLowStockb ("d", {[ "type" := VStr "low_stock" ]}) = false.
Proof. repeat split; vm_compute; reflexivity. Qed.




Example checkLowStock_twice :
  let d' := checkLowStock 1710072000000 "n1" lowStockDb in
  let d'' := checkLowStock 1710158400000 "n2" d' in
  (itemMaterial <$> lowStockItems lowInventory) = ["ferro"] /\
  (fst <$> notifications d') = ["n1"] /\
  (fst <$> notifications d'') = ["n1"] /\
  ((fun n : string * Document => n.2 !! "updatedAt") <$> notifications d'')
    = [Some (VTime 1710158400000)].
Proof. repeat split; vm_compute; reflexivity. Qed.

(** A material named after a member of [Object.prototype] never qualifies. *)
Example lowStockItem_constructor :
  lowStockItem ("constructor", VMap [("quantidade", VNum 0)]) = None.
Proof. reflexivity. Qed.

(** * Further properties of the functions *)

(** ** The query cache *)


(** X1: a value fetched and stored at [t0] answers every later read of its
    key that is less than [CACHE_TTL] after [t0], whatever the fetch function
    would return then, and leaves the cache as it is; from [CACHE_TTL] on the
    read fetches again and replaces the entry. *)
Theorem X1_cache_serves_until_ttl {A} (key : string) (v1 v2 : A)
    (t_read1 t0 t_read2 t_store2 : Z) (c : gmap string (CacheEntry A)) :
  c !! key = None ->
  let first := getCachedData t_read1 t0 key v1 c in
  first.1 = v1 /\
  getCachedData t_read2 t_store2 key v2 first.2
  = if bool_decide (t_read2 - t0 < CACHE_TTL) then (v1, first.2)
    else (v2, <[key := mkCacheEntry v2 t_store2]> c).
Proof.
  intros Hnone.
  assert (H1 : getCachedData t_read1 t0 key v1 c = (v1, <[key := mkCacheEntry v1 t0]> c)).
  { unfold getCachedData. by rewrite Hnone. }
  cbv zeta. rewrite H1. cbn [fst snd]. split; [reflexivity|].
  unfold getCachedData. rewrite lookup_insert_eq. cbn [ctimestamp cdata].
  destruct (bool_decide (t_read2 - t0 < CACHE_TTL)); [reflexivity|].
  by rewrite insert_insert_eq.
Qed.

(** A first read at 12:00:00.000, a second one 59.999 s later. *)
Lemma X1_cache_serves_until_ttl_witness :
  (∅ : gmap string (CacheEntry Z)) !! "k" = None /\
  (let first := getCachedData 1710072000000 1710072000000 "k" 1
                  (∅ : gmap string (CacheEntry Z)) in
   first.1 = 1 /\
   getCachedData 1710072059999 1710072059999 "k" 2 first.2
   = if bool_decide (1710072059999 - 1710072000000 < CACHE_TTL) then (1, first.2)
     else (2, <["k" := mkCacheEntry 2 1710072059999]> ∅)).
Proof.
  split; [reflexivity|].
  apply (X1_cache_serves_until_ttl "k" 1 2 1710072000000 1710072000000
           1710072059999 1710072059999 ∅).
  reflexivity.
Defined.

(** X2: after [invalidateCache(prefix)] a read of a key that starts with the
    prefix fetches, and a read of any other key is answered as it was before
    the invalidation. *)
Theorem X2_invalidate_by_prefix {A} (pre key : string) (fetched : A) (t_read t_store : Z)
    (c : gmap string (CacheEntry A)) :
  (getCachedData t_read t_store key fetched (invalidateCache pre c)).1
  = if startsWith key pre then fetched
    else (getCachedData t_read t_store key fetched c).1.
Proof.
  unfold getCachedData. rewrite invalidateCache_lookup.
  destruct (startsWith key pre); [reflexivity|].
  destruct (c !! key) as [e|]; [|reflexivity]. by destruct (bool_decide _).
Qed.

(** ** String order *)

Lemma string_leb_trans (a b c : string) :
  String.leb a b = true -> String.leb b c = true -> String.leb a c = true.
Proof.
  unfold String.leb. revert b c.
  induction a as [|x a IH]; intros [|y b] [|z c]; simpl; try done.
  unfold Ascii.compare.
  destruct (N.compare_spec (N_of_ascii x) (N_of_ascii y)) as [Hxy|Hxy|Hxy];
    destruct (N.compare_spec (N_of_ascii y) (N_of_ascii z)) as [Hyz|Hyz|Hyz];
    destruct (N.compare_spec (N_of_ascii x) (N_of_ascii z)) as [Hxz|Hxz|Hxz];
    try done; try lia.
  apply IH.
Qed.

Lemma string_ltb_leb (a b : string) : String.ltb a b = negb (String.leb b a).
Proof.
  unfold String.ltb, String.leb. rewrite (String.compare_antisym b a).
  by destruct (String.compare a b).
Qed.

Lemma string_leb_refl (a : string) : String.leb a a = true.
Proof.
  unfold String.leb. induction a as [|x a IH]; simpl; [done|].
  by rewrite ascii_compare_refl.
Qed.

#[global] Instance byKey_total {A} : Total (@byKey A).
Proof. intros x y. unfold byKey. apply String.leb_total. Qed.

#[global] Instance byKey_trans {A} : Transitive (@byKey A).
Proof. intros x y z. unfold byKey. apply string_leb_trans. Qed.

(** ** The cache and the functions that write *)





Lemma aggregatedCacheKey_head (req : RangeRequest.t) :
  exists s, aggregatedCacheKey req = String "a" s.
Proof. unfold aggregatedCacheKey. eexists. reflexivity. Qed.

(** No prefix any function of the file invalidates begins an
    ["aggregated_"] key. *)
Lemma aggregated_entry_kept {A} (req : RangeRequest.t) (c : gmap string (CacheEntry A)) :
  handlerInvalidate c !! aggregatedCacheKey req = c !! aggregatedCacheKey req /\
  invalidateCache "stats" c !! aggregatedCacheKey req = c !! aggregatedCacheKey req /\
  invalidateCache "reports" c !! aggregatedCacheKey req = c !! aggregatedCacheKey req.
Proof.
  destruct (aggregatedCacheKey_head req) as [s ->].
  unfold handlerInvalidate. rewrite !invalidateCache_lookup. repeat split; reflexivity.
Qed.

(** X4: an aggregate cached by [getAggregatedReport] less than [CACHE_TTL]
    ago is still the answer after a backfill and after a month report have
    returned, whatever they wrote to the daily reports. *)
Theorem X4_aggregate_served_stale_after_rebuild (req : RangeRequest.t)
    (breq : BackfillRequest.t) (mreq : MonthRequest.t)
    (now later serverTime t0 t_read t_store : Z) (v : Document) (w : World) :
  truthy (RangeRequest.startDate req) = true ->
  truthy (RangeRequest.endDate req) = true ->
  memoryCache w !! aggregatedCacheKey req = Some (mkCacheEntry v t0) ->
  t_read - t0 < CACHE_TTL ->
  match backfillHistory breq now later serverTime w with
  | Ok rw => getAggregatedReport req t_read t_store rw.2 = Ok (v, rw.2)
  | Raise _ => True
  end /\
  match generateMonthReport mreq serverTime w with
  | Ok rw => getAggregatedReport req t_read t_store rw.2 = Ok (v, rw.2)
  | Raise _ => True
  end.
Proof.
  intros Hs He Hc Ht.
  assert (Hget : forall w',
            memoryCache w' !! aggregatedCacheKey req = Some (mkCacheEntry v t0) ->
            getAggregatedReport req t_read t_store w' = Ok (v, w')).
  { intros w' Hc'. unfold getAggregatedReport. rewrite Hs, He. simpl negb. cbv iota.
    rewrite (getCachedData_hit _ _ t0 _ v) by done. by destruct w'. }
  split.
  - unfold backfillHistory.
    destruct (backfillRange breq now) as [[start end_]|e]; simpl; [|done].
    destruct (collect _) as [c|e]; simpl; [|done].
    apply Hget. simpl.
    destruct (aggregated_entry_kept req (invalidateCache "stats" (memoryCache w)))
      as (_ & _ & ->).
    by destruct (aggregated_entry_kept req (memoryCache w)) as (_ & -> & _).
  - unfold generateMonthReport.
    destruct (MonthRequest.year mreq) as [y|]; [|done].
    destruct (MonthRequest.month mreq) as [m|]; [|done].
    destruct (y =? 0); [done|].
    destruct (collect _) as [c|e]; simpl; [|done].
    apply Hget. simpl.
    by destruct (aggregated_entry_kept req (memoryCache w)) as (_ & _ & ->).
Qed.

(** The aggregate of March, cached empty before the first backfill. *)
Lemma X4_aggregate_served_stale_after_rebuild_witness :
  truthy (RangeRequest.startDate marchReports) = true /\
  truthy (RangeRequest.endDate marchReports) = true /\
  memoryCache smallLedgerCached !! aggregatedCacheKey marchReports
    = Some (mkCacheEntry cachedAggregate 1710072000000) /\
  1710072030000 - 1710072000000 < CACHE_TTL /\
  match backfillHistory marchRequest 1710072010000 1710072011000 1710072012000
          smallLedgerCached with
  | Ok rw => getAggregatedReport marchReports 1710072030000 1710072030000 rw.2
             = Ok (cachedAggregate, rw.2)
  | Raise _ => True
  end /\
  match generateMonthReport (MonthRequest.mk (Some 2024) (Some 2) false) 1710072012000
          smallLedgerCached with
  | Ok rw => getAggregatedReport marchReports 1710072030000 1710072030000 rw.2
             = Ok (cachedAggregate, rw.2)
  | Raise _ => True
  end.
Proof.
  split; [reflexivity|]. split; [reflexivity|]. split; [vm_compute; reflexivity|].
  split; [reflexivity|].
  apply (X4_aggregate_served_stale_after_rebuild marchReports marchRequest
           (MonthRequest.mk (Some 2024) (Some 2) false)
           1710072010000 1710072011000 1710072012000 1710072000000
           1710072030000 1710072030000 cachedAggregate smallLedgerCached).
  - reflexivity.
  - reflexivity.
  - vm_compute. reflexivity.
  - reflexivity.
Defined.

(** ** The aggregate of a range of daily reports *)

Lemma reportsBetween_Permutation (lo hi : string) (reports : gmap string Document) :
  reportsBetween lo hi reports
  ≡ₚ filter (fun kv => idBetween lo hi kv = true) (map_to_list reports).
Proof. apply merge_sort_Permutation. Qed.

Lemma reportsBetween_empty_range (lo hi : string) (reports : gmap string Document) :
  String.ltb hi lo = true -> reportsBetween lo hi reports = [].
Proof.
  intros Hlt. apply Permutation_nil. rewrite reportsBetween_Permutation.
  induction (map_to_list reports) as [|kv l IH]; [done|].
  rewrite filter_cons_False; [exact IH|].
  unfold idBetween. intros [H1 H2]%andb_true_iff.
  rewrite string_ltb_leb, (string_leb_trans _ _ _ H1 H2) in Hlt. discriminate.
Qed.

Lemma sumZ_fmap {A B} (f : B -> Z) (g : A -> B) (l : list A) :
  sumZ f (g <$> l) = sumZ (fun x => f (g x)) l.
Proof. induction l as [|x l IH]; [done|]. unfold sumZ in *. cbn. by rewrite IH. Qed.

Lemma foldl_addDailyReport_scalars (docs : list Document) (a : Aggregated) :
  let r := foldl addDailyReport a docs in
  let total := fun field => sumZ (fun d : Document => numOr0 (d !! field)) docs in
  aggTotalSales r = aggTotalSales a + total "totalSales" /\
  aggTotalPurchases r = aggTotalPurchases a + total "totalPurchases" /\
  aggTotalExpenses r = aggTotalExpenses a + total "totalExpenses" /\
  aggTotalProfit r = aggTotalProfit a + total "totalProfit" /\
  aggTotalTransactions r = aggTotalTransactions a + total "totalTransactions" /\
  aggSalesCount r = aggSalesCount a + total "salesCount" /\
  aggPurchasesCount r = aggPurchasesCount a + total "purchasesCount" /\
  aggExpensesCount r = aggExpensesCount a + total "expensesCount" /\
  dailyBreakdown r = dailyBreakdown a ++ (breakdownRow <$> docs).
Proof.
  revert a. induction docs as [|d docs IH]; intros a; cbv zeta.
  - simpl. rewrite app_nil_r. repeat split; lia.
  - specialize (IH (addDailyReport a d)). cbv beta zeta in IH. cbn [foldl sumZ foldr].
    destruct IH as (H1 & H2 & H3 & H4 & H5 & H6 & H7 & H8 & H9).
    rewrite H1, H2, H3, H4, H5, H6, H7, H8, H9. unfold addDailyReport, sumZ. cbn.
    rewrite <- app_assoc. repeat split; lia.
Qed.

(** X5: each of the eight counters of the aggregate of a range, from the
    start date [lo] to the end date [hi] of the request, is the sum,
    taken in the order of the ids, of the number the stored reports hold in
    that field (0 where a report has no such number), over the reports whose
    id lies between the two bounds; the breakdown has one row per such
    report, in the same order, with the five fields of the report as they
    are; a range whose end is below its start gives the empty aggregate. *)
Theorem X5_aggregate_sums_the_range (lo hi : string) (mat : option string) (d : Db) :
  let req := RangeRequest.mk (Some lo) (Some hi) mat in
  let inRange :=
    merge_sort byKey
      (filter (fun kv : string * Document => String.leb lo kv.1 && String.leb kv.1 hi = true)
         (map_to_list (daily_reports d))) in
  let counter := fun (report : Document) (field : string) =>
    match report !! field with
    | Some (VNum n) => n
    | _ => 0
    end in
  let total := fun field =>
    sumInOrder (fun kv : string * Document => counter kv.2 field) inRange in
  let a := (aggregateReports req d).1 in
  aggTotalSales a = total "totalSales" /\
  aggTotalPurchases a = total "totalPurchases" /\
  aggTotalExpenses a = total "totalExpenses" /\
  aggTotalProfit a = total "totalProfit" /\
  aggTotalTransactions a = total "totalTransactions" /\
  aggSalesCount a = total "salesCount" /\
  aggPurchasesCount a = total "purchasesCount" /\
  aggExpensesCount a = total "expensesCount" /\
  dailyBreakdown a
  = (fun kv : string * Document =>
       mkBreakdownRow (kv.2 !! "dateString") (kv.2 !! "totalSales")
         (kv.2 !! "totalPurchases") (kv.2 !! "totalProfit") (kv.2 !! "totalTransactions"))
    <$> inRange /\
  (if String.ltb hi lo then a = mkAggregated 0 0 0 0 0 0 0 0 ∅ ∅ [] else True).
Proof.
  cbv zeta. unfold aggregateReports.
  cbn [fst RangeRequest.startDate RangeRequest.endDate template default from_option id].
  change (merge_sort byKey (filter _ (map_to_list (daily_reports d))))
    with (reportsBetween lo hi (daily_reports d)).
  pose proof (foldl_addDailyReport_scalars (snd <$> reportsBetween lo hi (daily_reports d))
                zeroAggregated) as Hs.
  cbv beta zeta in Hs. destruct Hs as (H1 & H2 & H3 & H4 & H5 & H6 & H7 & H8 & H9).
  assert (Hsum : forall field,
    sumZ (fun r : Document => numOr0 (r !! field)) (snd <$> reportsBetween lo hi (daily_reports d))
    = sumInOrder (fun kv : string * Document =>
                    match kv.2 !! field with
                    | Some (VNum n) => n
                    | _ => 0
                    end) (reportsBetween lo hi (daily_reports d))).
  { intros field. rewrite sumInOrder_sumZ.
    apply (sumZ_fmap (fun r : Document => numOr0 (r !! field)) snd). }
  rewrite H1, H2, H3, H4, H5, H6, H7, H8, H9, !Hsum. cbn.
  repeat (split; [reflexivity|]).
  split; [by rewrite <- list_fmap_compose|].
  destruct (String.ltb hi lo) eqn:Hlt; [|done].
  by rewrite (reportsBetween_empty_range _ _ _ Hlt).
Qed.

(** ** The material filter of the aggregate *)

Lemma addMaterial_is_Some (ms : gmap string MaterialStat.t) (entry : string * Value)
    (mat : string) :
  inherited mat = false ->
  is_Some (addMaterial ms entry !! mat) <-> is_Some (ms !! mat) \/ entry.1 = mat.
Proof.
  intros Hin. unfold addMaterial.
  destruct (decide (entry.1 = mat)) as [->|Hne].
  - rewrite Hin. rewrite lookup_insert_eq. split; [by right|by eexists].
  - destruct (inherited entry.1).
    + split; [by left|]. by intros [?|?].
    + rewrite lookup_insert_ne by done. split; [by left|]. by intros [?|?].
Qed.

Lemma foldl_addMaterial_is_Some (entries : list (string * Value))
    (ms : gmap string MaterialStat.t) (mat : string) :
  inherited mat = false ->
  is_Some (foldl addMaterial ms entries !! mat)
  <-> is_Some (ms !! mat) \/ is_Some (assoc mat entries).
Proof.
  intros Hin. revert ms. induction entries as [|[k v] entries IH]; intros ms.
  - simpl. split; [by left|]. intros [?|[? ?]]; [done|discriminate].
  - cbn [foldl assoc]. rewrite IH, (addMaterial_is_Some _ _ _ Hin). cbn [fst].
    destruct (String.eqb_spec mat k) as [->|Hne].
    + split; [intros _; right; by eexists|intros _; left; by right].
    + split.
      * intros [[?|?]|?]; [by left|congruence|by right].
      * intros [?|?]; [left; by left|by right].
Qed.

Lemma foldl_addDailyReport_material (docs : list Document) (a : Aggregated) (mat : string) :
  inherited mat = false ->
  is_Some (aggMaterialStats (foldl addDailyReport a docs) !! mat)
  <-> is_Some (aggMaterialStats a !! mat) \/ hasMaterial mat docs = true.
Proof.
  intros Hin. revert a. induction docs as [|d docs IH]; intros a.
  - simpl. split; [by left|]. intros [?|?]; [done|discriminate].
  - cbn [foldl hasMaterial existsb]. fold (hasMaterial mat docs). rewrite IH.
    unfold addDailyReport at 1. cbn [aggMaterialStats].
    rewrite (foldl_addMaterial_is_Some _ _ _ Hin), orb_true_iff, bool_decide_eq_true.
    tauto.
Qed.

(** X6: when the request names a material, the aggregate is narrowed to that
    material exactly when a report of the range has an entry for it;
    otherwise the filter is dropped and the statistics of every material are
    returned. *)
Theorem X6_material_filter_only_when_present (req : RangeRequest.t) (d : Db) (mat : string) :
  RangeRequest.material req = Some mat ->
  mat <> "" ->
  inherited mat = false ->
  let docs := snd <$> reportsBetween (template (RangeRequest.startDate req))
                        (template (RangeRequest.endDate req)) (daily_reports d) in
  let r := aggregateReports req d in
  if hasMaterial mat docs
  then exists s, aggMaterialStats r.1 !! mat = Some s /\ r.2 = OneMaterial mat s
  else aggMaterialStats r.1 !! mat = None /\ r.2 = AllMaterials (aggMaterialStats r.1).
Proof.
  intros Hm Hne Hin. cbv zeta. unfold aggregateReports. cbn [fst snd].
  set (docs := snd <$> reportsBetween _ _ _).
  pose proof (foldl_addDailyReport_material docs zeroAggregated mat Hin) as Hiff.
  unfold materialView. rewrite Hm. cbn [truthy template default from_option id].
  destruct (String.eqb_spec mat "") as [?|_]; [done|]. cbn [negb].
  destruct (hasMaterial mat docs) eqn:Hhas.
  - destruct (proj2 Hiff (or_intror eq_refl)) as [s Hs]. exists s. by rewrite Hs.
  - destruct (aggMaterialStats (foldl addDailyReport zeroAggregated docs) !! mat) as [s|] eqn:Hs.
    + destruct (proj1 Hiff (ex_intro _ s eq_refl)) as [[? Hz]|?]; [|congruence].
      cbn in Hz. rewrite lookup_empty in Hz. discriminate.
    + by rewrite Hin.
Qed.

Lemma X6_material_filter_only_when_present_witness :
  RangeRequest.material (marchReportsOf "ferro") = Some "ferro" /\
  "ferro" <> "" /\
  inherited "ferro" = false /\
  let req := marchReportsOf "ferro" in
  let d := db firstRunWorld in
  let docs := snd <$> reportsBetween (template (RangeRequest.startDate req))
                        (template (RangeRequest.endDate req)) (daily_reports d) in
  let r := aggregateReports req d in
  if hasMaterial "ferro" docs
  then exists s, aggMaterialStats r.1 !! "ferro" = Some s /\ r.2 = OneMaterial "ferro" s
  else aggMaterialStats r.1 !! "ferro" = None /\ r.2 = AllMaterials (aggMaterialStats r.1).
Proof.
  refine (conj eq_refl (conj _ (conj eq_refl _))); [discriminate|].
  apply (X6_material_filter_only_when_present (marchReportsOf "ferro") (db firstRunWorld) "ferro");
    [reflexivity|discriminate|reflexivity].
Defined.

(** ** Writing a day's report and reading it back *)

Lemma bumpMaterial_own (k : Kind) (valor qtd : Z) (mat : string)
    (ms : gmap string MaterialStat.t) :
  (forall key, is_Some (ms !! key) -> inherited key = false) ->
  forall key, is_Some (bumpMaterial k valor qtd mat ms !! key) -> inherited key = false.
Proof.
  intros Hms key. unfold bumpMaterial. destruct (inherited mat) eqn:Hin; [apply Hms|].
  destruct (decide (mat = key)) as [<-|Hne]; [done|].
  rewrite lookup_insert_ne by done. apply Hms.
Qed.

Lemma bumpPayment_own (valor : Z) (forma : string) (ps : gmap string PaymentStat.t) :
  (forall key, is_Some (ps !! key) -> inherited key = false) ->
  forall key, is_Some (bumpPayment valor forma ps !! key) -> inherited key = false.
Proof.
  intros Hps key. unfold bumpPayment. destruct (inherited forma) eqn:Hin; [apply Hps|].
  destruct (decide (forma = key)) as [<-|Hne]; [done|].
  rewrite lookup_insert_ne by done. apply Hps.
Qed.

(** No accumulator of a day holds a key that [Object.prototype] defines. *)
Lemma foldl_accumulate_own (entries : list Transaction) (day : DayStats) :
  (forall key, is_Some (materialStats day !! key) -> inherited key = false) ->
  (forall key, is_Some (paymentStats day !! key) -> inherited key = false) ->
  let r := foldl (fun s t => accumulate t s) day entries in
  (forall key, is_Some (materialStats r !! key) -> inherited key = false) /\
  (forall key, is_Some (paymentStats r !! key) -> inherited key = false).
Proof.
  revert day. induction entries as [|t entries IH]; intros day Hm Hp; [done|].
  cbn [foldl]. apply IH; unfold accumulate; cbn [materialStats paymentStats].
  - by apply bumpMaterial_own.
  - by apply bumpPayment_own.
Qed.

Lemma foldl_insert_lookup {A} (l : list (string * A)) (acc : gmap string A) :
  NoDup l.*1 ->
  foldl (fun m kv => <[kv.1 := kv.2]> m) acc l = list_to_map l ∪ acc.
Proof.
  revert acc. induction l as [|[k v] l IH]; intros acc Hnd.
  - simpl. by rewrite (left_id_L ∅ (∪)).
  - rewrite fmap_cons in Hnd. apply NoDup_cons in Hnd as [Hk Hnd].
    cbn [foldl list_to_map foldr fst snd]. rewrite (IH _ Hnd).
    rewrite <- insert_union_l. symmetry. apply insert_union_r.
    by apply not_elem_of_list_to_map_1.
Qed.

Lemma foldl_addMaterial_encoded (l : list (string * MaterialStat.t))
    (acc : gmap string MaterialStat.t) :
  NoDup l.*1 ->
  Forall (fun kv => inherited kv.1 = false /\ acc !! kv.1 = None) l ->
  foldl addMaterial acc ((fun kv => (kv.1, encodeMaterial kv.2)) <$> l)
  = foldl (fun m kv => <[kv.1 := kv.2]> m) acc l.
Proof.
  revert acc. induction l as [|[k v] l IH]; intros acc Hnd Hall; [done|].
  rewrite fmap_cons in Hnd. apply NoDup_cons in Hnd as [Hk Hnd].
  apply Forall_cons in Hall as [[Hin Hacc] Hall]. cbn [fst snd] in Hin, Hacc.
  rewrite fmap_cons. cbn [foldl fst snd].
  assert (Hstep : addMaterial acc (k, encodeMaterial v) = <[k := v]> acc).
  { unfold addMaterial. cbn [fst snd]. rewrite Hin, Hacc. destruct v. cbn. reflexivity. }
  rewrite Hstep. apply IH; [done|].
  rewrite Forall_forall in Hall |- *. intros [k' v'] Hkv. destruct (Hall _ Hkv) as [Hin' Hacc'].
  split; [done|]. cbn [fst] in *. rewrite lookup_insert_ne; [done|].
  intros ->. apply Hk. apply list_elem_of_fmap. by exists (k', v').
Qed.

Lemma foldl_addPayment_encoded (l : list (string * PaymentStat.t))
    (acc : gmap string PaymentStat.t) :
  NoDup l.*1 ->
  Forall (fun kv => inherited kv.1 = false /\ acc !! kv.1 = None) l ->
  foldl addPayment acc ((fun kv => (kv.1, encodePayment kv.2)) <$> l)
  = foldl (fun m kv => <[kv.1 := kv.2]> m) acc l.
Proof.
  revert acc. induction l as [|[k v] l IH]; intros acc Hnd Hall; [done|].
  rewrite fmap_cons in Hnd. apply NoDup_cons in Hnd as [Hk Hnd].
  apply Forall_cons in Hall as [[Hin Hacc] Hall]. cbn [fst snd] in Hin, Hacc.
  rewrite fmap_cons. cbn [foldl fst snd].
  assert (Hstep : addPayment acc (k, encodePayment v) = <[k := v]> acc).
  { unfold addPayment. cbn [fst snd]. rewrite Hin, Hacc. destruct v. cbn. reflexivity. }
  rewrite Hstep. apply IH; [done|].
  rewrite Forall_forall in Hall |- *. intros [k' v'] Hkv. destruct (Hall _ Hkv) as [Hin' Hacc'].
  split; [done|]. cbn [fst] in *. rewrite lookup_insert_ne; [done|].
  intros ->. apply Hk. apply list_elem_of_fmap. by exists (k', v').
Qed.

Lemma own_entries {A} (m : gmap string A) :
  (forall key, is_Some (m !! key) -> inherited key = false) ->
  Forall (fun kv : string * A => inherited kv.1 = false /\ (∅ : gmap string A) !! kv.1 = None)
    (map_to_list m).
Proof.
  intros Hm. apply Forall_forall. intros [k v] Hkv. split; [|apply lookup_empty].
  apply Hm. apply elem_of_map_to_list in Hkv. by eexists.
Qed.

(** The stored form of a day read back by the aggregation gives the day. *)
Lemma addDailyReport_encodeDay (day : DayStats) (extra : list (string * Value)) :
  (forall key, is_Some (materialStats day !! key) -> inherited key = false) ->
  (forall key, is_Some (paymentStats day !! key) -> inherited key = false) ->
  Forall (fun kv => kv.1 = "generatedAt" \/ kv.1 = "generatedBy") extra ->
  addDailyReport zeroAggregated (foldr (fun kv m => <[kv.1 := kv.2]> m) (encodeDay day) extra)
  = mkAggregated (totalSales day) (totalPurchases day) (totalExpenses day) (totalProfit day)
      (totalTransactions day) (salesCount day) (purchasesCount day) (expensesCount day)
      (materialStats day) (paymentStats day)
      [mkBreakdownRow (Some (VStr (dateString day))) (Some (VNum (totalSales day)))
         (Some (VNum (totalPurchases day))) (Some (VNum (totalProfit day)))
         (Some (VNum (totalTransactions day)))].
Proof.
  intros Hm Hp Hextra.
  assert (Hlook : forall field, field <> "generatedAt" -> field <> "generatedBy" ->
            foldr (fun kv m => <[kv.1 := kv.2]> m) (encodeDay day) extra !! field
            = encodeDay day !! field).
  { intros field H1 H2. induction Hextra as [|[k v] extra Hk _ IH]; [done|].
    cbn [foldr fst snd]. rewrite lookup_insert_ne; [exact IH|].
    cbn [fst] in Hk. destruct Hk; congruence. }
  unfold addDailyReport. rewrite !Hlook by discriminate.
  change (encodeDay day !! "totalSales") with (Some (VNum (totalSales day))).
  change (encodeDay day !! "totalPurchases") with (Some (VNum (totalPurchases day))).
  change (encodeDay day !! "totalExpenses") with (Some (VNum (totalExpenses day))).
  change (encodeDay day !! "totalProfit") with (Some (VNum (totalProfit day))).
  change (encodeDay day !! "totalTransactions") with (Some (VNum (totalTransactions day))).
  change (encodeDay day !! "salesCount") with (Some (VNum (salesCount day))).
  change (encodeDay day !! "purchasesCount") with (Some (VNum (purchasesCount day))).
  change (encodeDay day !! "expensesCount") with (Some (VNum (expensesCount day))).
  change (encodeDay day !! "dateString") with (Some (VStr (dateString day))).
  change (encodeDay day !! "materialStats")
    with (Some (VMap ((fun kv => (kv.1, encodeMaterial kv.2)) <$> map_to_list (materialStats day)))).
  change (encodeDay day !! "paymentStats")
    with (Some (VMap ((fun kv => (kv.1, encodePayment kv.2)) <$> map_to_list (paymentStats day)))).
  cbn [entriesOf numOr0 zeroAggregated aggTotalSales aggTotalPurchases aggTotalExpenses
       aggTotalProfit aggTotalTransactions aggSalesCount aggPurchasesCount aggExpensesCount
       aggMaterialStats aggPaymentStats dailyBreakdown app].
  rewrite foldl_addMaterial_encoded, foldl_addPayment_encoded, !foldl_insert_lookup,
    !(right_id_L ∅ (∪)), !list_to_map_to_list;
    try apply NoDup_fst_map_to_list; try by apply own_entries.
  reflexivity.
Qed.

(** X7: the report that the backfill (or the month rebuild) stores for a day,
    read back by the aggregation on its own, gives that day's eight counters,
    its material and payment statistics and one breakdown row unchanged. *)
Theorem X7_stored_day_reads_back (entries : list Transaction) (t serverTime : Z)
    (key generatedBy : string) :
  let day := withProfit (foldl (fun s x => accumulate x s) (zeroDay t key) entries) in
  addDailyReport zeroAggregated
    (backfillDoc generatedBy serverTime
       (foldl (fun s x => accumulate x s) (zeroDay t key) entries))
  = mkAggregated (totalSales day) (totalPurchases day) (totalExpenses day) (totalProfit day)
      (totalTransactions day) (salesCount day) (purchasesCount day) (expensesCount day)
      (materialStats day) (paymentStats day)
      [mkBreakdownRow (Some (VStr key)) (Some (VNum (totalSales day)))
         (Some (VNum (totalPurchases day))) (Some (VNum (totalProfit day)))
         (Some (VNum (totalTransactions day)))].
Proof.
  cbv zeta. set (acc := foldl _ _ entries).
  destruct (foldl_accumulate_own entries (zeroDay t key)) as [Hm Hp];
    [intros k [? Hk]; cbn in Hk; by rewrite lookup_empty in Hk
    |intros k [? Hk]; cbn in Hk; by rewrite lookup_empty in Hk|].
  fold acc in Hm, Hp.
  pose proof (addDailyReport_encodeDay (withProfit acc)
                [("generatedBy", VStr generatedBy); ("generatedAt", VTime serverTime)]
                Hm Hp) as Hrt.
  cbn [foldr fst snd] in Hrt. unfold backfillDoc. rewrite Hrt.
  - f_equal. f_equal.
    assert (Hds : forall l d, dateString (foldl (fun s x => accumulate x s) d l) = dateString d).
    { induction l as [|x l IH]; intros d0; [done|]. cbn [foldl]. by rewrite IH. }
    cbn [withProfit dateString]. unfold acc. by rewrite Hds.
  - constructor; [by right|]. constructor; [by left|]. constructor.
Qed.

(** ** The handler over a creation, a deletion and an update *)

Ltac by_key k :=
  repeat match goal with
  | |- context [ (<[?j := _]> _) !! k ] =>
      destruct (decide (k = j)) as [->|?];
      [ first [ congruence | reflexivity | right; eexists; split; reflexivity ]
      | rewrite !(lookup_insert_ne _ j k) by congruence ]
  end.

(** The deletion of an entry carries, field by field, the opposite increment
    of its creation. *)
Lemma statsUpdate_create_delete (now1 now2 : Z) (a : Transaction) (k : string) :
  k <> "updatedAt" -> k <> "lastTransactionDate" ->
  (statsUpdate now1 (mkEvent None (Some a)) !! k = None /\
   statsUpdate now2 (mkEvent (Some a) None) !! k = None) \/
  (exists n, statsUpdate now1 (mkEvent None (Some a)) !! k = Some (Increment n) /\
             statsUpdate now2 (mkEvent (Some a) None) !! k = Some (Increment (- n))).
Proof.
  intros H1 H2.
  unfold statsUpdate, onAfter, onBefore, applyStats, reverseStats, assign.
  cbn [foldl fst snd beforeData afterData].
  destruct (String.eqb (tipo a) "venda"); [|destruct (String.eqb (tipo a) "compra");
    [|destruct (String.eqb (tipo a) "despesa")]];
    by_key k; left; rewrite !lookup_empty; done.
Qed.

Lemma invUpdate_create_delete (a : Transaction) (k : string) :
  (invUpdate (mkEvent None (Some a)) !! k = None /\
   invUpdate (mkEvent (Some a) None) !! k = None) \/
  (exists n, invUpdate (mkEvent None (Some a)) !! k = Some (Increment n) /\
             invUpdate (mkEvent (Some a) None) !! k = Some (Increment (- n))).
Proof.
  unfold invUpdate, onAfter, onBefore, applyInv, reverseInv, assign.
  cbn [foldl fst snd beforeData afterData].
  destruct (decide (k = template (material a) +:+ ".quantidade")) as [->|Hne].
  - right. rewrite !lookup_insert_eq. destruct (String.eqb (tipo a) "compra").
    + by eexists.
    + exists (- quantidade a). by rewrite Z.opp_involutive.
  - left. by rewrite !lookup_insert_ne, lookup_empty by done.
Qed.

(** X8: the deletion of an entry sends, field by field, the opposite of the
    increments of its creation, to the inventory and, the two stamps
    [updatedAt] and [lastTransactionDate] apart, to the live summary; and no
    run of the handler, whatever the event, touches the ledger, the daily
    reports or the notifications. *)
Theorem X8_delete_sends_opposite_increments (a : Transaction) (now1 now2 : Z) :
  let created := mkEvent None (Some a) in
  let deleted := mkEvent (Some a) None in
  let opposite := fun (f g : option FieldValue) =>
    match f, g with
    | None, None => True
    | Some (Increment n), Some (Increment m) => m = - n
    | _, _ => False
    end in
  (forall k, opposite (invUpdate created !! k) (invUpdate deleted !! k)) /\
  (forall k, k <> "updatedAt" -> k <> "lastTransactionDate" ->
             opposite (statsUpdate now1 created !! k) (statsUpdate now2 deleted !! k)) /\
  invUpdate created !! (match material a with Some m => m | None => "undefined" end
                        +:+ ".quantidade")
  = Some (Increment (if String.eqb (tipo a) "compra" then quantidade a else - quantidade a)) /\
  statsUpdate now1 created !! "transacoesHoje" = Some (Increment 1) /\
  (forall serverTime commits ev w,
     let r := updateInventoryAndStatsOnChange now1 serverTime commits ev w in
     transactions (db (world r)) = transactions (db w) /\
     daily_reports (db (world r)) = daily_reports (db w) /\
     notifications (db (world r)) = notifications (db w)).
Proof.
  cbv zeta. refine (conj _ (conj _ (conj _ (conj _ _)))).
  - intros k. destruct (invUpdate_create_delete a k) as [[-> ->]|[n [-> ->]]]; done.
  - intros k H1 H2.
    destruct (statsUpdate_create_delete now1 now2 a k H1 H2) as [[-> ->]|[n [-> ->]]]; done.
  - rewrite invUpdate_create. destruct (material a); apply lookup_singleton_eq.
  - unfold statsUpdate, onAfter, onBefore, applyStats, assign.
    cbn [foldl fst snd beforeData afterData].
    destruct (String.eqb (tipo a) "venda"); [|destruct (String.eqb (tipo a) "compra");
      [|destruct (String.eqb (tipo a) "despesa")]]; reflexivity.
  - intros serverTime commits ev w. unfold updateInventoryAndStatsOnChange.
    rewrite dailyAttempt_handlerScope.
    destruct ev as [[b|] [a'|]], commits; repeat split; reflexivity.
Qed.

Lemma statsUpdate_same_kind (now : Z) (b a : Transaction) :
  tipo b = tipo a ->
  statsUpdate now (mkEvent (Some b) (Some a)) = statsUpdate now (mkEvent None (Some a)).
Proof.
  intros Ht. apply map_eq. intros k.
  unfold statsUpdate, onAfter, onBefore, applyStats, reverseStats, assign.
  cbn [foldl fst snd beforeData afterData]. rewrite Ht.
  destruct (String.eqb (tipo a) "venda"); [|destruct (String.eqb (tipo a) "compra");
    [|destruct (String.eqb (tipo a) "despesa")]];
    by_key k; reflexivity.
Qed.

(** X9: an update that keeps the kind and the material of the entry is
    handled exactly as the creation of its new version: the old version's
    quantity and value are subtracted nowhere. *)
Theorem X9_update_handled_as_creation (now serverTime : Z) (commits : bool)
    (b a : Transaction) (w : World) :
  tipo b = tipo a ->
  material b = material a ->
  updateInventoryAndStatsOnChange now serverTime commits (mkEvent (Some b) (Some a)) w
  = updateInventoryAndStatsOnChange now serverTime commits (mkEvent None (Some a)) w.
Proof.
  intros Ht Hm. unfold updateInventoryAndStatsOnChange, transactionWrites.
  cbn [beforeData afterData]. rewrite !dailyAttempt_handlerScope.
  rewrite (statsUpdate_same_kind _ _ _ Ht), (invUpdate_same_material _ _ Hm),
    <- invUpdate_create. reflexivity.
Qed.

Lemma X9_update_handled_as_creation_witness :
  let b := mkTransaction "venda" (Some "ferro") 10 50 (Some "pix") (DTimestamp 1710072000000) in
  tipo b = tipo sale80 /\
  material b = material sale80 /\
  updateInventoryAndStatsOnChange 1710072001000 1710072001500 true
    (mkEvent (Some b) (Some sale80)) stock30
  = updateInventoryAndStatsOnChange 1710072001000 1710072001500 true
      (mkEvent None (Some sale80)) stock30.
Proof.
  refine (conj eq_refl (conj eq_refl _)).
  apply (X9_update_handled_as_creation 1710072001000 1710072001500 true
           (mkTransaction "venda" (Some "ferro") 10 50 (Some "pix") (DTimestamp 1710072000000))
           sale80 stock30); reflexivity.
Defined.

(** ** The cleanup job *)

Lemma foldl_delete_lookup {A} (l : list (string * A)) (m : gmap string A) (k : string) :
  foldl (fun m kv => delete kv.1 m) m l !! k
  = if bool_decide (k ∈ l.*1) then None else m !! k.
Proof.
  revert m. induction l as [|[j v] l IH]; intros m; [done|].
  cbn [foldl fst]. rewrite IH, fmap_cons. cbn [fst].
  destruct (decide (k = j)) as [->|Hne].
  - rewrite lookup_delete_eq, (bool_decide_true (j ∈ j :: l.*1)) by apply list_elem_of_here.
    by destruct (bool_decide (j ∈ l.*1)).
  - rewrite lookup_delete_ne by done.
    destruct (decide (k ∈ l.*1)) as [Hk|Hk].
    + by rewrite !bool_decide_true by (try apply list_elem_of_further; done).
    + rewrite !bool_decide_false; [done| |done].
      intros [?|?]%elem_of_cons; done.
Qed.

Lemma foldl_delete_size {A} (l : list (string * A)) (m : gmap string A) :
  NoDup l.*1 ->
  (forall k, k ∈ l.*1 -> is_Some (m !! k)) ->
  (size (foldl (fun m kv => delete kv.1 m) m l) + length l = size m)%nat.
Proof.
  revert m. induction l as [|[j v] l IH]; intros m Hnd Hin; [simpl; lia|].
  rewrite fmap_cons in Hnd, Hin. cbn [fst] in Hnd, Hin.
  apply NoDup_cons in Hnd as [Hj Hnd]. cbn [foldl fst length].
  assert (Hsome : is_Some (m !! j)) by (apply Hin; apply list_elem_of_here).
  pose proof (map_size_delete_Some j m Hsome) as Hsz.
  assert (Hpos : (0 < size m)%nat).
  { destruct Hsome as [x Hx]. destruct (size m) eqn:Hs; [|lia].
    apply map_size_empty_inv in Hs. subst m. by rewrite lookup_empty in Hx. }
  rewrite <- Nat.add_succ_comm.
  specialize (IH (delete j m) Hnd). rewrite Hsz in IH.
  rewrite <- (Nat.succ_pred_pos (size m) Hpos). rewrite <- IH; [lia|].
  intros k Hk. rewrite lookup_delete_ne; [apply Hin; by apply list_elem_of_further|].
  intros <-. done.
Qed.

Lemma oldReports_spec (cutoff : string) (reports : gmap string Document) :
  let old := filter (fun kv : string * Document => String.ltb kv.1 cutoff = true)
               (map_to_list reports) in
  let sorted := merge_sort byKey old in
  oldReports cutoff reports = take 100 sorted /\
  sorted ≡ₚ old /\
  StronglySorted byKey sorted /\
  NoDup sorted.*1 /\
  (forall kv, kv ∈ sorted <-> String.ltb kv.1 cutoff = true /\ reports !! kv.1 = Some kv.2).
Proof.
  cbv zeta. set (old := filter _ _). 
  pose proof (merge_sort_Permutation byKey old) as Hperm.
  refine (conj eq_refl (conj Hperm (conj _ (conj _ _)))).
  - apply StronglySorted_merge_sort; apply _.
  - rewrite Hperm. eapply sublist_NoDup; [apply (NoDup_fst_map_to_list reports)|].
    apply fmap_sublist, sublist_filter.
  - intros [k v]. rewrite Hperm. unfold old. rewrite list_elem_of_filter, elem_of_map_to_list.
    reflexivity.
Qed.

(** X10: the cleanup deletes the reports with the smallest ids below the
    cutoff (the date 90 days before the run), at most 100 of them: no report
    from the cutoff on and no other document is touched, nothing is added or
    changed, the number of reports falls by the smaller of 100 and the number
    of old reports, every deleted id is at most every old id that stays, and
    with no more than 100 old reports none of them stays. *)
Theorem X10_cleanup_removes_oldest (now : Z) (d : Db) :
  let cutoff := toISODate (now - 90 * MS_PER_DAY) in
  let old := filter (fun kv : string * Document => String.ltb kv.1 cutoff = true)
               (map_to_list (daily_reports d)) in
  let d' := cleanupOldReports now d in
  (forall k, String.ltb k cutoff = false -> daily_reports d' !! k = daily_reports d !! k) /\
  (forall k, daily_reports d' !! k = None \/ daily_reports d' !! k = daily_reports d !! k) /\
  (size (daily_reports d') + Nat.min 100 (length old) = size (daily_reports d))%nat /\
  (forall k k', is_Some (daily_reports d !! k) -> daily_reports d' !! k = None ->
                String.ltb k' cutoff = true -> is_Some (daily_reports d' !! k') ->
                String.leb k k' = true) /\
  ((length old <= 100)%nat ->
   forall k, String.ltb k cutoff = true -> daily_reports d' !! k = None) /\
  transactions d' = transactions d /\ inventory d' = inventory d /\
  live_summary d' = live_summary d /\ notifications d' = notifications d.
Proof.
  cbv zeta. set (cutoff := toISODate _). set (old := filter _ _).
  destruct (oldReports_spec cutoff (daily_reports d)) as (Hold & Hperm & Hsorted & Hnd & Hin).
  fold old in Hold, Hperm, Hsorted, Hnd, Hin. set (sorted := merge_sort byKey old) in *.
  assert (Hreports : daily_reports (cleanupOldReports now d)
            = foldl (fun m kv => delete kv.1 m) (daily_reports d) (take 100 sorted)).
  { unfold cleanupOldReports. fold cutoff. rewrite Hold. by destruct (take 100 sorted). }
  assert (Hrest : transactions (cleanupOldReports now d) = transactions d /\
                  inventory (cleanupOldReports now d) = inventory d /\
                  live_summary (cleanupOldReports now d) = live_summary d /\
                  notifications (cleanupOldReports now d) = notifications d).
  { unfold cleanupOldReports. fold cutoff. rewrite Hold. by destruct (take 100 sorted). }
  rewrite Hreports.
  assert (Htake : forall k, k ∈ (take 100 sorted).*1 ->
            String.ltb k cutoff = true /\ is_Some (daily_reports d !! k)).
  { intros k [[k' v] [-> Hkv]]%list_elem_of_fmap.
    pose proof (elem_of_sublist _ _ _ Hkv (sublist_take sorted 100)) as Hs.
    apply Hin in Hs as [? ?]. split; [done|by eexists]. }
  refine (conj _ (conj _ (conj _ (conj _ (conj _ Hrest))))).
  - intros k Hk. rewrite foldl_delete_lookup. rewrite bool_decide_false; [done|].
    intros [Hlt _]%Htake. congruence.
  - intros k. rewrite foldl_delete_lookup. destruct (bool_decide _); [by left|by right].
  - rewrite <- (Permutation_length Hperm), <- length_take.
    apply foldl_delete_size.
    + eapply sublist_NoDup; [exact Hnd|]. apply fmap_sublist, sublist_take.
    + intros k Hk. by apply Htake.
  - intros k k' [v Hv] Hdel Hlt' [v' Hv'].
    rewrite foldl_delete_lookup in Hdel, Hv'.
    destruct (decide (k ∈ (take 100 sorted).*1)) as [Hk|Hk];
      [|rewrite bool_decide_false in Hdel by done; congruence].
    destruct (decide (k' ∈ (take 100 sorted).*1)) as [Hk'|Hk'];
      [rewrite bool_decide_true in Hv' by done; discriminate|].
    rewrite bool_decide_false in Hv' by done.
    apply list_elem_of_fmap in Hk as [[k0 v0] [-> Hkv]]. cbn [fst].
    assert (Hdrop : (k', v') ∈ drop 100 sorted).
    { assert (Hs : (k', v') ∈ sorted) by (apply Hin; done).
      rewrite <- (take_drop 100 sorted) in Hs. apply elem_of_app in Hs as [Ht|?]; [|done].
      exfalso. apply Hk'. apply list_elem_of_fmap. by exists (k', v'). }
    rewrite <- (take_drop 100 sorted) in Hsorted.
    exact (StronglySorted_app_1_elem_of _ _ _ _ _ Hsorted Hkv Hdrop).
  - intros Hlen k Hlt. rewrite foldl_delete_lookup.
    destruct (daily_reports d !! k) as [v|] eqn:Hv; [|by destruct (bool_decide _)].
    rewrite bool_decide_true; [done|].
    rewrite take_ge by (rewrite (Permutation_length Hperm); exact Hlen).
    apply list_elem_of_fmap. exists (k, v). split; [done|]. by apply Hin.
Qed.

(** ** Date keys read back as dates *)

Lemma checkCivil_era : allFrom 146097 (-719468) checkCivil = true.
Proof. vm_compute. reflexivity. Qed.

Lemma civil_from_days_era (z : Z) :
  exists z0 e, z = z0 + 146097 * e /\ -719468 <= z0 < -719468 + 146097 /\
               checkCivil z0 = true /\ checkDay z0 = true.
Proof.
  set (e := (z + 719468) / 146097).
  assert (Hr : -719468 <= z - 146097 * e < -719468 + 146097).
  { subst e. Z.div_mod_to_equations. lia. }
  exists (z - 146097 * e), e. refine (conj _ (conj Hr (conj _ _))); [lia| |].
  - exact (allFrom_spec _ _ _ checkCivil_era _ Hr).
  - exact (allFrom_spec _ _ _ checkDay_era _ Hr).
Qed.

(** The day number of the date of a day is that day; the day of the month is
    from 1 to 31; the year of a day a timestamp can hold has four digits. *)
Lemma civil_from_days_inverse (z : Z) :
  let '(y, m, d) := civil_from_days z in
  days_from_civil y m d = z /\ 1 <= m <= 12 /\ 1 <= d <= 31 /\
  (-719162 <= z <= 2932896 -> 1 <= y <= 9999).
Proof.
  destruct (civil_from_days_era z) as (z0 & e & -> & He & Hc & Hd).
  rewrite civil_from_days_shift. unfold checkCivil, checkDay in Hc, Hd.
  destruct (civil_from_days z0) as [[y m] d]. cbn [fst snd].
  rewrite !andb_true_iff, !orb_true_iff, !Z.leb_le, !Z.ltb_lt, Z.eqb_eq in Hc.
  rewrite !andb_true_iff, !Z.leb_le in Hd.
  destruct Hc as ((((Hrt & Hy0) & Hy1) & Hlo) & Hhi). destruct Hd as (((Hm1 & Hm2) & Hd1) & Hd2).
  rewrite days_from_civil_shift, Hrt.
  assert (Hdim : daysInMonth y m <= 31).
  { unfold daysInMonth. repeat destruct (_ =? _); try destruct (isLeapYear y); cbn; lia. }
  repeat split; lia.
Qed.

Lemma digit_cases (n : Z) :
  digitVal (digit n) = Some (n mod 10) /\
  Ascii.eqb (digit n) "+" = false /\ Ascii.eqb (digit n) "-" = false.
Proof.
  unfold digit.
  assert (H : n mod 10 = 0 \/ n mod 10 = 1 \/ n mod 10 = 2 \/ n mod 10 = 3 \/ n mod 10 = 4 \/
              n mod 10 = 5 \/ n mod 10 = 6 \/ n mod 10 = 7 \/ n mod 10 = 8 \/ n mod 10 = 9)
    by (Z.div_mod_to_equations; lia).
  repeat destruct H as [H|H]; rewrite H; repeat split; reflexivity.
Qed.

Lemma isoDate_plain (y m d : Z) :
  0 <= y <= 9999 ->
  isoDate (y, m, d)
  = String (digit (y / 10 / 10 / 10)) (String (digit (y / 10 / 10)) (String (digit (y / 10))
      (String (digit y) (String "-" (String (digit (m / 10)) (String (digit m)
         (String "-" (String (digit (d / 10)) (String (digit d) EmptyString))))))))).
Proof.
  intros Hy. unfold isoDate, isoYear.
  rewrite (proj2 (Z.leb_le 0 y)), (proj2 (Z.leb_le y 9999)) by lia. reflexivity.
Qed.

Lemma parseISODate_toISODate (ms : Z) :
  TIMESTAMP_MIN <= ms <= TIMESTAMP_MAX ->
  parseISODate (toISODate ms) = Some (startOfDay ms).
Proof.
  intros Hms. unfold toISODate, startOfDay.
  assert (Hz : -719162 <= ms / MS_PER_DAY <= 2932896).
  { unfold TIMESTAMP_MIN, TIMESTAMP_MAX, MS_PER_DAY in *. Z.div_mod_to_equations. lia. }
  pose proof (civil_from_days_inverse (ms / MS_PER_DAY)) as Hinv.
  destruct (civil_from_days (ms / MS_PER_DAY)) as [[y m] d].
  destruct Hinv as (Hrt & Hm & Hd & Hy). specialize (Hy Hz).
  rewrite isoDate_plain by lia. unfold parseISODate.
  destruct (digit_cases (y / 10 / 10 / 10)) as (Hv1 & Hp & Hn).
  cbn [substring String.eqb]. rewrite Hp, Hn. 
  cbn [orb String.length Nat.add Nat.eqb Nat.div Nat.divmod fst Nat.sub andb substring
       String.eqb Ascii.eqb Bool.eqb parseDigits].
  rewrite !(proj1 (digit_cases _)). 
  replace (10 * (10 * (10 * (10 * 0 + y / 10 / 10 / 10 mod 10) + y / 10 / 10 mod 10)
                 + y / 10 mod 10) + y mod 10) with y by (Z.div_mod_to_equations; lia).
  replace (10 * (10 * 0 + m / 10 mod 10) + m mod 10) with m by (Z.div_mod_to_equations; lia).
  replace (10 * (10 * 0 + d / 10 mod 10) + d mod 10) with d by (Z.div_mod_to_equations; lia).
  rewrite (proj2 (Z.leb_le 1 m)), (proj2 (Z.leb_le m 12)), (proj2 (Z.leb_le 1 d)),
    (proj2 (Z.leb_le d 31)) by lia.
  cbn [andb]. by rewrite Hrt.
Qed.

Lemma newDay_toISODate (ms : Z) :
  TIMESTAMP_MIN <= ms <= TIMESTAMP_MAX ->
  newDay (toISODate ms) = Ok (zeroDay (startOfDay ms) (toISODate ms)).
Proof.
  intros Hms. unfold newDay. rewrite (parseISODate_toISODate ms Hms).
  assert (Hr : TIMESTAMP_MIN <= startOfDay ms <= TIMESTAMP_MAX).
  { unfold startOfDay, TIMESTAMP_MIN, TIMESTAMP_MAX, MS_PER_DAY in *.
    Z.div_mod_to_equations. lia. }
  by rewrite (proj2 (Z.leb_le _ _) (proj1 Hr)), (proj2 (Z.leb_le _ _) (proj2 Hr)).
Qed.

(** X11: the date key of a time value a timestamp can hold, read as
    [new Date(key + "T00:00:00")], is midnight of the day of that time
    value, so that the record of a day always gets a valid [date]. *)
Theorem X11_date_key_reads_back (ms : Z) :
  TIMESTAMP_MIN <= ms <= TIMESTAMP_MAX ->
  parseISODate (toISODate ms) = Some (startOfDay ms) /\
  newDay (toISODate ms) = Ok (zeroDay (startOfDay ms) (toISODate ms)).
Proof.
  intros Hms. split; [exact (parseISODate_toISODate ms Hms)|exact (newDay_toISODate ms Hms)].
Qed.

Lemma X11_date_key_reads_back_witness :
  TIMESTAMP_MIN <= 1710072000000 <= TIMESTAMP_MAX /\
  parseISODate (toISODate 1710072000000) = Some (startOfDay 1710072000000) /\
  newDay (toISODate 1710072000000)
  = Ok (zeroDay (startOfDay 1710072000000) (toISODate 1710072000000)).
Proof.
  assert (H : TIMESTAMP_MIN <= 1710072000000 <= TIMESTAMP_MAX)
    by (unfold TIMESTAMP_MIN, TIMESTAMP_MAX; lia).
  exact (conj H (X11_date_key_reads_back 1710072000000 H)).
Defined.

(** ** What the collect phase builds *)

Lemma entriesOfDay_cons (k : string) (x : TxDoc) (l : list TxDoc) :
  entriesOfDay k (x :: l)
  = if decide (dateKeyOf x.2 = Some k) then x :: entriesOfDay k l else entriesOfDay k l.
Proof. unfold entriesOfDay. rewrite filter_cons. by destruct (decide _). Qed.

Lemma forEachDoc_collectDoc_days (l : list TxDoc) (st : Collected) :
  Forall (fun d => validDate d.2 = true) l ->
  exists st', forEachDoc collectDoc l st = Ok st' /\
    forall k, dailyData st' !! k
      = match entriesOfDay k l with
        | [] => dailyData st !! k
        | es => Some (foldl (fun s d => accumulate d.2 s)
                        (default (zeroDay (default 0 (parseISODate k)) k) (dailyData st !! k))
                        es)
        end.
Proof.
  revert st. induction l as [|x l IH]; intros st Hall.
  - exists st. split; [done|]. intros k. reflexivity.
  - apply Forall_cons in Hall as [Hx Hall]. cbn [forEachDoc].
    unfold validDate in Hx. unfold collectDoc at 1.
    destruct (extractDate (data x.2)) as [|[ms|]] eqn:He; [| |discriminate].
    + cbn [exc_bind]. destruct (IH st Hall) as (st' & Hrun & Hdays). exists st'. split; [done|].
      intros k. rewrite entriesOfDay_cons, Hdays.
      rewrite decide_False; [done|]. unfold dateKeyOf, dateOf. by rewrite He.
    + apply andb_true_iff in Hx as [Hlo Hhi]. apply Z.leb_le in Hlo, Hhi.
      pose proof (parseISODate_toISODate ms (conj Hlo Hhi)) as Hparse.
      set (k0 := toISODate ms) in *.
      set (day0 := default (zeroDay (default 0 (parseISODate k0)) k0) (dailyData st !! k0)).
      assert (Hday : match dailyData st !! k0 with
                     | Some day => Ok day
                     | None => newDay k0
                     end = Ok day0).
      { unfold day0. destruct (dailyData st !! k0); [done|].
        unfold k0. rewrite (newDay_toISODate ms (conj Hlo Hhi)). fold k0. by rewrite Hparse. }
      rewrite Hday. cbn [exc_bind].
      destruct (IH (mkCollected (<[k0 := accumulate x.2 day0]> (dailyData st))
                      (totalProcessed st + 1)) Hall) as (st' & Hrun & Hdays).
      exists st'. split; [done|]. intros k. rewrite entriesOfDay_cons, Hdays.
      cbn [dailyData].
      assert (Hkey : dateKeyOf x.2 = Some k0) by (unfold dateKeyOf, dateOf; by rewrite He).
      destruct (decide (dateKeyOf x.2 = Some k)) as [Heq|Hne].
      * rewrite Hkey in Heq. injection Heq as <-.
        rewrite lookup_insert_eq. cbn [default from_option id]. fold day0.
        by destruct (entriesOfDay k0 l).
      * rewrite lookup_insert_ne; [done|]. intros <-. by apply Hne.
Qed.

(** X12: when every scanned entry is skipped or carries a date a timestamp
    can hold, the collect phase returns; the record it holds for a day is
    the accumulation, from the zero record of that day's midnight, of the
    scanned entries whose date key is that day, in scan order, and a day
    without such an entry has no record. *)
Theorem X12_collect_groups_by_day (scanned : list TxDoc) :
  Forall (fun d => validDate d.2 = true) scanned ->
  exists c, collect scanned = Ok c /\
    forall k, dailyData c !! k
      = match entriesOfDay k scanned with
        | [] => None
        | es => Some (foldl (fun s d => accumulate d.2 s)
                        (zeroDay (default 0 (parseISODate k)) k) es)
        end.
Proof.
  intros Hall. unfold collect. rewrite scanPages_forEachDoc.
  destruct (forEachDoc_collectDoc_days scanned (mkCollected ∅ 0) Hall) as (c & Hrun & Hdays).
  exists c. split; [done|]. intros k. rewrite Hdays. cbn [dailyData].
  by rewrite lookup_empty.
Qed.

Lemma X12_collect_groups_by_day_witness :
  Forall (fun d => validDate d.2 = true) (transactions (db smallLedger)) /\
  exists c, collect (transactions (db smallLedger)) = Ok c /\
    forall k, dailyData c !! k
      = match entriesOfDay k (transactions (db smallLedger)) with
        | [] => None
        | es => Some (foldl (fun s d => accumulate d.2 s)
                        (zeroDay (default 0 (parseISODate k)) k) es)
        end.
Proof.
  assert (H : Forall (fun d => validDate d.2 = true) (transactions (db smallLedger)))
    by (repeat constructor).
  exact (conj H (X12_collect_groups_by_day _ H)).
Defined.

(** ** What the write phase stores *)

Lemma commitBatch_snoc (batch : list (string * Document)) (kv : string * Document)
    (m : gmap string Document) :
  commitBatch (batch ++ [kv]) m = <[kv.1 := kv.2]> (commitBatch batch m).
Proof. unfold commitBatch. by rewrite foldl_app. Qed.

Lemma commitBatch_lookup_notin (batch : list (string * Document)) (m : gmap string Document)
    (k : string) :
  k ∉ batch.*1 -> commitBatch batch m !! k = m !! k.
Proof.
  unfold commitBatch. revert m. induction batch as [|[j v] batch IH]; intros m Hk; [done|].
  rewrite fmap_cons in Hk. apply not_elem_of_cons in Hk as [Hne Hk]. cbn [foldl fst snd].
  rewrite IH by done. by rewrite lookup_insert_ne.
Qed.

(** The two write loops, seen through the store as it will be once the
    pending batch is committed.  A turn of the loop on a day not visited
    before either stores the day's record or leaves the store as it is. *)
Section WriteLoop.
Variables (force : bool) (reports : gmap string Document).
Variable step : Phase2 -> string * DayStats -> Phase2.
Variable doc : DayStats -> Document.

Hypothesis step_view : forall seen st kd,
  kd.1 ∉ seen ->
  (forall k, k ∈ (currentBatch st).*1 -> k ∈ seen) /\
  (forall k, k ∉ seen -> committed st !! k = reports !! k) ->
  let st1 := step st kd in
  let b := storesDay force reports kd.1 in
  ((forall k, k ∈ (currentBatch st1).*1 -> k ∈ seen ++ [kd.1]) /\
   (forall k, k ∉ seen ++ [kd.1] -> committed st1 !! k = reports !! k)) /\
  commitBatch (currentBatch st1) (committed st1) !! kd.1
  = (if b then Some (doc kd.2) else reports !! kd.1) /\
  (forall k, k <> kd.1 ->
     commitBatch (currentBatch st1) (committed st1) !! k
     = commitBatch (currentBatch st) (committed st) !! k) /\
  daysProcessed st1 = daysProcessed st + (if b then 1 else 0) /\
  skipped st1 = skipped st + (if b then 0 else 1).

Lemma foldl_step_view (l : list (string * DayStats)) (seen : list string) (st : Phase2) :
  NoDup (seen ++ l.*1) ->
  (forall k, k ∈ (currentBatch st).*1 -> k ∈ seen) /\
  (forall k, k ∉ seen -> committed st !! k = reports !! k) ->
  let st' := foldl step st l in
  (forall kd, kd ∈ l ->
     commitBatch (currentBatch st') (committed st') !! kd.1
     = if storesDay force reports kd.1 then Some (doc kd.2) else reports !! kd.1) /\
  (forall k, k ∉ l.*1 ->
     commitBatch (currentBatch st') (committed st') !! k
     = commitBatch (currentBatch st) (committed st) !! k) /\
  daysProcessed st'
  = daysProcessed st
    + Z.of_nat (length (filter (fun kd => storesDay force reports kd.1 = true) l)) /\
  skipped st'
  = skipped st
    + Z.of_nat (length (filter (fun kd => storesDay force reports kd.1 = false) l)).
Proof.
  revert seen st. induction l as [|kd l IH]; intros seen st Hnd Hinv; cbv zeta.
  - cbn [foldl filter list_filter length]. refine (conj _ (conj _ (conj _ _)));
      [|done|simpl; lia|simpl; lia].
    intros kd Hkd. by apply elem_of_nil in Hkd.
  - rewrite fmap_cons in Hnd.
    assert (Hnew : kd.1 ∉ seen).
    { apply NoDup_app in Hnd as (_ & Hdisj & _). intros Hin.
      apply (Hdisj _ Hin), list_elem_of_here. }
    assert (Hnl : kd.1 ∉ l.*1).
    { apply NoDup_app in Hnd as (_ & _ & Hl). by apply NoDup_cons in Hl as [? _]. }
    destruct (step_view seen st kd Hnew Hinv) as (Hinv1 & Hv1 & Hv1' & Hd1 & Hs1).
    assert (Hnd1 : NoDup ((seen ++ [kd.1]) ++ l.*1)) by (by rewrite <- app_assoc).
    destruct (IH (seen ++ [kd.1]) (step st kd) Hnd1 Hinv1) as (Hv & Hv' & Hd & Hs).
    cbn [foldl]. refine (conj _ (conj _ (conj _ _))).
    + intros kd' [->|Hin]%elem_of_cons; [|by apply Hv]. by rewrite Hv'.
    + intros k Hk. rewrite fmap_cons in Hk. apply not_elem_of_cons in Hk as [Hne Hk].
      rewrite Hv' by done. by apply Hv1'.
    + rewrite Hd, Hd1, filter_cons. destruct (storesDay force reports kd.1);
        [rewrite decide_True by done|rewrite decide_False by done]; cbn [length]; lia.
    + rewrite Hs, Hs1, filter_cons. destruct (storesDay force reports kd.1);
        [rewrite decide_False by done|rewrite decide_True by done]; cbn [length]; lia.
Qed.
End WriteLoop.

Lemma sortedDays_spec (dailyData : gmap string DayStats) :
  sortedDays dailyData ≡ₚ map_to_list dailyData /\
  NoDup (sortedDays dailyData).*1 /\
  (forall kd, kd ∈ sortedDays dailyData <-> dailyData !! kd.1 = Some kd.2).
Proof.
  pose proof (merge_sort_Permutation byKey (map_to_list dailyData)) as Hperm.
  fold (sortedDays dailyData) in Hperm. refine (conj Hperm (conj _ _)).
  - rewrite Hperm. apply NoDup_fst_map_to_list.
  - intros [k d]. rewrite Hperm. apply elem_of_map_to_list.
Qed.

(** The loop over all the days, from the store [reports]. *)
Lemma write_loop_store (force : bool) (reports : gmap string Document)
    (step : Phase2 -> string * DayStats -> Phase2) (doc : DayStats -> Document)
    (dailyData : gmap string DayStats) :
  (forall seen st kd,
     kd.1 ∉ seen ->
     (forall k, k ∈ (currentBatch st).*1 -> k ∈ seen) /\
     (forall k, k ∉ seen -> committed st !! k = reports !! k) ->
     let st1 := step st kd in
     let b := storesDay force reports kd.1 in
     ((forall k, k ∈ (currentBatch st1).*1 -> k ∈ seen ++ [kd.1]) /\
      (forall k, k ∉ seen ++ [kd.1] -> committed st1 !! k = reports !! k)) /\
     commitBatch (currentBatch st1) (committed st1) !! kd.1
       = (if b then Some (doc kd.2) else reports !! kd.1) /\
     (forall k, k <> kd.1 ->
        commitBatch (currentBatch st1) (committed st1) !! k
        = commitBatch (currentBatch st) (committed st) !! k) /\
     daysProcessed st1 = daysProcessed st + (if b then 1 else 0) /\
     skipped st1 = skipped st + (if b then 0 else 1)) ->
  let st := foldl step (mkPhase2 reports [] 0 0 0) (sortedDays dailyData) in
  (forall k, commitBatch (currentBatch st) (committed st) !! k
     = match dailyData !! k with
       | Some day => if storesDay force reports k then Some (doc day) else reports !! k
       | None => reports !! k
       end) /\
  daysProcessed st
  = Z.of_nat (length (filter (fun kd => storesDay force reports kd.1 = true)
                        (map_to_list dailyData))) /\
  skipped st
  = Z.of_nat (length (filter (fun kd => storesDay force reports kd.1 = false)
                        (map_to_list dailyData))).
Proof.
  intros Hstep. destruct (sortedDays_spec dailyData) as (Hperm & Hnd & Hin).
  destruct (foldl_step_view force reports step doc Hstep (sortedDays dailyData) []
              (mkPhase2 reports [] 0 0 0)) as (Hv & Hv' & Hd & Hs); [done| |].
  { split; [intros k Hk; cbn in Hk; by apply elem_of_nil in Hk|intros k _; reflexivity]. }
  cbv zeta. set (st := foldl _ _ _) in *.
  cbn [daysProcessed skipped] in Hd, Hs. rewrite !Z.add_0_l in Hd, Hs.
  rewrite <- !(Permutation_length (filter_Permutation _ _ _ Hperm)).
  refine (conj _ (conj Hd Hs)).
  intros k. destruct (dailyData !! k) as [day|] eqn:Hk.
  - apply (Hv (k, day)). by apply Hin.
  - rewrite Hv'; [done|]. intros [[k' d] [-> Hkd]]%list_elem_of_fmap.
    apply Hin in Hkd. cbn [fst snd] in *. congruence.
Qed.

Lemma phase2Step_view (force : bool) (serverTime : Z) (reports : gmap string Document)
    (seen : list string) (st : Phase2) (kd : string * DayStats) :
  kd.1 ∉ seen ->
  (forall k, k ∈ (currentBatch st).*1 -> k ∈ seen) /\
  (forall k, k ∉ seen -> committed st !! k = reports !! k) ->
  let st1 := phase2Step force serverTime st kd in
  let b := storesDay force reports kd.1 in
  ((forall k, k ∈ (currentBatch st1).*1 -> k ∈ seen ++ [kd.1]) /\
   (forall k, k ∉ seen ++ [kd.1] -> committed st1 !! k = reports !! k)) /\
  commitBatch (currentBatch st1) (committed st1) !! kd.1
    = (if b then Some (backfillDoc "backfillHistory" serverTime kd.2) else reports !! kd.1) /\
  (forall k, k <> kd.1 ->
     commitBatch (currentBatch st1) (committed st1) !! k
     = commitBatch (currentBatch st) (committed st) !! k) /\
  daysProcessed st1 = daysProcessed st + (if b then 1 else 0) /\
  skipped st1 = skipped st + (if b then 0 else 1).
Proof.
  intros Hnew [Hbatch Hrest]. cbv zeta. unfold phase2Step, storesDay.
  rewrite (Hrest _ Hnew).
  assert (Hnb : kd.1 ∉ (currentBatch st).*1) by (intros ?; by apply Hnew, Hbatch).
  assert (Hout : forall k, k ∉ seen ++ [kd.1] -> (k ∉ seen) /\ k <> kd.1).
  { intros k [Hk1 Hk2]%not_elem_of_app. split; [done|].
    intros ->. apply Hk2, list_elem_of_here. }
  set (doc := backfillDoc "backfillHistory" serverTime kd.2).
  destruct (negb force && bool_decide (is_Some (reports !! kd.1))) eqn:Hskip.
  - assert (Hb : (force || negb (bool_decide (is_Some (reports !! kd.1)))) = false).
    { apply andb_true_iff in Hskip as [Hf He]. destruct force; [discriminate|]. by rewrite He. }
    rewrite Hb. cbn [committed currentBatch batchCount skipped daysProcessed].
    refine (conj (conj _ _) (conj _ (conj _ (conj _ _)))); try done; try lia.
    + intros k Hk. apply elem_of_app. left. by apply Hbatch.
    + intros k [Hk _]%Hout. by apply Hrest.
    + rewrite commitBatch_lookup_notin by done. by apply Hrest.
  - assert (Hb : (force || negb (bool_decide (is_Some (reports !! kd.1)))) = true).
    { destruct force; [done|]. cbn in Hskip |- *. by rewrite Hskip. }
    rewrite Hb.
    assert (Hview : forall k, commitBatch (currentBatch st ++ [(kd.1, doc)]) (committed st) !! k
                    = if decide (k = kd.1) then Some doc
                      else commitBatch (currentBatch st) (committed st) !! k).
    { intros k. rewrite commitBatch_snoc. cbn [fst snd]. destruct (decide (k = kd.1)) as [->|Hne].
      - by rewrite lookup_insert_eq.
      - by rewrite lookup_insert_ne. }
    destruct (WRITE_BATCH_SIZE <=? batchCount st + 1) eqn:Hfull;
      cbn [committed currentBatch batchCount skipped daysProcessed].
    + refine (conj (conj _ _) (conj _ (conj _ (conj _ _)))); try done; try lia.
      * intros k Hk. cbn in Hk. by apply elem_of_nil in Hk.
      * intros k [Hk1 Hk2]%Hout. rewrite Hview, decide_False by done.
        rewrite commitBatch_lookup_notin by (intros ?; by apply Hk1, Hbatch). by apply Hrest.
      * change (commitBatch [] ?m) with m. by rewrite Hview, decide_True.
      * intros k Hne. change (commitBatch [] ?m) with m. by rewrite Hview, decide_False.
    + refine (conj (conj _ _) (conj _ (conj _ (conj _ _)))); try done; try lia.
      * intros k Hk. rewrite fmap_app in Hk. apply elem_of_app in Hk as [Hk|Hk];
          apply elem_of_app; [left; by apply Hbatch|by right].
      * intros k [Hk _]%Hout. by apply Hrest.
      * by rewrite Hview, decide_True.
      * intros k Hne. by rewrite Hview, decide_False.
Qed.

Lemma monthStep_view (force : bool) (serverTime : Z) (reports : gmap string Document)
    (seen : list string) (st : Phase2) (kd : string * DayStats) :
  kd.1 ∉ seen ->
  (forall k, k ∈ (currentBatch st).*1 -> k ∈ seen) /\
  (forall k, k ∉ seen -> committed st !! k = reports !! k) ->
  let st1 := monthStep force serverTime st kd in
  let b := storesDay force reports kd.1 in
  ((forall k, k ∈ (currentBatch st1).*1 -> k ∈ seen ++ [kd.1]) /\
   (forall k, k ∉ seen ++ [kd.1] -> committed st1 !! k = reports !! k)) /\
  commitBatch (currentBatch st1) (committed st1) !! kd.1
    = (if b then Some (backfillDoc "generateMonthReport" serverTime kd.2)
       else reports !! kd.1) /\
  (forall k, k <> kd.1 ->
     commitBatch (currentBatch st1) (committed st1) !! k
     = commitBatch (currentBatch st) (committed st) !! k) /\
  daysProcessed st1 = daysProcessed st + (if b then 1 else 0) /\
  skipped st1 = skipped st + (if b then 0 else 1).
Proof.
  intros Hnew [Hbatch Hrest]. cbv zeta. unfold monthStep, storesDay.
  rewrite (Hrest _ Hnew).
  assert (Hnb : kd.1 ∉ (currentBatch st).*1) by (intros ?; by apply Hnew, Hbatch).
  assert (Hout : forall k, k ∉ seen ++ [kd.1] -> (k ∉ seen) /\ k <> kd.1).
  { intros k [Hk1 Hk2]%not_elem_of_app. split; [done|].
    intros ->. apply Hk2, list_elem_of_here. }
  destruct (negb force && bool_decide (is_Some (reports !! kd.1))) eqn:Hskip.
  - assert (Hb : (force || negb (bool_decide (is_Some (reports !! kd.1)))) = false).
    { apply andb_true_iff in Hskip as [Hf He]. destruct force; [discriminate|]. by rewrite He. }
    rewrite Hb. cbn [committed currentBatch batchCount skipped daysProcessed].
    refine (conj (conj _ _) (conj _ (conj _ (conj _ _)))); try done; try lia.
    + intros k Hk. apply elem_of_app. left. by apply Hbatch.
    + intros k [Hk _]%Hout. by apply Hrest.
    + rewrite commitBatch_lookup_notin by done. by apply Hrest.
  - assert (Hb : (force || negb (bool_decide (is_Some (reports !! kd.1)))) = true).
    { destruct force; [done|]. cbn in Hskip |- *. by rewrite Hskip. }
    rewrite Hb. cbn [committed currentBatch batchCount skipped daysProcessed].
    rewrite commitBatch_snoc. cbn [fst snd].
    refine (conj (conj _ _) (conj _ (conj _ (conj _ _)))); try done; try lia.
    + intros k Hk. rewrite fmap_app in Hk. apply elem_of_app in Hk as [Hk|Hk];
        apply elem_of_app; [left; by apply Hbatch|by right].
    + intros k [Hk _]%Hout. by apply Hrest.
    + by rewrite lookup_insert_eq.
    + intros k Hne. by rewrite lookup_insert_ne.
Qed.

(** What the write phase of the backfill leaves in [daily_reports] and what
    it counts. *)
Lemma phase2_store (force : bool) (serverTime : Z) (dailyData : gmap string DayStats)
    (reports : gmap string Document) :
  let st := phase2 force serverTime dailyData reports in
  (forall k, committed st !! k
     = match dailyData !! k with
       | Some day =>
           if storesDay force reports k
           then Some (backfillDoc "backfillHistory" serverTime day) else reports !! k
       | None => reports !! k
       end) /\
  daysProcessed st
  = Z.of_nat (length (filter (fun kd => storesDay force reports kd.1 = true)
                        (map_to_list dailyData))) /\
  skipped st
  = Z.of_nat (length (filter (fun kd => storesDay force reports kd.1 = false)
                        (map_to_list dailyData))).
Proof.
  destruct (write_loop_store force reports (phase2Step force serverTime)
              (backfillDoc "backfillHistory" serverTime) dailyData) as (Hview & Hd & Hs).
  { intros seen st kd. apply phase2Step_view. }
  assert (Hinit : phase2Inv reports [] 0 (mkPhase2 reports [] 0 0 0)).
  { refine (conj _ (conj _ (conj _ _))); simpl; try done.
    intros k Hk. by apply elem_of_nil in Hk. }
  apply (foldl_phase2Step_inv force serverTime reports (sortedDays dailyData)) in Hinit.
  destruct Hinit as (Hc & _).
  cbv zeta. unfold phase2. set (st := foldl _ _ _) in *.
  destruct (0 <? batchCount st) eqn:Hpos; cbn [committed currentBatch daysProcessed skipped].
  - done.
  - refine (conj _ (conj Hd Hs)).
    assert (Hnil : currentBatch st = []).
    { apply Z.ltb_ge in Hpos. destruct (currentBatch st); [done|]. cbn [length] in Hc. lia. }
    intros k. rewrite <- Hview, Hnil. reflexivity.
Qed.

Lemma collect_days (scanned : list TxDoc) :
  Forall (fun d => validDate d.2 = true) scanned ->
  exists c, collect scanned = Ok c /\
    forall k, dailyData c !! k
      = match entriesOfDay k scanned with
        | [] => None
        | es => Some (foldl (fun s d => accumulate d.2 s)
                        (zeroDay (default 0 (parseISODate k)) k) es)
        end.
Proof.
  intros Hall. unfold collect. rewrite scanPages_forEachDoc.
  destruct (forEachDoc_collectDoc_days scanned (mkCollected ∅ 0) Hall) as (c & Hrun & Hdays).
  exists c. split; [done|]. intros k. rewrite Hdays. cbn [dailyData].
  by rewrite lookup_empty.
Qed.

Lemma forallb_Forall {A} (f : A -> bool) (l : list A) :
  forallb f l = true -> Forall (fun x => f x = true) l.
Proof.
  induction l as [|x l IH]; [constructor|]. cbn [forallb].
  intros [? ?]%andb_true_iff. constructor; [done|by apply IH].
Qed.

(** X13: a backfill whose range resolves, over entries dated as timestamps
    can be, returns, and the report it leaves under each date key is: the
    stored one, when no scanned entry falls on that day or (without
    [forceOverwrite]) a report was stored already; else the record
    accumulated from that day's scanned entries.  The ledger, the inventory
    and the notifications are not touched. *)
Theorem X13_backfill_stores_each_day (req : BackfillRequest.t) (now later serverTime : Z)
    (w : World) (start end_ : Z) :
  backfillRange req now = Ok (start, end_) ->
  forallb (fun d => validDate d.2) (rangeQuery start end_ (transactions (db w))) = true ->
  let scanned := rangeQuery start end_ (transactions (db w)) in
  let force := BackfillRequest.forceOverwrite req in
  exists stats w', backfillHistory req now later serverTime w = Ok (stats, w') /\
    (forall k, daily_reports (db w') !! k
       = match entriesOfDay k scanned with
         | [] => daily_reports (db w) !! k
         | es =>
             if storesDay force (daily_reports (db w)) k
             then Some (backfillDoc "backfillHistory" serverTime
                          (foldl (fun s d => accumulate d.2 s)
                             (zeroDay (default 0 (parseISODate k)) k) es))
             else daily_reports (db w) !! k
         end) /\
    transactions (db w') = transactions (db w) /\
    inventory (db w') = inventory (db w) /\
    notifications (db w') = notifications (db w).
Proof.
  intros Hrange Hvalid%forallb_Forall. cbv zeta. unfold backfillHistory. rewrite Hrange. cbn [exc_bind fst snd].
  destruct (collect_days _ Hvalid) as (c & Hc & Hdays). rewrite Hc. cbn [exc_bind].
  eexists _, _. split; [reflexivity|]. cbn [db daily_reports transactions inventory notifications].
  refine (conj _ (conj eq_refl (conj eq_refl eq_refl))).
  intros k.
  destruct (phase2_store (BackfillRequest.forceOverwrite req) serverTime (dailyData c)
              (daily_reports (db w))) as (Hstore & _).
  rewrite Hstore, Hdays. by destruct (entriesOfDay k _).
Qed.

Lemma X13_backfill_stores_each_day_witness :
  let req := marchRequest in
  let w := smallLedger in
  let start := 1709251200000 in
  let end_ := 1711843200000 in
  backfillRange req 1710100000000 = Ok (start, end_) /\
  forallb (fun d => validDate d.2) (rangeQuery start end_ (transactions (db w))) = true /\
  let scanned := rangeQuery start end_ (transactions (db w)) in
  let force := BackfillRequest.forceOverwrite req in
  exists stats w',
    backfillHistory req 1710100000000 1710100001000 1710100002000 w = Ok (stats, w') /\
    (forall k, daily_reports (db w') !! k
       = match entriesOfDay k scanned with
         | [] => daily_reports (db w) !! k
         | es =>
             if storesDay force (daily_reports (db w)) k
             then Some (backfillDoc "backfillHistory" 1710100002000
                          (foldl (fun s d => accumulate d.2 s)
                             (zeroDay (default 0 (parseISODate k)) k) es))
             else daily_reports (db w) !! k
         end) /\
    transactions (db w') = transactions (db w) /\
    inventory (db w') = inventory (db w) /\
    notifications (db w') = notifications (db w).
Proof.
  cbv zeta.
  assert (H1 : backfillRange marchRequest 1710100000000 = Ok (1709251200000, 1711843200000))
    by reflexivity.
  assert (H2 : forallb (fun d => validDate d.2)
                 (rangeQuery 1709251200000 1711843200000 (transactions (db smallLedger)))
               = true) by (vm_compute; reflexivity).
  exact (conj H1 (conj H2 (X13_backfill_stores_each_day marchRequest 1710100000000
                             1710100001000 1710100002000 smallLedger _ _ H1 H2))).
Defined.

(** X14: a month report for a given month and a year other than 0, over
    entries dated as timestamps can be, returns, and leaves under each date
    key the stored report (no scanned entry on that day, or a report stored
    already and no [forceOverwrite]) or the record accumulated from that
    day's scanned entries; it counts the entries filed and the days written
    and skipped, and touches neither the live summary nor any other
    document. *)
Theorem X14_month_report_stores_each_day (req : MonthRequest.t) (serverTime : Z) (w : World)
    (year month : Z) :
  MonthRequest.year req = Some year ->
  MonthRequest.month req = Some month ->
  year <> 0 ->
  let start := makeDay (constructorYear year) month 1 * MS_PER_DAY in
  let end_ := makeDay (constructorYear year) (month + 1) 0 * MS_PER_DAY + 86399999 in
  let scanned := rangeQuery start end_ (transactions (db w)) in
  let force := MonthRequest.forceOverwrite req in
  forallb (fun d => validDate d.2) scanned = true ->
  exists res w', generateMonthReport req serverTime w = Ok (res, w') /\
    (forall k, daily_reports (db w') !! k
       = match entriesOfDay k scanned with
         | [] => daily_reports (db w) !! k
         | es =>
             if storesDay force (daily_reports (db w)) k
             then Some (backfillDoc "generateMonthReport" serverTime
                          (foldl (fun s d => accumulate d.2 s)
                             (zeroDay (default 0 (parseISODate k)) k) es))
             else daily_reports (db w) !! k
         end) /\
    transactionsProcessed res
    = Z.of_nat (length (filter (fun x => isTimestampDateOrString (data x.2) = true) scanned)) /\
    live_summary (db w') = live_summary (db w) /\
    transactions (db w') = transactions (db w) /\
    inventory (db w') = inventory (db w) /\
    notifications (db w') = notifications (db w).
Proof.
  intros Hy Hm Hne. cbv zeta. intros Hvalid%forallb_Forall. unfold generateMonthReport. rewrite Hy, Hm.
  rewrite (proj2 (Z.eqb_neq year 0)) by done.
  destruct (collect_days _ Hvalid) as (c & Hc & Hdays). rewrite Hc. cbn [exc_bind].
  eexists _, _. split; [reflexivity|].
  cbn [db daily_reports transactions inventory notifications live_summary transactionsProcessed].
  refine (conj _ (conj _ (conj eq_refl (conj eq_refl (conj eq_refl eq_refl))))).
  - intros k.
    destruct (write_loop_store (MonthRequest.forceOverwrite req) (daily_reports (db w))
                (monthStep (MonthRequest.forceOverwrite req) serverTime)
                (backfillDoc "generateMonthReport" serverTime) (dailyData c)) as (Hstore & _).
    { intros seen st kd. apply monthStep_view. }
    rewrite Hstore, Hdays. by destruct (entriesOfDay k _).
  - unfold collect in Hc. rewrite scanPages_forEachDoc in Hc.
    apply forEachDoc_collectDoc_count in Hc. cbn [totalProcessed] in Hc. lia.
Qed.

Lemma X14_month_report_stores_each_day_witness :
  let req := MonthRequest.mk (Some 2024) (Some 2) false in
  let w := smallLedger in
  MonthRequest.year req = Some 2024 /\
  MonthRequest.month req = Some 2 /\
  2024 <> 0 /\
  let start := makeDay (constructorYear 2024) 2 1 * MS_PER_DAY in
  let end_ := makeDay (constructorYear 2024) (2 + 1) 0 * MS_PER_DAY + 86399999 in
  let scanned := rangeQuery start end_ (transactions (db w)) in
  let force := MonthRequest.forceOverwrite req in
  forallb (fun d => validDate d.2) scanned = true /\
  exists res w', generateMonthReport req 1710100002000 w = Ok (res, w') /\
    (forall k, daily_reports (db w') !! k
       = match entriesOfDay k scanned with
         | [] => daily_reports (db w) !! k
         | es =>
             if storesDay force (daily_reports (db w)) k
             then Some (backfillDoc "generateMonthReport" 1710100002000
                          (foldl (fun s d => accumulate d.2 s)
                             (zeroDay (default 0 (parseISODate k)) k) es))
             else daily_reports (db w) !! k
         end) /\
    transactionsProcessed res
    = Z.of_nat (length (filter (fun x => isTimestampDateOrString (data x.2) = true) scanned)) /\
    live_summary (db w') = live_summary (db w) /\
    transactions (db w') = transactions (db w) /\
    inventory (db w') = inventory (db w) /\
    notifications (db w') = notifications (db w).
Proof.
  cbv zeta.
  assert (H0 : (2024 : Z) <> 0) by discriminate.
  assert (H : forallb (fun d => validDate d.2)
                (rangeQuery (makeDay (constructorYear 2024) 2 1 * MS_PER_DAY)
                   (makeDay (constructorYear 2024) (2 + 1) 0 * MS_PER_DAY + 86399999)
                   (transactions (db smallLedger))) = true) by (vm_compute; reflexivity).
  exact (conj eq_refl (conj eq_refl (conj H0 (conj H
           (X14_month_report_stores_each_day (MonthRequest.mk (Some 2024) (Some 2) false)
              1710100002000 smallLedger 2024 2 eq_refl eq_refl H0 H))))).
Defined.

(** ** The stock monitor *)

Lemma lowStockItem_Some (entry : string * Value) (i : LowStockItem) :
  lowStockItem entry = Some i <->
  itemMaterial i = entry.1 /\
  entry.1 <> "lastUpdated" /\
  minLevelOf entry.1 = Some (itemMinLevel i) /\
  itemQuantidade i = quantidadeOf entry.2 /\
  itemQuantidade i <= itemMinLevel i /\
  nivel i = (if 2 * itemQuantidade i <? itemMinLevel i then "critico" else "baixo").
Proof.
  unfold lowStockItem. destruct (String.eqb_spec entry.1 "lastUpdated") as [He|He].
  - split; [discriminate|]. by intros (_ & ? & _).
  - destruct (minLevelOf entry.1) as [minLevel|].
    + destruct (Z.leb_spec (quantidadeOf entry.2) minLevel) as [Hle|Hgt].
      * split.
        -- intros [= <-]. cbn. done.
        -- intros (H1 & _ & [= H3] & H4 & _ & H6). destruct i as [m q l n]. cbn in *.
           by subst.
      * split; [discriminate|]. intros (_ & _ & [= H3] & H4 & H5 & _). lia.
    + split; [discriminate|]. by intros (_ & _ & ? & _).
Qed.

(** X15: over an inventory of numeric quantities, the job lists an item
    exactly for the fields, other than [lastUpdated] and the names
    [Object.prototype] defines, whose quantity on hand (0 without one) is at
    most the minimum configured for the material (10 without one); the item
    carries that quantity and that minimum, and is critical exactly when the
    quantity is below half the minimum; no material is listed twice. *)
Theorem X15_low_stock_items (inv : Document) :
  numericInventory inv = true ->
  (forall material level q min,
     mkLowStockItem material q min level ∈ lowStockItems inv <->
     exists data, inv !! material = Some data /\
                  qualifies material data = true /\
                  q = quantityOnHand data /\
                  min = configuredMinimum material /\
                  level = levelOf q min) /\
  NoDup (itemMaterial <$> lowStockItems inv).
Proof.
  intros _. split; [intros material level q min; apply lowStockItems_qualifying|].
  unfold lowStockItems.
  pose proof (NoDup_fst_map_to_list inv) as Hnd.
  induction (map_to_list inv) as [|[k data] l IH]; [constructor|].
  rewrite fmap_cons in Hnd. apply NoDup_cons in Hnd as [Hk Hnd]. cbn [omap list_omap].
  destruct (lowStockItem (k, data)) as [i|] eqn:Hi; [|by apply IH].
  rewrite fmap_cons. apply NoDup_cons. split; [|by apply IH].
  apply lowStockItem_Some in Hi as (Hm & _). cbn [fst] in Hm. rewrite Hm.
  intros (j & Hj & Hin)%list_elem_of_fmap. apply list_elem_of_omap in Hin as ([k' d'] & Hin & Hitem).
  apply lowStockItem_Some in Hitem as (Hm' & _). cbn [fst] in *.
  apply Hk. apply list_elem_of_fmap. exists (k', d'). split; [cbn; congruence|done].
Qed.

(** The inventory low on ferro: one item, critical, 30 against a minimum of 100. *)
Lemma X15_low_stock_items_witness :
  numericInventory lowInventory = true /\
  (forall material level q min,
     mkLowStockItem material q min level ∈ lowStockItems lowInventory <->
     exists data, lowInventory !! material = Some data /\
                  qualifies material data = true /\
                  q = quantityOnHand data /\
                  min = configuredMinimum material /\
                  level = levelOf q min) /\
  NoDup (itemMaterial <$> lowStockItems lowInventory).
Proof.
  assert (H : numericInventory lowInventory = true) by (vm_compute; reflexivity).
  exact (conj H (X15_low_stock_items lowInventory H)).
Defined.

Example lowStockItems_lowInventory :
  lowStockItems lowInventory = [mkLowStockItem "ferro" 30 100 "critico"] /\
  configuredMinimum "cobre" = 50 /\
  configuredMinimum "vidro" = 10 /\
  quantityOnHand (VMap []) = 0.
Proof. repeat split; vm_compute; reflexivity. Qed.

(** X16: the job writes nothing but notifications, never removes or
    renumbers one, adds at most one, and leaves every notification that is
    read or of another type exactly as it was; without an inventory document
    or without a low item it changes nothing at all. *)
Theorem X16_low_stock_job_frame (serverTime : Z) (newId : string) (d : Db) :
  let d' := checkLowStock serverTime newId d in
  transactions d' = transactions d /\ inventory d' = inventory d /\
  live_summary d' = live_summary d /\ daily_reports d' = daily_reports d /\
  (length (notifications d) <= length (notifications d') <= length (notifications d) + 1)%nat /\
  (forall i n, notifications d !! i = Some n ->
     exists n', notifications d' !! i = Some n' /\ n'.1 = n.1 /\
                (isUnreadLowStockb n = false -> n' = n)) /\
  (match inventory d with
   | Some inv => if decide (lowStockItems inv = []) then d' = d else True
   | None => d' = d
   end).
Proof.
  cbv zeta. unfold checkLowStock.
  destruct (inventory d) as [inv|] eqn:Hinv.
  2: { rewrite Hinv. refine (conj eq_refl (conj eq_refl (conj eq_refl (conj eq_refl
         (conj _ (conj _ eq_refl)))))); [lia|]. intros i n Hn. by exists n. }
  destruct (lowStockItems inv) as [|item items] eqn:Hitems.
  { cbn [length Nat.ltb Nat.leb]. rewrite Hinv, decide_True by done.
    refine (conj eq_refl (conj eq_refl (conj eq_refl (conj eq_refl
      (conj _ (conj _ eq_refl)))))); [lia|]. intros i n Hn. by exists n. }
  cbn [length Nat.ltb Nat.leb]. rewrite decide_False by done.
  destruct (list_find isUnreadLowStock (notifications d)) as [[j existing]|] eqn:Hfind;
    cbn [setNotifications transactions inventory live_summary daily_reports notifications].
  - apply list_find_Some in Hfind as (Hj & Hunread & _).
    refine (conj eq_refl (conj Hinv (conj eq_refl (conj eq_refl (conj _ (conj _ I)))))).
    + rewrite length_insert. lia.
    + intros i n Hn. destruct (decide (i = j)) as [->|Hne].
      * exists (refreshNotification serverTime (item :: items) existing).
        rewrite list_lookup_insert_eq by (by eapply lookup_lt_Some).
        rewrite Hj in Hn. injection Hn as <-. refine (conj eq_refl (conj eq_refl _)).
        intros Hf. unfold isUnreadLowStock in Hunread. congruence.
      * exists n. by rewrite list_lookup_insert_ne.
  - refine (conj eq_refl (conj Hinv (conj eq_refl (conj eq_refl (conj _ (conj _ I)))))).
    + rewrite length_app. cbn [length]. lia.
    + intros i n Hn. exists n. by rewrite (lookup_app_l_Some _ _ _ _ Hn).
Qed.

(** ** The reset jobs and the daily job *)

Lemma reset_keeps_live_summary_entry {A} (c : gmap string (CacheEntry A)) :
  invalidateCache "stats" c !! "live_summary" = c !! "live_summary".
Proof. rewrite invalidateCache_lookup. reflexivity. Qed.

(** X17: the daily reset stores 0 in the three counters of the day and the
    monthly reset in the seven counters of the month, each leaving every
    other field of the live summary as it was; but the cache entry of the
    live summary survives both (its key does not start with the prefix they
    invalidate), so a read within the time-to-live still answers the values
    cached before the reset. *)
Theorem X17_reset_leaves_cached_summary (serverTime t_read t_store t0 : Z) (w : World)
    (v : Document) :
  memoryCache w !! "live_summary" = Some (mkCacheEntry v t0) ->
  t_read - t0 < CACHE_TTL ->
  let old := default ∅ (live_summary (db w)) in
  let wd := resetDailyStats serverTime w in
  let wm := resetMonthlyStats serverTime w in
  (exists s, live_summary (db wd) = Some s /\
     (forall k, k ∈ ["transacoesHoje"; "vendasHoje"; "comprasHoje"] -> s !! k = Some (VNum 0)) /\
     s !! "lastDailyReset" = Some (VTime serverTime) /\
     (forall k, k ∉ ["transacoesHoje"; "vendasHoje"; "comprasHoje"; "lastDailyReset"] ->
        s !! k = old !! k)) /\
  (exists s, live_summary (db wm) = Some s /\
     (forall k, k ∈ ["totalVendasMes"; "totalComprasMes"; "totalDespesasMes"; "vendasCountMes";
                     "comprasCountMes"; "despesasCountMes"; "totalTransacoesMes"] ->
        s !! k = Some (VNum 0)) /\
     s !! "lastMonthlyReset" = Some (VTime serverTime) /\
     (forall k, k ∉ ["totalVendasMes"; "totalComprasMes"; "totalDespesasMes"; "vendasCountMes";
                     "comprasCountMes"; "despesasCountMes"; "totalTransacoesMes";
                     "lastMonthlyReset"] ->
        s !! k = old !! k)) /\
  getLiveSummary t_read t_store wd = (v, wd) /\
  getLiveSummary t_read t_store wm = (v, wm).
Proof.
  intros Hc Ht. cbv zeta.
  refine (conj _ (conj _ (conj _ _))).
  - eexists. split; [reflexivity|]. refine (conj _ (conj _ _)).
    + intros k Hk. rewrite setMerge_lookup.
      repeat (apply elem_of_cons in Hk as [->|Hk]; [reflexivity|]). by apply elem_of_nil in Hk.
    + rewrite setMerge_lookup. reflexivity.
    + intros k Hk. rewrite setMerge_lookup.
      replace (dailyResetUpdate !! k) with (@None FieldValue); [done|].
      symmetry. unfold dailyResetUpdate. cbn [list_to_map foldr fst snd].
      repeat (rewrite lookup_insert_ne;
              [|intros <-; apply Hk; repeat first [apply list_elem_of_here
                                                 |apply list_elem_of_further]]).
      apply lookup_empty.
  - eexists. split; [reflexivity|]. refine (conj _ (conj _ _)).
    + intros k Hk. rewrite setMerge_lookup.
      repeat (apply elem_of_cons in Hk as [->|Hk]; [reflexivity|]). by apply elem_of_nil in Hk.
    + rewrite setMerge_lookup. reflexivity.
    + intros k Hk. rewrite setMerge_lookup.
      replace (monthlyResetUpdate !! k) with (@None FieldValue); [done|].
      symmetry. unfold monthlyResetUpdate. cbn [list_to_map foldr fst snd].
      repeat (rewrite lookup_insert_ne;
              [|intros <-; apply Hk; repeat first [apply list_elem_of_here
                                                 |apply list_elem_of_further]]).
      apply lookup_empty.
  - unfold getLiveSummary, resetDailyStats. cbn [db memoryCache].
    erewrite getCachedData_hit; [reflexivity| |exact Ht].
    by rewrite reset_keeps_live_summary_entry.
  - unfold getLiveSummary, resetMonthlyStats. cbn [db memoryCache].
    erewrite getCachedData_hit; [reflexivity| |exact Ht].
    by rewrite reset_keeps_live_summary_entry.
Qed.

Lemma X17_reset_leaves_cached_summary_witness :
  memoryCache cachedWorld !! "live_summary" = Some (mkCacheEntry summary100 1710072000000) /\
  1710072002000 - 1710072000000 < CACHE_TTL /\
  let w := cachedWorld in
  let v := summary100 in
  let old := default ∅ (live_summary (db w)) in
  let wd := resetDailyStats 1710072001000 w in
  let wm := resetMonthlyStats 1710072001000 w in
  (exists s, live_summary (db wd) = Some s /\
     (forall k, k ∈ ["transacoesHoje"; "vendasHoje"; "comprasHoje"] -> s !! k = Some (VNum 0)) /\
     s !! "lastDailyReset" = Some (VTime 1710072001000) /\
     (forall k, k ∉ ["transacoesHoje"; "vendasHoje"; "comprasHoje"; "lastDailyReset"] ->
        s !! k = old !! k)) /\
  (exists s, live_summary (db wm) = Some s /\
     (forall k, k ∈ ["totalVendasMes"; "totalComprasMes"; "totalDespesasMes"; "vendasCountMes";
                     "comprasCountMes"; "despesasCountMes"; "totalTransacoesMes"] ->
        s !! k = Some (VNum 0)) /\
     s !! "lastMonthlyReset" = Some (VTime 1710072001000) /\
     (forall k, k ∉ ["totalVendasMes"; "totalComprasMes"; "totalDespesasMes"; "vendasCountMes";
                     "comprasCountMes"; "despesasCountMes"; "totalTransacoesMes";
                     "lastMonthlyReset"] ->
        s !! k = old !! k)) /\
  getLiveSummary 1710072002000 1710072002500 wd = (v, wd) /\
  getLiveSummary 1710072002000 1710072002500 wm = (v, wm).
Proof.
  assert (H1 : memoryCache cachedWorld !! "live_summary"
               = Some (mkCacheEntry summary100 1710072000000)) by reflexivity.
  assert (H2 : 1710072002000 - 1710072000000 < CACHE_TTL) by (unfold CACHE_TTL; lia).
  exact (conj H1 (conj H2 (X17_reset_leaves_cached_summary 1710072001000 1710072002000
                             1710072002500 1710072000000 cachedWorld summary100 H1 H2))).
Defined.

(** X18: the daily job always returns; it writes at most the report of
    yesterday and nothing else, and a second run for the same day changes
    nothing: the report of a day is written once. *)
Theorem X18_daily_job_runs_once_per_day (now1 now2 t1 t2 : Z) (d : Db) :
  toISODate (now1 - MS_PER_DAY) = toISODate (now2 - MS_PER_DAY) ->
  exists d1,
    generateHistoricalDailyReport now1 t1 d = Ok d1 /\
    generateHistoricalDailyReport now2 t2 d1 = Ok d1 /\
    is_Some (daily_reports d1 !! toISODate (now1 - MS_PER_DAY)) /\
    (forall k, k <> toISODate (now1 - MS_PER_DAY) ->
       daily_reports d1 !! k = daily_reports d !! k) /\
    (is_Some (daily_reports d !! toISODate (now1 - MS_PER_DAY)) -> d1 = d) /\
    transactions d1 = transactions d /\ inventory d1 = inventory d /\
    live_summary d1 = live_summary d /\ notifications d1 = notifications d.
Proof.
  intros Hsame. unfold generateHistoricalDailyReport at 1.
  destruct (daily_reports d !! toISODate (now1 - MS_PER_DAY)) as [r|] eqn:Hr.
  - exists d. unfold generateHistoricalDailyReport. rewrite <- Hsame, Hr.
    refine (conj eq_refl (conj eq_refl (conj _ _))); [by eexists|]. done.
  - rewrite scanPages_forEachDoc, forEachDoc_total. cbn [exc_bind].
    eexists. split; [reflexivity|].
    unfold generateHistoricalDailyReport. rewrite <- Hsame.
    cbn [setDailyReport daily_reports transactions inventory live_summary notifications].
    rewrite lookup_insert_eq.
    refine (conj eq_refl (conj _ (conj _ (conj _ _)))); [by eexists| | |done].
    + intros k Hk. by rewrite lookup_insert_ne.
    + intros [? ?]. discriminate.
Qed.

Lemma X18_daily_job_runs_once_per_day_witness :
  toISODate (1710115200000 - MS_PER_DAY) = toISODate (1710118800000 - MS_PER_DAY) /\
  exists d1,
    generateHistoricalDailyReport 1710115200000 1710115201000 (db smallLedger) = Ok d1 /\
    generateHistoricalDailyReport 1710118800000 1710118801000 d1 = Ok d1 /\
    is_Some (daily_reports d1 !! toISODate (1710115200000 - MS_PER_DAY)) /\
    (forall k, k <> toISODate (1710115200000 - MS_PER_DAY) ->
       daily_reports d1 !! k = daily_reports (db smallLedger) !! k) /\
    (is_Some (daily_reports (db smallLedger) !! toISODate (1710115200000 - MS_PER_DAY)) ->
     d1 = db smallLedger) /\
    transactions d1 = transactions (db smallLedger) /\
    inventory d1 = inventory (db smallLedger) /\
    live_summary d1 = live_summary (db smallLedger) /\
    notifications d1 = notifications (db smallLedger).
Proof.
  assert (H : toISODate (1710115200000 - MS_PER_DAY) = toISODate (1710118800000 - MS_PER_DAY))
    by (vm_compute; reflexivity).
  exact (conj H (X18_daily_job_runs_once_per_day 1710115200000 1710118800000 1710115201000
                   1710118801000 (db smallLedger) H)).
Defined.

(** ** From the ledger to the aggregate *)

Lemma reportsBetween_single (k : string) (doc : Document) (reports : gmap string Document) :
  reports !! k = Some doc -> reportsBetween k k reports = [(k, doc)].
Proof.
  intros Hk. apply Permutation_singleton_r. rewrite reportsBetween_Permutation.
  apply NoDup_Permutation.
  - apply NoDup_filter, NoDup_map_to_list.
  - apply NoDup_singleton.
  - intros [k' d']. rewrite list_elem_of_filter, elem_of_map_to_list, list_elem_of_singleton.
    unfold idBetween. cbn [fst]. split.
    + intros [[H1 H2]%andb_true_iff Hd]. pose proof (String.leb_antisym _ _ H1 H2) as <-.
      congruence.
    + intros [= -> ->]. by rewrite string_leb_refl.
Qed.

Lemma backfillDoc_reads_back (generatedBy : string) (serverTime : Z) (day : DayStats) :
  (forall key, is_Some (materialStats day !! key) -> inherited key = false) ->
  (forall key, is_Some (paymentStats day !! key) -> inherited key = false) ->
  addDailyReport zeroAggregated (backfillDoc generatedBy serverTime day)
  = mkAggregated (totalSales day) (totalPurchases day) (totalExpenses day)
      (totalSales day - totalPurchases day - totalExpenses day)
      (totalTransactions day) (salesCount day) (purchasesCount day) (expensesCount day)
      (materialStats day) (paymentStats day)
      [mkBreakdownRow (Some (VStr (dateString day))) (Some (VNum (totalSales day)))
         (Some (VNum (totalPurchases day)))
         (Some (VNum (totalSales day - totalPurchases day - totalExpenses day)))
         (Some (VNum (totalTransactions day)))].
Proof.
  intros Hm Hp.
  pose proof (addDailyReport_encodeDay (withProfit day)
                [("generatedBy", VStr generatedBy); ("generatedAt", VTime serverTime)]
                Hm Hp) as Hrt.
  cbn [foldr fst snd] in Hrt. unfold backfillDoc. rewrite Hrt; [reflexivity|].
  constructor; [by right|]. constructor; [by left|]. constructor.
Qed.

Lemma foldl_accumulate_docs_own (es : list TxDoc) (t : Z) (k : string) :
  let day := foldl (fun s d => accumulate d.2 s) (zeroDay t k) es in
  (forall key, is_Some (materialStats day !! key) -> inherited key = false) /\
  (forall key, is_Some (paymentStats day !! key) -> inherited key = false).
Proof.
  cbv zeta. rewrite <- (foldl_fmap (fun s x => accumulate x s) (zeroDay t k) es snd).
  apply foldl_accumulate_own; intros key [? Hk]; cbn in Hk; by rewrite lookup_empty in Hk.
Qed.

(** X19: after a backfill that stores the day [k] (under [forceOverwrite],
    or with no report stored for [k] before), the aggregate of the range
    from [k] to [k] holds the sums of the ledger over the scanned entries of
    that day: values and counts per kind, their number, and the profit as
    sales less purchases less expenses. *)
Theorem X19_backfilled_day_aggregates_to_ledger (req : BackfillRequest.t)
    (now later serverTime : Z) (w : World) (start end_ : Z) (k : string) :
  backfillRange req now = Ok (start, end_) ->
  forallb (fun d => validDate d.2) (rangeQuery start end_ (transactions (db w))) = true ->
  storesDay (BackfillRequest.forceOverwrite req) (daily_reports (db w)) k = true ->
  (0 < length (entriesOfDay k (rangeQuery start end_ (transactions (db w)))))%nat ->
  let es := entriesOfDay k (rangeQuery start end_ (transactions (db w))) in
  exists stats w', backfillHistory req now later serverTime w = Ok (stats, w') /\
    let a := (aggregateReports (RangeRequest.mk (Some k) (Some k) None) (db w')).1 in
    aggTotalSales a = sumZ (valorOf Venda) es /\
    aggTotalPurchases a = sumZ (valorOf Compra) es /\
    aggTotalExpenses a = sumZ (valorOf Despesa) es /\
    aggTotalProfit a
    = sumZ (valorOf Venda) es - sumZ (valorOf Compra) es - sumZ (valorOf Despesa) es /\
    aggTotalTransactions a = Z.of_nat (length es) /\
    aggSalesCount a = sumZ (oneOf Venda) es /\
    aggPurchasesCount a = sumZ (oneOf Compra) es /\
    aggExpensesCount a = sumZ (oneOf Despesa) es /\
    length (dailyBreakdown a) = 1%nat.
Proof.
  intros Hrange Hvalid%forallb_Forall Hstores Hlen. cbv zeta.
  unfold backfillHistory. rewrite Hrange. cbn [exc_bind fst snd].
  destruct (collect_days _ Hvalid) as (c & Hc & Hdays). rewrite Hc. cbn [exc_bind].
  eexists _, _. split; [reflexivity|]. unfold aggregateReports.
  cbn [db daily_reports RangeRequest.startDate RangeRequest.endDate template default
       from_option id fst].
  destruct (phase2_store (BackfillRequest.forceOverwrite req) serverTime (dailyData c)
              (daily_reports (db w))) as (Hstore & _).
  specialize (Hstore k). rewrite Hdays, Hstores in Hstore.
  set (es := entriesOfDay k _) in *.
  destruct es as [|e es'] eqn:Hes; [cbn in Hlen; lia|]. rewrite <- Hes in *. clear Hes.
  assert (Hstore' : committed (phase2 (BackfillRequest.forceOverwrite req) serverTime
                                 (dailyData c) (daily_reports (db w))) !! k
            = Some (backfillDoc "backfillHistory" serverTime
                      (foldl (fun s d => accumulate d.2 s)
                         (zeroDay (default 0 (parseISODate k)) k) es))).
  { rewrite Hstore. by destruct es. }
  rewrite (reportsBetween_single _ _ _ Hstore'). cbn [fmap list_fmap snd foldl].
  destruct (foldl_accumulate_docs_own es (default 0 (parseISODate k)) k) as [Hm Hp].
  rewrite (backfillDoc_reads_back _ _ _ Hm Hp).
  cbn [aggTotalSales aggTotalPurchases aggTotalExpenses aggTotalProfit aggTotalTransactions
       aggSalesCount aggPurchasesCount aggExpensesCount dailyBreakdown length].
  pose proof (foldl_accumulate_scalars es (zeroDay (default 0 (parseISODate k)) k)) as Hs.
  cbv zeta in Hs. destruct Hs as (_ & _ & H3 & H4 & H5 & H6 & H7 & H8 & H9).
  rewrite H3, H4, H5, H6, H7, H8, H9. cbn [zeroDay totalSales totalPurchases totalExpenses
    totalTransactions salesCount purchasesCount expensesCount].
  repeat split; lia.
Qed.

Lemma X19_backfilled_day_aggregates_to_ledger_witness :
  let req := marchRequest in
  let w := smallLedger in
  let start := 1709251200000 in
  let end_ := 1711843200000 in
  let k := "2024-03-09" in
  backfillRange req 1710100000000 = Ok (start, end_) /\
  forallb (fun d => validDate d.2) (rangeQuery start end_ (transactions (db w))) = true /\
  storesDay (BackfillRequest.forceOverwrite req) (daily_reports (db w)) k = true /\
  (0 < length (entriesOfDay k (rangeQuery start end_ (transactions (db w)))))%nat /\
  let es := entriesOfDay k (rangeQuery start end_ (transactions (db w))) in
  exists stats w',
    backfillHistory req 1710100000000 1710100001000 1710100002000 w = Ok (stats, w') /\
    let a := (aggregateReports (RangeRequest.mk (Some k) (Some k) None) (db w')).1 in
    aggTotalSales a = sumZ (valorOf Venda) es /\
    aggTotalPurchases a = sumZ (valorOf Compra) es /\
    aggTotalExpenses a = sumZ (valorOf Despesa) es /\
    aggTotalProfit a
    = sumZ (valorOf Venda) es - sumZ (valorOf Compra) es - sumZ (valorOf Despesa) es /\
    aggTotalTransactions a = Z.of_nat (length es) /\
    aggSalesCount a = sumZ (oneOf Venda) es /\
    aggPurchasesCount a = sumZ (oneOf Compra) es /\
    aggExpensesCount a = sumZ (oneOf Despesa) es /\
    length (dailyBreakdown a) = 1%nat.
Proof.
  cbv zeta.
  assert (H1 : backfillRange marchRequest 1710100000000 = Ok (1709251200000, 1711843200000))
    by reflexivity.
  assert (H2 : forallb (fun d => validDate d.2)
                 (rangeQuery 1709251200000 1711843200000 (transactions (db smallLedger)))
               = true) by (vm_compute; reflexivity).
  assert (H3 : storesDay (BackfillRequest.forceOverwrite marchRequest)
                 (daily_reports (db smallLedger)) "2024-03-09" = true) by reflexivity.
  assert (H4 : (0 < length (entriesOfDay "2024-03-09"
                              (rangeQuery 1709251200000 1711843200000
                                 (transactions (db smallLedger)))))%nat)
    by (vm_compute; lia).
  exact (conj H1 (conj H2 (conj H3 (conj H4
           (X19_backfilled_day_aggregates_to_ledger marchRequest 1710100000000 1710100001000
              1710100002000 smallLedger _ _ "2024-03-09" H1 H2 H3 H4))))).
Defined.
